(** * ZeroPrint: the emissions calculator, the tips requester and the news pager

    A shallow embedding of the client-side logic of the ZeroPrint pages
    (the calculator class [CarbonFootprintCalculator] and the learning page's
    news feed), followed by the properties stated about them.

    Conventions of the embedding.
    - A JavaScript string is the list of its UTF-16 code units.
    - A JavaScript number keeps its special values ([NaN], the two
      infinities); finite values are computed exactly over [Q], so the
      rounding of IEEE doubles (and the sign of zero) is abstracted.
    - The DOM is a record of the values the scripts write into the page.
    - An [async] function is split at its [await]: the network's answer is an
      argument of the model. *)

From Stdlib Require Import List ZArith NArith QArith Bool String Ascii Lia.
From Stdlib Require Import Lqa Permutation Sorted.
From Stdlib Require DecimalString.
Import ListNotations.
Close Scope Q_scope.
Set Warnings "-register-all".

(* ===================================================================== *)
(** * JavaScript strings *)
(* ===================================================================== *)

Module JSString.

(** A string is its sequence of UTF-16 code units. *)
Definition jsstring : Type := list N.

(** An ASCII literal of the scripts. *)
Definition lit (s : string) : jsstring :=
  map N_of_ascii (list_ascii_of_string s).

(** The double quote, which a literal cannot hold. *)
Definition dq : jsstring := [34%N].

(** The line feed of the template literals. *)
Definition nl : jsstring := [10%N].

Fixpoint eqb (a b : jsstring) : bool :=
  match a, b with
  | [], [] => true
  | x :: a', y :: b' => N.eqb x y && eqb a' b'
  | _, _ => false
  end.

(** [a === b] on strings. *)
Definition strictEq (a b : jsstring) : bool := eqb a b.

(** [x || d] for a property that holds a string or is absent: the empty
    string and [undefined] are the falsy values. *)
Definition orElse (x : option jsstring) (d : jsstring) : jsstring :=
  match x with
  | Some (c :: s) => c :: s
  | Some [] | None => d
  end.

(** [parts.join('')]. *)
Definition join (parts : list jsstring) : jsstring := List.concat parts.

(** [s.slice(a, b)] for [0 <= a <= b]. *)
Definition slice {A : Type} (a b : nat) (s : list A) : list A :=
  firstn (b - a) (skipn a s).

End JSString.

(* ===================================================================== *)
(** * JavaScript numbers *)
(* ===================================================================== *)

Module JSNumber.

Inductive number : Type :=
| NaN
| Fin (q : Q)
| Infinity (negative : bool).

Definition Qltb (a b : Q) : bool := negb (Qle_bool b a).

Definition neg (x : number) : number :=
  match x with
  | NaN => NaN
  | Fin q => Fin (- q)
  | Infinity s => Infinity (negb s)
  end.

(** [x + y]. *)
Definition add (x y : number) : number :=
  match x, y with
  | NaN, _ | _, NaN => NaN
  | Fin a, Fin b => Fin (a + b)
  | Fin _, Infinity s | Infinity s, Fin _ => Infinity s
  | Infinity s, Infinity t => if Bool.eqb s t then Infinity s else NaN
  end.

(** [x - y]. *)
Definition sub (x y : number) : number := add x (neg y).

(** [x * y]. *)
Definition mul (x y : number) : number :=
  match x, y with
  | NaN, _ | _, NaN => NaN
  | Fin a, Fin b => Fin (a * b)
  | Fin a, Infinity s | Infinity s, Fin a =>
      if Qeq_bool a 0 then NaN else Infinity (xorb s (Qltb a 0))
  | Infinity s, Infinity t => Infinity (xorb s t)
  end.

(** [x / y]; a zero divisor is read as [+0]. *)
Definition div (x y : number) : number :=
  match x, y with
  | NaN, _ | _, NaN => NaN
  | Fin a, Fin b =>
      if Qeq_bool b 0
      then (if Qeq_bool a 0 then NaN else Infinity (Qltb a 0))
      else Fin (a / b)
  | Fin _, Infinity _ => Fin 0
  | Infinity s, Fin b => Infinity (xorb s (Qltb b 0))
  | Infinity _, Infinity _ => NaN
  end.

(** [x > y]: false as soon as one side is [NaN]. *)
Definition gt (x y : number) : bool :=
  match x, y with
  | NaN, _ | _, NaN => false
  | Fin a, Fin b => Qltb b a
  | Fin _, Infinity s => s
  | Infinity s, Fin _ => negb s
  | Infinity s, Infinity t => negb s && t
  end.

(** [x >= y]. *)
Definition ge (x y : number) : bool :=
  match x, y with
  | NaN, _ | _, NaN => false
  | Fin a, Fin b => Qle_bool b a
  | Fin _, Infinity s => s
  | Infinity s, Fin _ => negb s
  | Infinity s, Infinity t => negb s || t
  end.

(** [Math.max(x, y)] and [Math.min(x, y)]: [NaN] as soon as one argument
    is. *)
Definition max2 (x y : number) : number :=
  match x, y with
  | NaN, _ | _, NaN => NaN
  | _, _ => if gt y x then y else x
  end.

Definition min2 (x y : number) : number :=
  match x, y with
  | NaN, _ | _, NaN => NaN
  | _, _ => if gt x y then y else x
  end.

(** [Math.max(...xs)]: minus infinity for no argument. *)
Definition max_of (xs : list number) : number :=
  fold_left max2 xs (Infinity true).

(** [Number.isFinite(x) && x >= 0]. *)
Definition finite_nonneg (x : number) : bool :=
  match x with
  | Fin q => Qle_bool 0 q
  | _ => false
  end.

(** Equality of numbers up to the representation of a fraction. *)
Definition num_eq (x y : number) : Prop :=
  match x, y with
  | NaN, NaN => True
  | Fin a, Fin b => (a == b)%Q
  | Infinity s, Infinity t => s = t
  | _, _ => False
  end.

(** [Math.PI]: the value of the double nearest to pi. *)
Definition Math_PI : number := Fin (884279719003555 # 281474976710656).

End JSNumber.

Declare Scope num_scope.
Delimit Scope num_scope with num.
Bind Scope num_scope with JSNumber.number.
Infix "+" := JSNumber.add : num_scope.
Infix "-" := JSNumber.sub : num_scope.
Infix "*" := JSNumber.mul : num_scope.
Infix "/" := JSNumber.div : num_scope.
Infix ">?" := JSNumber.gt (at level 70, no associativity) : num_scope.
Infix ">=?" := JSNumber.ge (at level 70, no associativity) : num_scope.
Infix "=#" := JSNumber.num_eq (at level 70, no associativity) : num_scope.

(* ===================================================================== *)
(** * How a call ends *)
(* ===================================================================== *)

Module Control.

(** A call returns, or an exception leaves it (for an [async] function:
    its promise is fulfilled, or rejected).  Both carry the state
    reached. *)
Inductive Completion (S : Type) : Type :=
| Returns (s : S)
| Throws (s : S).
Arguments Returns {S}.
Arguments Throws {S}.

Definition stateOf {S : Type} (r : Completion S) : S :=
  match r with Returns s | Throws s => s end.

End Control.

(* ===================================================================== *)
(** * The emissions calculator ([CarbonFootprintCalculator]) *)
(* ===================================================================== *)

Module Calculator.
Import JSString JSNumber Control.
Local Open Scope num_scope.

(** The keys of [transportData], in the order of the object literal, which
    is the order [Object.entries] and [Object.values] enumerate. *)
Inductive Mode : Type := Bus | Car | Bike | Cycle | Walking.

Definition Mode_eqb (a b : Mode) : bool :=
  match a, b with
  | Bus, Bus | Car, Car | Bike, Bike | Cycle, Cycle | Walking, Walking => true
  | _, _ => false
  end.

Definition keyOf (m : Mode) : jsstring :=
  match m with
  | Bus => lit "bus"
  | Car => lit "car"
  | Bike => lit "bike"
  | Cycle => lit "cycle"
  | Walking => lit "walking"
  end.

Definition modes : list Mode := [Bus; Car; Bike; Cycle; Walking].

(** The own property of [transportData] a key names, if any. *)
Definition modeOfKey (k : jsstring) : option Mode :=
  find (fun m => strictEq (keyOf m) k) modes.

(** One value per key: the object [transportData] itself, and the families
    of page elements named [`${transport}-...`]. *)
Record PerMode (A : Type) : Type := mkPerMode
  { bus : A; car : A; bike : A; cycle : A; walking : A }.
Arguments mkPerMode {A}.
Arguments bus {A}.
Arguments car {A}.
Arguments bike {A}.
Arguments cycle {A}.
Arguments walking {A}.

Definition get {A : Type} (m : Mode) (p : PerMode A) : A :=
  match m with
  | Bus => bus p
  | Car => car p
  | Bike => bike p
  | Cycle => cycle p
  | Walking => walking p
  end.

Definition set {A : Type} (m : Mode) (v : A) (p : PerMode A) : PerMode A :=
  match m with
  | Bus => mkPerMode v (car p) (bike p) (cycle p) (walking p)
  | Car => mkPerMode (bus p) v (bike p) (cycle p) (walking p)
  | Bike => mkPerMode (bus p) (car p) v (cycle p) (walking p)
  | Cycle => mkPerMode (bus p) (car p) (bike p) v (walking p)
  | Walking => mkPerMode (bus p) (car p) (bike p) (cycle p) v
  end.

(** [{ distance: ..., emission: ... }], the emission in kg CO2 per km. *)
Record TransportEntry : Type := mkEntry
  { distance : number; emission : number }.

Definition TransportData : Type := PerMode TransportEntry.

Definition Object_entries (td : TransportData) : list (Mode * TransportEntry) :=
  map (fun m => (m, get m td)) modes.

Definition Object_values (td : TransportData) : list TransportEntry :=
  map snd (Object_entries td).

(** The object literal with the five fixed emission factors. *)
Definition transportDataOf (b c k cy w : number) : TransportData :=
  {| bus := mkEntry b (Fin 0.12);
     car := mkEntry c (Fin 0.21);
     bike := mkEntry k (Fin 0.075);
     cycle := mkEntry cy (Fin 0);
     walking := mkEntry w (Fin 0) |}.

(** The literal of the constructor and of [resetCalculator]. *)
Definition zeroTransportData : TransportData :=
  transportDataOf (Fin 0) (Fin 0) (Fin 0) (Fin 0) (Fin 0).

(** The three bands of [updateAchievement]. *)
Inductive Tier : Type := Outstanding | GoodProgress | NeedsImprovement.

Definition tierText (t : Tier) : jsstring :=
  match t with
  | Outstanding => lit "Outstanding! Over 50% of your travel is zero-emission."
  | GoodProgress => lit "Good progress! 25% of your travel is zero-emission."
  | NeedsImprovement =>
      lit "Try to increase zero-emission transportation for better impact."
  end.

Definition tierBackground (t : Tier) : jsstring :=
  match t with
  | Outstanding => lit "#d4edda"
  | GoodProgress => lit "#fff3cd"
  | NeedsImprovement => lit "#f8d7da"
  end.

(** What the calculator writes into the page.  A number stands for the text
    made from it ([toFixed] and the unit are not modelled); an element the
    script looks up behind an [if] is optional, the others are taken to be
    on the page. *)
Record Dom : Type := mkDom
  { slider_value : PerMode (option number); (* #<mode>-slider, .value *)
    value_text : PerMode number;            (* #<mode>-value: `${v} km` *)
    total_distance_text : number;           (* #total-distance, toFixed(0) *)
    emission_text : PerMode (option number);(* #<mode>-emission, toFixed(1) *)
    total_emission_text : number;           (* #total-emission, toFixed(1) *)
    co2_saved_text : number;                (* #co2-saved, toFixed(1) *)
    bar_height : PerMode (option number);   (* #<mode>-bar, style.height in % *)
    stroke_dashoffset : number;             (* #progress-circle *)
    achievement_text : jsstring;            (* .achievement-text *)
    achievement_background : jsstring }.    (* .achievement, style.background *)

(** [el.prop = v] behind [if (el)]. *)
Definition assignIfPresent (m : Mode) (v : number)
    (p : PerMode (option number)) : PerMode (option number) :=
  match get m p with
  | Some _ => set m (Some v) p
  | None => p
  end.

(** The calculator object: its data and the page it draws on. *)
Record Calc : Type := mkCalc
  { transportData : TransportData; dom : Dom }.

(** [Object.values(this.transportData).reduce((sum, data) => sum +
    data.distance, 0)]. *)
Definition totalDistanceOf (td : TransportData) : number :=
  fold_left (fun sum data => sum + distance data) (Object_values td) (Fin 0).

(** [Object.entries(this.transportData).reduce((sum, [transport, data]) =>
    sum + (data.distance * data.emission), 0)]. *)
Definition totalEmissionOf (td : TransportData) : number :=
  fold_left (fun sum e => sum + (distance (snd e) * emission (snd e)))
            (Object_entries td) (Fin 0).

(** [updateTransportValue(transport, value)]. *)
Definition updateTransportValue (transport : Mode) (value : number)
    (d : Dom) : Dom :=
  mkDom (slider_value d) (set transport value (value_text d))
        (total_distance_text d) (emission_text d) (total_emission_text d)
        (co2_saved_text d) (bar_height d) (stroke_dashoffset d)
        (achievement_text d) (achievement_background d).

(** [updateTotalDistance()]. *)
Definition updateTotalDistance (td : TransportData) (d : Dom) : Dom :=
  let totalDistance := totalDistanceOf td in
  mkDom (slider_value d) (value_text d)
        totalDistance (emission_text d) (total_emission_text d)
        (co2_saved_text d) (bar_height d) (stroke_dashoffset d)
        (achievement_text d) (achievement_background d).

(** The body of the [forEach] of [updateEmissions]: the two running totals
    and the per-mode texts written so far. *)
Definition updateEmissions_each
    (acc : number * number * PerMode (option number))
    (e : Mode * TransportEntry) : number * number * PerMode (option number) :=
  let '(totalEmission, totalSaved, texts) := acc in
  let '(transport, data) := e in
  let emission_ := distance data * emission data in
  let totalEmission := totalEmission + emission_ in
  let totalSaved :=
    if negb (Mode_eqb transport Car)
    then
      let carEmission := distance data * Fin 0.21 in
      let saved := max2 (Fin 0) (carEmission - emission_) in
      totalSaved + saved
    else totalSaved in
  (totalEmission, totalSaved, assignIfPresent transport emission_ texts).

(** [updateEmissions()]. *)
Definition updateEmissions (td : TransportData) (d : Dom) : Dom :=
  let '(totalEmission, totalSaved, texts) :=
    fold_left updateEmissions_each (Object_entries td)
              (Fin 0, Fin 0, emission_text d) in
  mkDom (slider_value d) (value_text d)
        (total_distance_text d) texts totalEmission
        totalSaved (bar_height d) (stroke_dashoffset d)
        (achievement_text d) (achievement_background d).

(** [updateBarChart()]. *)
Definition updateBarChart (td : TransportData) (d : Dom) : Dom :=
  let maxEmission :=
    max_of (map (fun e => distance (snd e) * emission (snd e))
                (Object_entries td)) in
  let bars :=
    fold_left
      (fun bars e =>
         let emission_ := distance (snd e) * emission (snd e) in
         let percentage :=
           if maxEmission >? Fin 0
           then (emission_ / maxEmission) * Fin 100
           else Fin 0 in
         assignIfPresent (fst e) (max2 percentage (Fin 5)) bars)
      (Object_entries td) (bar_height d) in
  mkDom (slider_value d) (value_text d)
        (total_distance_text d) (emission_text d) (total_emission_text d)
        (co2_saved_text d) bars (stroke_dashoffset d)
        (achievement_text d) (achievement_background d).

(** [updateProgressCircle()]. *)
Definition updateProgressCircle (td : TransportData) (d : Dom) : Dom :=
  let totalDistance := totalDistanceOf td in
  let maxDistance := Fin 500 in
  let percentage := min2 ((totalDistance / maxDistance) * Fin 100) (Fin 100) in
  let circumference := Fin 2 * Math_PI * Fin 100 in
  let offset := circumference - (percentage / Fin 100) * circumference in
  mkDom (slider_value d) (value_text d)
        (total_distance_text d) (emission_text d) (total_emission_text d)
        (co2_saved_text d) (bar_height d) offset
        (achievement_text d) (achievement_background d).

(** The quantity [updateAchievement] classifies. *)
Definition zeroEmissionPercentage (td : TransportData) : number :=
  let zeroEmissionDistance :=
    distance (cycle td) + distance (walking td) in
  let totalDistance := totalDistanceOf td in
  if totalDistance >? Fin 0
  then (zeroEmissionDistance / totalDistance) * Fin 100
  else Fin 0.

(** The chain of comparisons of [updateAchievement]. *)
Definition achievementTier (td : TransportData) : Tier :=
  if zeroEmissionPercentage td >=? Fin 50 then Outstanding
  else if zeroEmissionPercentage td >=? Fin 25 then GoodProgress
  else NeedsImprovement.

(** [updateAchievement()]. *)
Definition updateAchievement (td : TransportData) (d : Dom) : Dom :=
  let t := achievementTier td in
  mkDom (slider_value d) (value_text d)
        (total_distance_text d) (emission_text d) (total_emission_text d)
        (co2_saved_text d) (bar_height d) (stroke_dashoffset d)
        (tierText t) (tierBackground t).

(** [updateCalculations()]. *)
Definition updateCalculations (c : Calc) : Calc :=
  let td := transportData c in
  let d := updateTotalDistance td (dom c) in
  let d := updateEmissions td d in
  let d := updateBarChart td d in
  let d := updateProgressCircle td d in
  let d := updateAchievement td d in
  mkCalc td d.

(** The [input] listener [setupSliders] binds to a slider. [transport] is
    the slider's [data-transport] attribute and [value] is
    [parseFloat(e.target.value)]. A key that names no entry makes
    [this.transportData[transport]] undefined and the assignment throws. *)
Definition sliderInput (transport : jsstring) (value : number) (c : Calc)
    : Completion Calc :=
  match modeOfKey transport with
  | None => Throws c
  | Some m =>
      let td := transportData c in
      let td := set m (mkEntry value (emission (get m td))) td in
      let d := updateTransportValue m value (dom c) in
      Returns (updateCalculations (mkCalc td d))
  end.

(** [resetCalculator()]. *)
Definition resetCalculator (c : Calc) : Calc :=
  let td := zeroTransportData in
  let d :=
    fold_left
      (fun d e =>
         let d :=
           mkDom (assignIfPresent (fst e) (Fin 0) (slider_value d))
                 (value_text d) (total_distance_text d) (emission_text d)
                 (total_emission_text d) (co2_saved_text d) (bar_height d)
                 (stroke_dashoffset d) (achievement_text d)
                 (achievement_background d) in
         updateTransportValue (fst e) (Fin 0) d)
      (Object_entries td) (dom c) in
  updateCalculations (mkCalc td d).

(** The request body [generateTailoredTips] builds from the calculator. *)
Record Snapshot : Type := mkSnapshot
  { s_bus : number; s_car : number; s_bike : number; s_cycle : number;
    s_walking : number; s_totalDistance : number; s_totalEmission : number }.

Definition snapshot (c : Calc) : Snapshot :=
  let td := transportData c in
  {| s_bus := distance (bus td);
     s_car := distance (car td);
     s_bike := distance (bike td);
     s_cycle := distance (cycle td);
     s_walking := distance (walking td);
     s_totalDistance := totalDistanceOf td;
     s_totalEmission := totalEmissionOf td |}.

End Calculator.

(* ===================================================================== *)
(** * The answers of the network *)
(* ===================================================================== *)

Module Fetch.

(** [await response.json()]: the promise rejects (the body is not JSON) or
    gives the parsed value. *)
Inductive Body (D : Type) : Type :=
| JsonRejects
| JsonResolves (data : D).
Arguments JsonRejects {D}.
Arguments JsonResolves {D}.

(** [await fetch(...)]: the promise rejects (no response) or gives a
    response with its status. *)
Inductive Response (D : Type) : Type :=
| FetchRejects
| FetchResolves (status : N) (body : Body D).
Arguments FetchRejects {D}.
Arguments FetchResolves {D}.

(** [response.ok]. *)
Definition ok (status : N) : bool :=
  (200 <=? status)%N && (status <=? 299)%N.

End Fetch.

(* ===================================================================== *)
(** * The tips requester ([generateTailoredTips]) *)
(* ===================================================================== *)

Module Tips.
Import JSString JSNumber Control Calculator Fetch.

(** A value [JSON.parse] can give. *)
Inductive json : Type :=
| JNull
| JBool (b : bool)
| JNum (n : number)
| JStr (s : jsstring)
| JArr (items : list json)
| JObj (fields : list (jsstring * json)).

(** What the engine alone decides: [ToNumber] of a string, an array or an
    object (the grammar of numeric strings and [ToPrimitive]). *)
Class Coercions : Type :=
  { ToNumber_coerce : json -> number }.

(** The own property [name] of a parsed object; [None] is [undefined]. *)
Fixpoint lookup (name : jsstring) (fields : list (jsstring * json))
    : option json :=
  match fields with
  | [] => None
  | (k, v) :: rest => if strictEq k name then Some v else lookup name rest
  end.

(** [data.tips]: the outer [None] is the TypeError of reading a property of
    [null]; a boolean, a number, a string or an array has no such
    property. *)
Definition read_tips (data : json) : option (option json) :=
  match data with
  | JNull => None
  | JObj fields => Some (lookup (lit "tips") fields)
  | JBool _ | JNum _ | JStr _ | JArr _ => Some None
  end.

(** The truth value of a property. *)
Definition truthy (v : option json) : bool :=
  match v with
  | None | Some JNull => false
  | Some (JBool b) => b
  | Some (JNum NaN) => false
  | Some (JNum (Fin q)) => negb (Qeq_bool q 0)
  | Some (JNum (Infinity _)) => true
  | Some (JStr []) => false
  | Some (JStr (_ :: _)) => true
  | Some (JArr _) | Some (JObj _) => true
  end.

(** [ToNumber(v) > 0]. *)
Definition positive `{Coercions} (v : json) : bool :=
  match v with
  | JNull => false
  | JBool b => b
  | JNum n => gt n (Fin 0)
  | JStr _ | JArr _ | JObj _ => gt (ToNumber_coerce v) (Fin 0)
  end.

(** [tips.length > 0] for a truthy [tips]. *)
Definition length_positive `{Coercions} (tips : json) : bool :=
  match tips with
  | JArr items => (0 <? List.length items)%nat
  | JStr s => (0 <? List.length s)%nat
  | JObj fields =>
      match lookup (lit "length") fields with
      | Some v => positive v
      | None => false
      end
  | JNull | JBool _ | JNum _ => false
  end.

(** The elements that follow the description paragraph of the tips
    section. *)
Inductive TipsNode : Type :=
| LoadingDiv                         (* div.tips-loading *)
| TipsContent (items : list json)    (* div.tips-content: one li per item,
                                        the item assigned to textContent *)
| TipsError (innerHTML : jsstring)   (* div.tips-error *)
| Markup (n : N).                    (* whatever the page held before *)

(** [.tips-section]: whether it holds a paragraph, and what follows it. *)
Record TipsSection : Type := mkSection
  { has_description : bool; after_description : list TipsNode }.

Definition styledParagraph (message : jsstring) : jsstring :=
  lit "<p style=" ++ dq
    ++ lit "color: #6b7280; font-style: italic; margin-top: 1rem;" ++ dq
    ++ lit ">" ++ message ++ lit "</p>".

(** The markup of the [else] branch. *)
Definition unableHTML : jsstring :=
  styledParagraph (lit "Unable to generate tailored tips. Please try again.").

(** The markup of the [catch] block. *)
Definition errorHTML : jsstring :=
  styledParagraph (lit "Error generating tailored tips. Please try again.").

Definition isLoadingDiv (n : TipsNode) : bool :=
  match n with LoadingDiv => true | _ => false end.

(** [loadingDiv.remove()]. *)
Definition removeLoading (after : list TipsNode) : list TipsNode :=
  filter (fun n => negb (isLoadingDiv n)) after.

(** [tipsDescription.insertAdjacentElement('afterend', el)]. *)
Definition insertAfterDescription (el : TipsNode) (after : list TipsNode)
    : list TipsNode :=
  el :: after.

(** The [try] block, from the awaited answer on. *)
Definition tryBlock `{Coercions} (answer : Response json)
    (after : list TipsNode) : Completion (list TipsNode) :=
  match answer with
  | FetchRejects => Throws after
  | FetchResolves _ JsonRejects => Throws after
  | FetchResolves _ (JsonResolves data) =>
      let after := removeLoading after in
      match read_tips data with
      | None => Throws after
      | Some tips =>
          if truthy tips && match tips with
                            | Some t => length_positive t
                            | None => false
                            end
          then
            match tips with
            | Some (JArr items) =>
                (* slice(0, 5), then one li per tip *)
                let tipsToShow := slice 0 5 items in
                Returns (insertAfterDescription (TipsContent tipsToShow) after)
            | _ =>
                (* no slice, or a slice without forEach *)
                Throws after
            end
          else Returns (insertAfterDescription (TipsError unableHTML) after)
      end
  end.

(** The [catch] block. *)
Definition catchBlock (after : list TipsNode) : list TipsNode :=
  insertAfterDescription (TipsError errorHTML) (removeLoading after).

(** [generateTailoredTips()]: [service] answers the request body sent; the
    result is the settled promise, [Throws] being a rejection. *)
Definition generateTailoredTips `{Coercions} (c : Calc)
    (service : Snapshot -> Response json) (page : option TipsSection)
    : Completion (option TipsSection) :=
  match page with
  | None => Throws page                  (* tipsSection is null *)
  | Some section =>
      if negb (has_description section)
      then Throws page                   (* tipsDescription is null *)
      else
        (* every sibling after the description is removed *)
        let after := insertAfterDescription LoadingDiv [] in
        let transportData := snapshot c in
        let after :=
          match tryBlock (service transportData) after with
          | Returns after => after
          | Throws after => catchBlock after
          end in
        Returns (Some (mkSection true after))
  end.

End Tips.

(* ===================================================================== *)
(** * The news feed of the learning page *)
(* ===================================================================== *)

Module News.
Import JSString JSNumber Control Fetch.

(** What the engine alone decides: the case mappings of strings and the
    parsing of a date string ([None] is the time value [NaN] of an invalid
    date, [Some t] a time value in milliseconds). *)
Class Engine : Type :=
  { toLowerCase : jsstring -> jsstring;
    toUpperCase : jsstring -> jsstring;
    Date_parse : jsstring -> option Z }.

(** An element of [data.items]; a property holds a string or is absent. *)
Record NewsItem : Type := mkItem
  { title : option jsstring;
    summary : option jsstring;
    source : option jsstring;
    published : option jsstring;
    link : option jsstring;
    category : option jsstring;
    image : option jsstring }.

(** [window.__NEWS_STATE__]. *)
Record NewsState : Type := mkState
  { allItems : list NewsItem;
    page : nat;
    pageSize : nat;
    filteredCategory : jsstring;
    loading : bool;
    reachedEnd : bool }.

(** The object the [DOMContentLoaded] listener creates. *)
Definition initialState : NewsState :=
  {| allItems := []; page := 0; pageSize := 9; filteredCategory := lit "all";
     loading := false; reachedEnd := false |}.

(** What [renderFeatured] writes into the featured slot, whose elements are
    taken to be on the page. *)
Record Featured : Type := mkFeatured
  { featured_title : jsstring;      (* #featured-title, textContent *)
    featured_excerpt : jsstring;    (* #featured-excerpt, textContent *)
    featured_date : jsstring;       (* #featured-date, innerHTML *)
    featured_source : jsstring;     (* #featured-source, innerHTML *)
    featured_link : option jsstring;  (* #featured-link, href *)
    featured_image : option jsstring }. (* #featured-image, src, once shown *)

(** The page: the cursor, the markup of [#news-grid] ([None] when the page
    has no such element) and the featured slot. *)
Record Page : Type := mkPage
  { state : NewsState; grid : option jsstring; featured : Featured }.

Definition setState (st : NewsState) (p : Page) : Page :=
  mkPage st (grid p) (featured p).

Definition setGrid (g : jsstring) (p : Page) : Page :=
  mkPage (state p) (Some g) (featured p).

Definition setFeatured (f : Featured) (p : Page) : Page :=
  mkPage (state p) (grid p) f.

Definition setAllItems (l : list NewsItem) (st : NewsState) : NewsState :=
  mkState l (page st) (pageSize st) (filteredCategory st) (loading st)
          (reachedEnd st).

Definition setPageIndex (n : nat) (st : NewsState) : NewsState :=
  mkState (allItems st) n (pageSize st) (filteredCategory st) (loading st)
          (reachedEnd st).

Definition setFilteredCategory (c : jsstring) (st : NewsState) : NewsState :=
  mkState (allItems st) (page st) (pageSize st) c (loading st)
          (reachedEnd st).

Definition setLoading (b : bool) (st : NewsState) : NewsState :=
  mkState (allItems st) (page st) (pageSize st) (filteredCategory st) b
          (reachedEnd st).

Definition setReachedEnd (b : bool) (st : NewsState) : NewsState :=
  mkState (allItems st) (page st) (pageSize st) (filteredCategory st)
          (loading st) b.

(** ** Markup *)

(** [s.replace(/c/g, by)] for a one-character pattern. *)
Definition replaceAll (c : N) (by_ : jsstring) (s : jsstring) : jsstring :=
  flat_map (fun x => if N.eqb x c then by_ else [x]) s.

(** [escapeHTML(str)]: five passes, the ampersand first. *)
Definition escapeHTML (str : jsstring) : jsstring :=
  replaceAll 39 (lit "&#039;")
    (replaceAll 34 (lit "&quot;")
       (replaceAll 62 (lit "&gt;")
          (replaceAll 60 (lit "&lt;")
             (replaceAll 38 (lit "&amp;") str)))).

(** [categoryIcon(category)]. *)
Definition categoryIcon (category_ : jsstring) : jsstring :=
  if strictEq category_ (lit "technology") then lit "fas fa-microchip"
  else if strictEq category_ (lit "policy") then lit "fas fa-gavel"
  else if strictEq category_ (lit "science") then lit "fas fa-flask"
  else if strictEq category_ (lit "business") then lit "fas fa-briefcase"
  else lit "fas fa-globe".

(** [prettyCategory(category)]. *)
Definition prettyCategory `{Engine} (category_ : jsstring) : jsstring :=
  toUpperCase (firstn 1 category_) ++ skipn 1 category_.

(** The template literal of [renderNewsItem], its substitutions named. *)
Definition newsCard
    (category link imageMarkup pretty sourceSuffix title summary date
       : jsstring) : jsstring :=
  nl
  ++ lit "        <article class=" ++ dq ++ lit "news-card" ++ dq
       ++ lit " data-category=" ++ dq ++ category ++ dq ++ lit ">" ++ nl
  ++ lit "            <a href=" ++ dq ++ link ++ dq ++ lit " target=" ++ dq
       ++ lit "_blank" ++ dq ++ lit " rel=" ++ dq ++ lit "noopener" ++ dq
       ++ lit " style=" ++ dq ++ lit "text-decoration:none;color:inherit;"
       ++ dq ++ lit ">" ++ nl
  ++ lit "                <div class=" ++ dq ++ lit "news-image" ++ dq
       ++ lit ">" ++ nl
  ++ lit "                    " ++ imageMarkup ++ nl
  ++ lit "                </div>" ++ nl
  ++ lit "                <div class=" ++ dq ++ lit "news-content" ++ dq
       ++ lit ">" ++ nl
  ++ lit "                    <div class=" ++ dq ++ lit "news-category" ++ dq
       ++ lit ">" ++ pretty ++ sourceSuffix ++ lit "</div>" ++ nl
  ++ lit "                    <h3>" ++ title ++ lit "</h3>" ++ nl
  ++ lit "                    <p>" ++ summary ++ lit "</p>" ++ nl
  ++ lit "                    <div class=" ++ dq ++ lit "news-meta" ++ dq
       ++ lit ">" ++ nl
  ++ lit "                        <span class=" ++ dq ++ lit "date" ++ dq
       ++ lit ">" ++ date ++ lit "</span>" ++ nl
  ++ lit "                        <span class=" ++ dq ++ lit "read-time" ++ dq
       ++ lit ">Live</span>" ++ nl
  ++ lit "                    </div>" ++ nl
  ++ lit "                </div>" ++ nl
  ++ lit "            </a>" ++ nl
  ++ lit "        </article>" ++ nl
  ++ lit "    ".

(** The nested template of the image: the [img] element when the item has an
    image, the placeholder with the category's icon otherwise. *)
Definition imageMarkupOf (image title icon : jsstring) : jsstring :=
  match image with
  | _ :: _ =>
      lit "<img src=" ++ dq ++ image ++ dq ++ lit " alt=" ++ dq ++ title ++ dq
        ++ lit " onerror=" ++ dq ++ lit "this.style.display='none'" ++ dq
        ++ lit "/>"
  | [] =>
      lit "<div class=" ++ dq ++ lit "image-placeholder small" ++ dq
        ++ lit "><i class=" ++ dq ++ icon ++ dq ++ lit "></i></div>"
  end.

(** The nested template of the source: a middle dot (U+00B7) between
    spaces, then the source. *)
Definition sourceSuffixOf (source : jsstring) : jsstring :=
  match source with
  | _ :: _ => lit " " ++ [183%N] ++ lit " " ++ source
  | [] => []
  end.

(** [renderNewsItem(item)]. *)
Definition renderNewsItem `{Engine} (item : NewsItem) : jsstring :=
  let category_ := toLowerCase (orElse (category item) (lit "other")) in
  let icon := categoryIcon category_ in
  let source_ := escapeHTML (orElse (source item) []) in
  let title_ := escapeHTML (orElse (title item) []) in
  let summary_ := escapeHTML (orElse (summary item) []) in
  let link_ := orElse (link item) (lit "#") in
  let date := escapeHTML (orElse (published item) []) in
  let image_ := orElse (image item) [] in
  newsCard category_ link_ (imageMarkupOf image_ title_ icon)
           (prettyCategory category_) (sourceSuffixOf source_)
           title_ summary_ date.

(** One card of [createSkeletonCards]; the date reads "Loading" followed by
    an ellipsis (U+2026). *)
Definition skeletonCard : jsstring :=
  nl
  ++ lit "        <article class=" ++ dq ++ lit "news-card" ++ dq
       ++ lit " aria-busy=" ++ dq ++ lit "true" ++ dq ++ lit ">" ++ nl
  ++ lit "            <div class=" ++ dq ++ lit "news-image" ++ dq ++ lit ">"
       ++ nl
  ++ lit "                <div class=" ++ dq ++ lit "image-placeholder small"
       ++ dq ++ lit " style=" ++ dq
       ++ lit "animation:pulse 1.2s infinite ease-in-out;" ++ dq
       ++ lit "></div>" ++ nl
  ++ lit "            </div>" ++ nl
  ++ lit "            <div class=" ++ dq ++ lit "news-content" ++ dq ++ lit ">"
       ++ nl
  ++ lit "                <div class=" ++ dq ++ lit "news-category" ++ dq
       ++ lit " style=" ++ dq
       ++ lit "width:160px;height:20px;background:#e2e8f0;border-radius:8px;animation:pulse 1.2s infinite ease-in-out;"
       ++ dq ++ lit "></div>" ++ nl
  ++ lit "                <div style=" ++ dq
       ++ lit "height:20px;margin-top:12px;background:#e2e8f0;border-radius:8px;animation:pulse 1.2s infinite ease-in-out;"
       ++ dq ++ lit "></div>" ++ nl
  ++ lit "                <div style=" ++ dq
       ++ lit "height:14px;margin-top:10px;background:#edf2f7;border-radius:6px;animation:pulse 1.2s infinite ease-in-out;"
       ++ dq ++ lit "></div>" ++ nl
  ++ lit "                <div style=" ++ dq
       ++ lit "height:14px;margin-top:8px;background:#edf2f7;border-radius:6px;animation:pulse 1.2s infinite ease-in-out;"
       ++ dq ++ lit "></div>" ++ nl
  ++ lit "                <div class=" ++ dq ++ lit "news-meta" ++ dq
       ++ lit " style=" ++ dq ++ lit "margin-top:12px;opacity:.6;" ++ dq
       ++ lit ">" ++ nl
  ++ lit "                    <span class=" ++ dq ++ lit "date" ++ dq
       ++ lit ">Loading" ++ [8230%N] ++ lit "</span>" ++ nl
  ++ lit "                    <span class=" ++ dq ++ lit "read-time" ++ dq
       ++ lit ">Live</span>" ++ nl
  ++ lit "                </div>" ++ nl
  ++ lit "            </div>" ++ nl
  ++ lit "        </article>" ++ nl
  ++ lit "    ".

(** [createSkeletonCards(count)]. *)
Definition createSkeletonCards (count : nat) : jsstring :=
  join (repeat skeletonCard count).

(** [emptyStateHTML()]. *)
Definition emptyStateHTML : jsstring :=
  nl
  ++ lit "        <div style=" ++ dq
       ++ lit "grid-column:1/-1;text-align:center;padding:2rem;color:#718096;"
       ++ dq ++ lit ">" ++ nl
  ++ lit "            No news found right now. Please try again later." ++ nl
  ++ lit "        </div>" ++ nl
  ++ lit "    ".

(** [errorStateHTML()]. *)
Definition errorStateHTML : jsstring :=
  nl
  ++ lit "        <div style=" ++ dq
       ++ lit "grid-column:1/-1;text-align:center;padding:2rem;color:#e53e3e;"
       ++ dq ++ lit ">" ++ nl
  ++ lit "            Could not load news. Please refresh the page." ++ nl
  ++ lit "        </div>" ++ nl
  ++ lit "    ".

(** ** The featured slot *)

(** [renderFeatured(item)]; [None] is the [undefined] of [sorted[0]] on an
    empty array. *)
Definition renderFeatured (item : option NewsItem) (f : Featured) : Featured :=
  match item with
  | None => f
  | Some item =>
      {| featured_title := orElse (title item) (lit "Latest news");
         featured_excerpt := slice 0 220 (orElse (summary item) []);
         featured_date :=
           lit "<i class=" ++ dq ++ lit "fas fa-calendar" ++ dq
             ++ lit "></i> " ++ orElse (published item) [];
         featured_source :=
           lit "<i class=" ++ dq ++ lit "fas fa-newspaper" ++ dq
             ++ lit "></i> " ++ orElse (source item) [];
         featured_link :=
           match link item with
           | Some (c :: s) => Some (c :: s)
           | Some [] | None => featured_link f
           end;
         featured_image :=
           match image item with
           | Some (c :: s) => Some (c :: s)
           | Some [] | None => featured_image f
           end |}
  end.

(** ** Sorting *)

(** The time value of [new Date(item.published || 0)]: the epoch for an
    absent or empty [published], else what the engine parses, [NaN] for an
    invalid date. *)
Definition timeValue `{Engine} (item : NewsItem) : number :=
  match published item with
  | Some (c :: s) =>
      match Date_parse (c :: s) with
      | Some t => Fin (inject_Z t)
      | None => NaN
      end
  | Some [] | None => Fin 0
  end.

(** The comparator handed to [sort]:
    [(a, b) => new Date(b.published || 0) - new Date(a.published || 0)]. *)
Definition byDateDescending `{Engine} (a b : NewsItem) : number :=
  sub (timeValue b) (timeValue a).

(** The comparison [Array.prototype.sort] makes of a comparator's result:
    [NaN] counts as [+0], and [x] is kept before [y] unless the result is
    positive. *)
Definition keepsBefore {A : Type} (comparefn : A -> A -> number) (x y : A)
    : bool :=
  match comparefn x y with
  | NaN => true
  | v => negb (gt v (Fin 0))
  end.

Fixpoint insertSorted {A : Type} (comparefn : A -> A -> number) (x : A)
    (l : list A) : list A :=
  match l with
  | [] => [x]
  | y :: l' =>
      if keepsBefore comparefn x y then x :: y :: l'
      else y :: insertSorted comparefn x l'
  end.

(** [array.sort(comparefn)] as a stable insertion sort.  The language fixes
    the result, not the algorithm: for a consistent comparator it is the one
    stable ordering, which this is ([sort_is_the_stable_order] below); for
    a comparator that answers [NaN] the order is the engine's. *)
Definition sort {A : Type} (comparefn : A -> A -> number) (l : list A)
    : list A :=
  fold_right (insertSorted comparefn) [] l.

(** ** The pager *)

(** The test of the filter: [(i.category || 'other') ===
    state.filteredCategory]. *)
Definition matchesFilter (st : NewsState) (i : NewsItem) : bool :=
  strictEq (orElse (category i) (lit "other")) (filteredCategory st).

(** [filtered] of [renderNextPage]. *)
Definition filteredItems (st : NewsState) : list NewsItem :=
  if strictEq (filteredCategory st) (lit "all")
  then allItems st
  else filter (matchesFilter st) (allItems st).

(** [pageItems] of [renderNextPage]. *)
Definition pageItemsOf (st : NewsState) : list NewsItem :=
  let start := page st * pageSize st in
  slice start (start + pageSize st) (filteredItems st).

(** [renderNextPage()].  The markup handed to [insertAdjacentHTML] is
    appended to the grid's. *)
Definition renderNextPage `{Engine} (p : Page) : Page :=
  match grid p with
  | None => p
  | Some g =>
      let st := state p in
      if reachedEnd st then p
      else
        let pageItems := pageItemsOf st in
        let g := if (page st =? 0)%nat then [] else g in
        match pageItems with
        | [] =>
            let g := if (page st =? 0)%nat then emptyStateHTML else g in
            setState (setReachedEnd true st) (setGrid g p)
        | _ :: _ =>
            let html := join (map renderNewsItem pageItems) in
            setState (setPageIndex (page st + 1) st) (setGrid (g ++ html) p)
        end
  end.

(** The [scroll] listener of [setupInfiniteScroll]. *)
Definition onScroll `{Engine} (innerHeight scrollY offsetHeight : number)
    (p : Page) : Page :=
  let st := state p in
  if loading st || reachedEnd st then p
  else
    let scrollPosition := add innerHeight scrollY in
    let threshold := sub offsetHeight (Fin 300) in
    if ge scrollPosition threshold then renderNextPage p else p.

(** The object on which the listeners of [setupCategoryFiltering] write:
    [window.__NEWS_STATE__ || { filteredCategory: 'all' }], read once when
    the listeners are bound. *)
Inductive ListenerState : Type :=
| Cursor                          (* the page's cursor itself *)
| Fallback (filteredCategory : jsstring) (page : option nat)
           (reachedEnd : option bool).
                                  (* the literal, which nothing else reads *)

(** [setupCategoryFiltering()], given what [window.__NEWS_STATE__] holds
    when it runs: the object its listeners capture. *)
Definition setupCategoryFiltering (windowState : option NewsState)
    : ListenerState :=
  match windowState with
  | Some _ => Cursor
  | None => Fallback (lit "all") None None
  end.

(** The [click] listener of a category button; [selectedCategory] is the
    button's [data-category]. The writes go to the captured object,
    [renderNextPage] reads the page's cursor; the [active] class of the
    buttons is not modelled. *)
Definition onCategoryClick `{Engine} (captured : ListenerState)
    (selectedCategory : jsstring) (p : Page) : ListenerState * Page :=
  match captured with
  | Cursor =>
      let st := state p in
      let st := setFilteredCategory selectedCategory st in
      let st := setPageIndex 0 st in
      let st := setReachedEnd false st in
      (Cursor, renderNextPage (setState st p))
  | Fallback _ _ _ =>
      (Fallback selectedCategory (Some 0) (Some false), renderNextPage p)
  end.

(** ** Loading *)

(** The parsed body of [/api/news] as [fetchLiveNews] reads it: [null],
    whose property read throws; a value whose [items] is an array; any other
    value, for which [Array.isArray(data.items)] is false. *)
Inductive NewsData : Type :=
| DataNull
| DataItems (items : list NewsItem)
| DataOther.

(** [fetchLiveNews(initial)] up to its first [await]; [None] when it returns
    at once (no grid, or a fetch in flight). *)
Definition fetchLiveNews_begin (initial : bool) (p : Page) : option Page :=
  match grid p with
  | None => None
  | Some g =>
      let st := state p in
      if loading st then None
      else
        let p := setState (setLoading true st) p in
        Some (if initial then setGrid (createSkeletonCards (pageSize st)) p
              else p)
  end.

(** The [try] block, from the awaited answer on. *)
Definition tryBlock `{Engine} (answer : Response NewsData) (p : Page)
    : Completion Page :=
  match answer with
  | FetchRejects => Throws p
  | FetchResolves status body =>
      if negb (ok status) then Throws p
      else
        match body with
        | JsonRejects => Throws p
        | JsonResolves DataNull => Throws p
        | JsonResolves data =>
            let items :=
              match data with DataItems l => l | _ => [] end in
            match items with
            | [] =>
                Returns (setState (setReachedEnd true (state p))
                                  (setGrid emptyStateHTML p))
            | _ :: _ =>
                let sorted := sort byDateDescending items in
                let st := setAllItems sorted (state p) in
                let st := setPageIndex 0 st in
                let st := setReachedEnd false st in
                let p := setState st p in
                let p := setFeatured (renderFeatured (hd_error sorted)
                                                     (featured p)) p in
                Returns (renderNextPage p)
            end
        end
  end.

(** [fetchLiveNews] from the awaited answer on: the [try] block, the
    [catch] block on an exception, then the [finally] block. *)
Definition fetchLiveNews_end `{Engine} (answer : Response NewsData)
    (p : Page) : Page :=
  let p :=
    match tryBlock answer p with
    | Returns p => p
    | Throws p => setGrid errorStateHTML p
    end in
  setState (setLoading false (state p)) p.

(** [fetchLiveNews(initial)] with the answer of the network. *)
Definition fetchLiveNews `{Engine} (initial : bool)
    (answer : Response NewsData) (p : Page) : Page :=
  match fetchLiveNews_begin initial p with
  | None => p
  | Some p => fetchLiveNews_end answer p
  end.

End News.

(* ===================================================================== *)
(** * Vocabulary of the statements *)
(* ===================================================================== *)

Module Vocabulary.
Import JSString JSNumber Calculator Fetch News.

(** What a loop of guarded assignments over the five keys amounts to: each
    element that is on the page gets its value. *)
Definition overwritePresent (vs : PerMode number)
    (p : PerMode (option number)) : PerMode (option number) :=
  fold_left (fun p m => assignIfPresent m (get m vs) p) modes p.

(** The data carries the five emission factors of the object literal. *)
Definition hasFixedFactors (td : TransportData) : Prop :=
  map emission (Object_values td)
  = map emission (Object_values zeroTransportData).

(** The entity reference that stands for a character in escaped text, the
    character itself when it needs none. *)
Definition entityOf (c : N) : jsstring :=
  if (c =? 38)%N then lit "&amp;"
  else if (c =? 60)%N then lit "&lt;"
  else if (c =? 62)%N then lit "&gt;"
  else if (c =? 34)%N then lit "&quot;"
  else if (c =? 39)%N then lit "&#039;"
  else [c].

(** Escaping in one pass, character by character. *)
Definition escapeEntities (s : jsstring) : jsstring := flat_map entityOf s.

(** A character that opens or closes neither a tag nor an attribute
    value. *)
Definition markupSafe (c : N) : Prop :=
  c <> 60%N /\ c <> 62%N /\ c <> 34%N /\ c <> 39%N.

(** The answers after which [fetchLiveNews] reaches its [catch] block: no
    response, a status outside 200-299, a body that is not JSON, the body
    [null]. *)
Definition loadFails (answer : Response NewsData) : Prop :=
  match answer with
  | FetchRejects => True
  | FetchResolves status body =>
      ok status = false \/ body = JsonRejects
      \/ body = JsonResolves DataNull
  end.

(** A parsed body that carries no item. *)
Definition noItems (data : NewsData) : Prop :=
  data = DataItems [] \/ data = DataOther.

(** [x == y] on numbers. *)
Definition sameNumber (x y : number) : bool := ge x y && ge y x.

(** The time value of an item as an integer, when its date is valid. *)
Definition millis `{Engine} (i : NewsItem) : Z :=
  match published i with
  | Some (c :: s) =>
      match Date_parse (c :: s) with
      | Some t => t
      | None => 0%Z
      end
  | Some [] | None => 0%Z
  end.

(** On [x] and [y] the comparator orders by decreasing key. *)
Definition byKey {A : Type} (comparefn : A -> A -> number) (key : A -> Z)
    (x y : A) : Prop :=
  keepsBefore comparefn x y = (key y <=? key x)%Z.

(** Keys never increase along the list. *)
Definition descending {A : Type} (key : A -> Z) : list A -> Prop :=
  StronglySorted (fun a b => (key b <= key a)%Z).

End Vocabulary.

(* ===================================================================== *)
(** * Sample pages and a sample engine, for the closed statements *)
(* ===================================================================== *)

Module Samples.
Import JSString JSNumber Calculator Fetch.

(** The case mappings on ASCII letters, where they agree with the
    engine's. *)
Definition asciiLower (s : jsstring) : jsstring :=
  map (fun c => if (65 <=? c)%N && (c <=? 90)%N then (c + 32)%N else c) s.

Definition asciiUpper (s : jsstring) : jsstring :=
  map (fun c => if (97 <=? c)%N && (c <=? 122)%N then (c - 32)%N else c) s.

(** The date parser on the three strings of the samples: two ISO
    timestamps with their time values, and a text that is no date. *)
Definition sampleDateParse (s : jsstring) : option Z :=
  if eqb s (lit "2024-01-01T00:00:00.000Z") then Some 1704067200000%Z
  else if eqb s (lit "2024-06-01T00:00:00.000Z") then Some 1717200000000%Z
  else None.

Definition sampleEngine : News.Engine :=
  {| News.toLowerCase := asciiLower;
     News.toUpperCase := asciiUpper;
     News.Date_parse := sampleDateParse |}.

(** [ToNumber] on the values it is simple for: the empty string and the
    empty array give [+0], a plain object gives [NaN] (as do the other
    strings and arrays here, which no sample reaches). *)
Definition sampleCoercions : Tips.Coercions :=
  {| Tips.ToNumber_coerce :=
       fun v =>
         match v with
         | Tips.JStr [] | Tips.JArr [] => Fin 0
         | _ => NaN
         end |}.

(** A calculator page on which every optional element is present and
    nothing is written yet. *)
Definition blankDom : Dom :=
  let present := mkPerMode (Some (Fin 0)) (Some (Fin 0)) (Some (Fin 0))
                        (Some (Fin 0)) (Some (Fin 0)) in
  {| slider_value := present;
     value_text := mkPerMode (Fin 0) (Fin 0) (Fin 0) (Fin 0) (Fin 0);
     total_distance_text := Fin 0;
     emission_text := present;
     total_emission_text := Fin 0;
     co2_saved_text := Fin 0;
     bar_height := present;
     stroke_dashoffset := Fin 0;
     achievement_text := [];
     achievement_background := [] |}.

(** The calculator as its constructor leaves it: the literal, then
    [updateCalculations()]. *)
Definition newCalculator : Calc :=
  updateCalculations (mkCalc zeroTransportData blankDom).

(** The distances of the documented scenario. *)
Definition scenarioData : TransportData :=
  transportDataOf (Fin 10) (Fin 5) (Fin 0) (Fin 20) (Fin 5).

(** A tips section with its description and some earlier content. *)
Definition tipsSection : Tips.TipsSection :=
  Tips.mkSection true [Tips.Markup 0].

(** A news item with a title, a category and a date. *)
Definition item (title category published : string) : News.NewsItem :=
  {| News.title := Some (lit title);
     News.summary := None;
     News.source := None;
     News.published := Some (lit published);
     News.link := None;
     News.category := Some (lit category);
     News.image := None |}.

Definition jan : string := "2024-01-01T00:00:00.000Z".
Definition jun : string := "2024-06-01T00:00:00.000Z".

(** Twelve items, three of them in the category technology. *)
Definition twelveItems : list News.NewsItem :=
  [ item "n1" "policy" jun; item "n2" "technology" jun;
    item "n3" "science" jun; item "n4" "business" jun;
    item "n5" "technology" jun; item "n6" "policy" jun;
    item "n7" "science" jan; item "n8" "other" jan;
    item "n9" "technology" jan; item "n10" "business" jan;
    item "n11" "policy" jan; item "n12" "science" jan ].

Definition technologyItems : list News.NewsItem :=
  [ item "n2" "technology" jun; item "n5" "technology" jun;
    item "n9" "technology" jan ].

Definition blankFeatured : News.Featured :=
  {| News.featured_title := []; News.featured_excerpt := [];
     News.featured_date := []; News.featured_source := [];
     News.featured_link := None; News.featured_image := None |}.

(** The learning page when [DOMContentLoaded] has run: the fresh cursor and
    an empty grid. *)
Definition freshPage : News.Page :=
  News.mkPage News.initialState (Some []) blankFeatured.

(** A successful answer of [/api/news] carrying [items]. *)
Definition newsAnswer (items : list News.NewsItem)
    : Response News.NewsData :=
  FetchResolves 200 (JsonResolves (News.DataItems items)).

(** The page once the twelve items are fetched. *)
Definition loadedPage : News.Page :=
  @News.fetchLiveNews sampleEngine true (newsAnswer twelveItems) freshPage.

(** The page as [fetchLiveNews] has it when it calls [renderNextPage]: the
    items are stored and [loading] is still set. *)
Definition inFlightPage : News.Page :=
  News.mkPage
    {| News.allItems := twelveItems; News.page := 0; News.pageSize := 9;
       News.filteredCategory := lit "all"; News.loading := true;
       News.reachedEnd := false |}
    (Some (News.createSkeletonCards 9)) blankFeatured.

(** The loaded page after a click on the category technology, the
    listeners being bound to the cursor, and after one more request for a
    page. *)
Definition technologyPage : News.Page :=
  snd (@News.onCategoryClick sampleEngine
         (News.setupCategoryFiltering (Some (News.state loadedPage)))
         (lit "technology") loadedPage).

Definition exhaustedPage : News.Page :=
  @News.renderNextPage sampleEngine technologyPage.

(** An item whose date the engine cannot parse, and one it can. *)
Definition undated : News.NewsItem := item "u" "science" "not a date".
Definition dated : News.NewsItem := item "d" "science" jan.

(** Answers of the tips service. *)
Definition noTips : Response Tips.json :=
  FetchResolves 200
    (JsonResolves (Tips.JObj [(lit "tips", Tips.JArr [])])).

Definition tipsWithError : Response Tips.json :=
  FetchResolves 500
    (JsonResolves
       (Tips.JObj [(lit "tips", Tips.JArr [Tips.JStr (lit "Walk more")])])).

End Samples.

(* ===================================================================== *)
(** * What the calculator displays, as functions of its data *)
(* ===================================================================== *)

Module Displays.
Import JSString JSNumber Control Calculator Vocabulary.

(** [data.distance * data.emission]. *)
Definition emissionOf (e : TransportEntry) : number :=
  mul (distance e) (emission e).

Definition emissionsOf (td : TransportData) : PerMode number :=
  mkPerMode (emissionOf (bus td)) (emissionOf (car td)) (emissionOf (bike td))
            (emissionOf (cycle td)) (emissionOf (walking td)).

(** [Math.max(0, carEmission - emission)] of one entry. *)
Definition savedOf (e : TransportEntry) : number :=
  max2 (Fin 0) (sub (mul (distance e) (Fin 0.21)) (emissionOf e)).

(** [totalSaved] once the loop of [updateEmissions] is over: every key but
    [car] adds to it. *)
Definition totalSavedOf (td : TransportData) : number :=
  add (add (add (add (Fin 0) (savedOf (bus td))) (savedOf (bike td)))
           (savedOf (cycle td)))
      (savedOf (walking td)).

(** [maxEmission] of [updateBarChart]. *)
Definition maxEmissionOf (td : TransportData) : number :=
  max_of (map (fun e => mul (distance (snd e)) (emission (snd e)))
              (Object_entries td)).

(** [Math.max(percentage, 5)] for one key. *)
Definition barHeightOf (td : TransportData) (m : Mode) : number :=
  max2 (if gt (maxEmissionOf td) (Fin 0)
        then mul (div (emissionOf (get m td)) (maxEmissionOf td)) (Fin 100)
        else Fin 0)
       (Fin 5).

Definition barHeightsOf (td : TransportData) : PerMode number :=
  mkPerMode (barHeightOf td Bus) (barHeightOf td Car) (barHeightOf td Bike)
            (barHeightOf td Cycle) (barHeightOf td Walking).

(** [2 * Math.PI * 100]. *)
Definition circumference : number := mul (mul (Fin 2) Math_PI) (Fin 100).

(** [offset] of [updateProgressCircle]. *)
Definition strokeOffsetOf (td : TransportData) : number :=
  let percentage :=
    min2 (mul (div (totalDistanceOf td) (Fin 500)) (Fin 100)) (Fin 100) in
  sub circumference (mul (div percentage (Fin 100)) circumference).

(** What the visitor does on the calculator page: an [input] event on a
    slider, a click on the reset button. *)
Inductive CalcEvent : Type :=
| SliderInput (transport : jsstring) (value : number)
| ResetClick.

(** The listener of the event runs; an exception it throws ends it and
    leaves the calculator as the listener had it. *)
Definition handle (c : Calc) (e : CalcEvent) : Calc :=
  match e with
  | SliderInput transport value => stateOf (sliderInput transport value c)
  | ResetClick => resetCalculator c
  end.

Definition handleAll (events : list CalcEvent) (c : Calc) : Calc :=
  fold_left handle events c.

(** The totals, the ring and the achievement on the page are those of the
    data. *)
Definition displayAgrees (c : Calc) : Prop :=
  total_distance_text (dom c) = totalDistanceOf (transportData c)
  /\ total_emission_text (dom c) = totalEmissionOf (transportData c)
  /\ co2_saved_text (dom c) = totalSavedOf (transportData c)
  /\ stroke_dashoffset (dom c) = strokeOffsetOf (transportData c)
  /\ achievement_text (dom c) = tierText (achievementTier (transportData c))
  /\ achievement_background (dom c)
     = tierBackground (achievementTier (transportData c)).

(** The larger and the smaller of two rationals, as [Math.max] and
    [Math.min] choose them. *)
Definition Qmaxb (a b : Q) : Q := if Qltb a b then b else a.
Definition Qminb (a b : Q) : Q := if Qltb b a then b else a.

(** The emission of a mode at finite distances. *)
Definition emissionQ (b c k cy w : Q) (m : Mode) : Q :=
  match m with
  | Bus => b * 0.12
  | Car => c * 0.21
  | Bike => k * 0.075
  | Cycle => cy * 0
  | Walking => w * 0
  end%Q.

End Displays.

(* ===================================================================== *)
(** * The feed over several pages and scrolls *)
(* ===================================================================== *)

Module Feed.
Import JSString JSNumber News.

(** The cards of a list of items, one after the other. *)
Definition cards `{Engine} (items : list NewsItem) : jsstring :=
  join (map renderNewsItem items).

(** [n] calls of [renderNextPage]. *)
Definition nextPages `{Engine} (n : nat) (p : Page) : Page :=
  Nat.iter n renderNextPage p.

(** What the grid holds once the cursor is exhausted. *)
Definition allRendered `{Engine} (items : list NewsItem) : jsstring :=
  match items with
  | [] => emptyStateHTML
  | _ :: _ => cards items
  end.

(** The state of the page after [k] calls, from a cursor at page 0 and a
    grid that held [g]. *)
Definition pagedTo `{Engine} (p : Page) (g : jsstring) (k : nat) (q : Page)
    : Prop :=
  let items := filteredItems (state p) in
  let size := pageSize (state p) in
  allItems (state q) = allItems (state p)
  /\ filteredCategory (state q) = filteredCategory (state p)
  /\ pageSize (state q) = size
  /\ if reachedEnd (state q)
     then 1 <= k /\ List.length items <= (k - 1) * size
          /\ grid q = Some (allRendered items)
     else page (state q) = k
          /\ (k = 0 \/ (k - 1) * size < List.length items)
          /\ grid q = Some (if (k =? 0)%nat then g
                            else cards (firstn (k * size) items)).

(** What paging and scrolling leave alone. *)
Definition framed (p q : Page) : Prop :=
  allItems (state q) = allItems (state p)
  /\ pageSize (state q) = pageSize (state p)
  /\ filteredCategory (state q) = filteredCategory (state p)
  /\ loading (state q) = loading (state p)
  /\ featured q = featured p
  /\ page (state p) <= page (state q)
  /\ (reachedEnd (state p) = true -> reachedEnd (state q) = true)
  /\ (grid p = None <-> grid q = None).

(** A scroll event with the three measures its listener reads, or a direct
    call of [renderNextPage]. *)
Inductive Scroll : Type :=
| ScrollTo (innerHeight scrollY offsetHeight : number)
| NextPage.

Definition scrollStep `{Engine} (p : Page) (e : Scroll) : Page :=
  match e with
  | ScrollTo a b c => onScroll a b c p
  | NextPage => renderNextPage p
  end.

(** Whether the event asks for the next page: a scroll to within 300 px of
    the bottom, or a direct call. *)
Definition turnsPage (e : Scroll) : bool :=
  match e with
  | ScrollTo innerHeight scrollY offsetHeight =>
      ge (add innerHeight scrollY) (sub offsetHeight (Fin 300))
  | NextPage => true
  end.

(** The five characters [escapeHTML] replaces. *)
Definition special (c : N) : bool :=
  (c =? 38)%N || (c =? 60)%N || (c =? 62)%N || (c =? 34)%N || (c =? 39)%N.

End Feed.

(* ===================================================================== *)
(** * The newsletter form and the notifications of the learning page *)
(* ===================================================================== *)

Module Newsletter.
Import JSString.
Local Open Scope N_scope.

(** The code units of WhiteSpace and LineTerminator: what [\s] matches and
    what [trim] strips. *)
Definition isWhiteSpace (c : N) : bool :=
  ((9 <=? c) && (c <=? 13)) || (c =? 32) || (c =? 160) || (c =? 5760)
  || ((8192 <=? c) && (c <=? 8202)) || (c =? 8232) || (c =? 8233)
  || (c =? 8239) || (c =? 8287) || (c =? 12288) || (c =? 65279).

Fixpoint trimStart (s : jsstring) : jsstring :=
  match s with
  | [] => []
  | c :: rest => if isWhiteSpace c then trimStart rest else s
  end.

Definition trimEnd (s : jsstring) : jsstring := rev (trimStart (rev s)).

(** [s.trim()]. *)
Definition trim (s : jsstring) : jsstring := trimEnd (trimStart s).

(** The patterns the script writes: classes of code units, sequence,
    alternative and repetition. *)
Inductive Pattern : Type :=
| Nothing
| Epsilon
| Class (p : N -> bool)
| Cat (a b : Pattern)
| Alt (a b : Pattern)
| Star (a : Pattern).

(** [a+]. *)
Definition Plus (a : Pattern) : Pattern := Cat a (Star a).

Fixpoint nullable (r : Pattern) : bool :=
  match r with
  | Nothing | Class _ => false
  | Epsilon | Star _ => true
  | Cat a b => nullable a && nullable b
  | Alt a b => nullable a || nullable b
  end.

(** What is left of [r] once the code unit [c] is read. *)
Fixpoint derive (c : N) (r : Pattern) : Pattern :=
  match r with
  | Nothing | Epsilon => Nothing
  | Class p => if p c then Epsilon else Nothing
  | Cat a b =>
      Alt (Cat (derive c a) b) (if nullable a then derive c b else Nothing)
  | Alt a b => Alt (derive c a) (derive c b)
  | Star a => Cat (derive c a) (Star a)
  end.

(** [/^r$/.test(s)]: between the two anchors the whole of [s] is read. *)
Definition test (r : Pattern) (s : jsstring) : bool :=
  nullable (fold_left (fun r c => derive c r) s r).

(** [[^\s@]]. *)
Definition notSpaceNorAt (c : N) : bool := negb (isWhiteSpace c || (c =? 64)).

(** [/^[^\s@]+@[^\s@]+\.[^\s@]+$/]. *)
Definition emailRegex : Pattern :=
  Cat (Plus (Class notSpaceNorAt))
    (Cat (Class (N.eqb 64))
       (Cat (Plus (Class notSpaceNorAt))
          (Cat (Class (N.eqb 46)) (Plus (Class notSpaceNorAt))))).

(** [isValidEmail(email)]. *)
Definition isValidEmail (email : jsstring) : bool := test emailRegex email.

(** A [div.notification] on the page. [element] tells the elements the
    script creates apart: the callbacks of a timer hold on to the element
    they were made for. *)
Record Notification : Type := mkNotification
  { element : nat;
    className : jsstring;
    innerHTML : jsstring;
    show : bool }.                        (* classList holds 'show' *)

(** The callbacks handed to [setTimeout]. *)
Inductive Callback : Type :=
| AddShow (el : nat)         (* notification.classList.add('show') *)
| AutoHide (el : nat)        (* remove 'show', then remove in 300 ms *)
| Detach (el : nat)          (* notification.remove() *)
| RestoreButton.             (* the button of the form as it was *)

Record Timer : Type := mkTimer { delay : N; callback : Callback }.

(** What the form and the notifications read and write. *)
Record Document : Type := mkDocument
  { input_value : jsstring;               (* .newsletter-input, value *)
    btn_innerHTML : jsstring;             (* .newsletter-btn *)
    btn_background : jsstring;            (* .newsletter-btn, style *)
    notifications : list Notification;    (* the attached .notification *)
    notification_styles : nat;            (* the style#notification-styles *)
    created : nat;                        (* notifications created so far *)
    timers : list Timer }.                (* pending, oldest first *)

Definition setNotifications (l : list Notification) (d : Document)
    : Document :=
  mkDocument (input_value d) (btn_innerHTML d) (btn_background d) l
             (notification_styles d) (created d) (timers d).

Definition setTimeout (cb : Callback) (ms : N) (d : Document) : Document :=
  mkDocument (input_value d) (btn_innerHTML d) (btn_background d)
             (notifications d) (notification_styles d) (created d)
             (timers d ++ [mkTimer ms cb]).

(** [addNotificationStyles()]. *)
Definition addNotificationStyles (d : Document) : Document :=
  match notification_styles d with
  | S _ => d
  | O =>
      mkDocument (input_value d) (btn_innerHTML d) (btn_background d)
                 (notifications d) 1 (created d) (timers d)
  end.

Definition iconOf (type : jsstring) : jsstring :=
  if strictEq type (lit "success") then lit "check-circle"
  else if strictEq type (lit "error") then lit "exclamation-circle"
  else lit "info-circle".

Definition notificationHTML (message type : jsstring) : jsstring :=
  nl ++ lit "        <div class=" ++ dq ++ lit "notification-content" ++ dq
     ++ lit ">" ++ nl
     ++ lit "            <i class=" ++ dq ++ lit "fas fa-" ++ iconOf type ++ dq
     ++ lit "></i>" ++ nl
     ++ lit "            <span>" ++ message ++ lit "</span>" ++ nl
     ++ lit "        </div>" ++ nl
     ++ lit "    ".

(** [showNotification(message, type)]; the callers always give the type.
    The text of the style sheet is not modelled. *)
Definition showNotification (message type : jsstring) (d : Document)
    : Document :=
  (* every .notification is removed *)
  let d := setNotifications [] d in
  let el := created d in
  let notification :=
    mkNotification el (lit "notification notification-" ++ type)
                   (notificationHTML message type) false in
  let d :=
    mkDocument (input_value d) (btn_innerHTML d) (btn_background d)
               (notifications d) (notification_styles d) (S el) (timers d) in
  let d := addNotificationStyles d in
  let d := setNotifications (notifications d ++ [notification]) d in
  let d := setTimeout (AddShow el) 100 d in
  setTimeout (AutoHide el) 5000 d.

Definition subscribedHTML : jsstring :=
  lit "<i class=" ++ dq ++ lit "fas fa-check" ++ dq ++ lit "></i> Subscribed!".

(** [handleNewsletterSignup()]. *)
Definition handleNewsletterSignup (d : Document) : Document :=
  let email := trim (input_value d) in
  match email with
  | [] => showNotification (lit "Please enter a valid email address")
                           (lit "error") d
  | _ :: _ =>
      if negb (isValidEmail email)
      then showNotification (lit "Please enter a valid email format")
                            (lit "error") d
      else
        let d :=
          showNotification
            (lit "Thank you for subscribing! You'll receive updates soon.")
            (lit "success") d in
        let d :=
          mkDocument [] subscribedHTML (lit "#48bb78") (notifications d)
                     (notification_styles d) (created d) (timers d) in
        setTimeout RestoreButton 3000 d
  end.

Definition setShow (el : nat) (b : bool) (n : Notification) : Notification :=
  if (element n =? el)%nat
  then mkNotification (element n) (className n) (innerHTML n) b
  else n.

(** What a callback does when its timer runs out. An element that is no
    longer attached can take or lose a class, unseen. *)
Definition run (cb : Callback) (d : Document) : Document :=
  match cb with
  | AddShow el => setNotifications (map (setShow el true) (notifications d)) d
  | AutoHide el =>
      setTimeout (Detach el) 300
        (setNotifications (map (setShow el false) (notifications d)) d)
  | Detach el =>
      setNotifications
        (filter (fun n => negb (element n =? el)%nat) (notifications d)) d
  | RestoreButton =>
      mkDocument (input_value d) (lit "Subscribe") (lit "#2d3748")
                 (notifications d) (notification_styles d) (created d)
                 (timers d)
  end.

(** The [k]-th pending timer runs out. *)
Definition fire (k : nat) (d : Document) : Document :=
  match nth_error (timers d) k with
  | None => d
  | Some t =>
      run (callback t)
          (mkDocument (input_value d) (btn_innerHTML d) (btn_background d)
                      (notifications d) (notification_styles d) (created d)
                      (firstn k (timers d) ++ skipn (S k) (timers d)))
  end.

(** What can happen on the page: the visitor types, the form is submitted
    or the button clicked, a timer runs out. Timers are taken in any order,
    which covers the order of their delays. *)
Inductive Event : Type :=
| Input (value : jsstring)
| Submit
| Fire (k : nat).

Definition step (d : Document) (e : Event) : Document :=
  match e with
  | Input value =>
      mkDocument value (btn_innerHTML d) (btn_background d) (notifications d)
                 (notification_styles d) (created d) (timers d)
  | Submit => handleNewsletterSignup d
  | Fire k => fire k d
  end.

Definition steps (es : list Event) (d : Document) : Document :=
  fold_left step es d.

End Newsletter.

Module NewsletterVocabulary.
Import JSString Newsletter.

(** The strings a pattern stands for. *)
Inductive matches : Pattern -> jsstring -> Prop :=
| m_epsilon : matches Epsilon []
| m_class p c : p c = true -> matches (Class p) [c]
| m_cat a b s t : matches a s -> matches b t -> matches (Cat a b) (s ++ t)
| m_alt_l a b s : matches a s -> matches (Alt a b) s
| m_alt_r a b s : matches b s -> matches (Alt a b) s
| m_star_nil a : matches (Star a) []
| m_star_more a s t :
    matches a s -> matches (Star a) t -> matches (Star a) (s ++ t).

(** The element a callback holds on to. *)
Definition elementOf (cb : Callback) : option nat :=
  match cb with
  | AddShow el | AutoHide el | Detach el => Some el
  | RestoreButton => None
  end.

(** Every element the page or a timer knows was created before. *)
Definition knownElements (d : Document) : Prop :=
  Forall (fun n => element n < created d) (notifications d)
  /\ Forall (fun t => match elementOf (callback t) with
                      | Some el => el < created d
                      | None => True
                      end) (timers d).

(** An input that is an address between white space. *)
Definition holdsAddress (value : jsstring) : Prop :=
  exists w1 e w2 : jsstring,
    value = w1 ++ e ++ w2
    /\ forallb isWhiteSpace w1 = true
    /\ forallb isWhiteSpace w2 = true
    /\ isValidEmail e = true.

End NewsletterVocabulary.

(* ===================================================================== *)
(** * Showing and hiding the cards of the grid ([filterNewsCards]) *)
(* ===================================================================== *)

Module Cards.
Import JSString JSNumber Control.

(** A child of [.news-grid]: its [data-category] attribute, if it has one,
    and the three inline styles the script writes. The delay is the number
    of seconds the script wrote, if it wrote one. *)
Record Card : Type := mkCard
  { data_category : option jsstring;
    display : jsstring;
    animation : jsstring;
    animationDelay : option number }.

(** [category === 'all' || cardCategory === category]. *)
Definition wanted (category : jsstring) (card : Card) : bool :=
  strictEq category (lit "all")
  || match data_category card with
     | Some cardCategory => strictEq cardCategory category
     | None => false
     end.

(** The body of the [forEach] of [filterNewsCards]. *)
Definition showOrHide (category : jsstring) (card : Card) : Card :=
  if wanted category card
  then mkCard (data_category card) (lit "block")
              (lit "fadeInUp 0.6s ease-out") (animationDelay card)
  else mkCard (data_category card) (lit "none") (animation card)
              (animationDelay card).

Fixpoint updateAt {A : Type} (i : nat) (f : A -> A) (l : list A) : list A :=
  match l, i with
  | [], _ => []
  | x :: rest, O => f x :: rest
  | x :: rest, S i' => x :: updateAt i' f rest
  end.

(** [card.style.display !== 'none']. *)
Definition visible (card : Card) : bool :=
  negb (strictEq (display card) (lit "none")).

(** [index * 0.1]. *)
Definition delayOf (index : nat) : number :=
  mul (Fin (inject_Z (Z.of_nat index))) (Fin 0.1).

(** The [forEach] over the visible children, [index] counting them. *)
Fixpoint stagger (index : nat) (children : list Card) : list Card :=
  match children with
  | [] => []
  | card :: rest =>
      if visible card
      then mkCard (data_category card) (display card) (animation card)
                  (Some (delayOf index))
           :: stagger (S index) rest
      else card :: stagger index rest
  end.

(** [updateNewsGridLayout()]: [None] is a page without [.news-grid], whose
    [children] cannot be read. *)
Definition updateNewsGridLayout (newsGrid : option (list Card))
    : Completion (option (list Card)) :=
  match newsGrid with
  | None => Throws None
  | Some children => Returns (Some (stagger 0 children))
  end.

(** [filterNewsCards(category, newsCards)]: [newsCards] are the places in
    the grid of the cards handed over; a card that is not in the grid has a
    place beyond its end. *)
Definition filterNewsCards (category : jsstring) (newsCards : list nat)
    (newsGrid : option (list Card)) : Completion (option (list Card)) :=
  let newsGrid :=
    option_map
      (fun children =>
         fold_left (fun children i => updateAt i (showOrHide category) children)
                   newsCards children)
      newsGrid in
  updateNewsGridLayout newsGrid.

End Cards.

Module CardsVocabulary.
Import JSString JSNumber Cards.

(** How many of the first [j] children are visible. *)
Definition visibleBefore (j : nat) (children : list Card) : nat :=
  List.length (filter visible (firstn j children)).

End CardsVocabulary.

(* ===================================================================== *)
(** * The sample articles of the load-more button ([createArticleHTML]) *)
(* ===================================================================== *)

Module Articles.
Import JSString News.

(** An element of [newArticles]. *)
Record Article : Type := mkArticle
  { category : jsstring;
    title : jsstring;
    excerpt : jsstring;
    date : jsstring;
    readTime : jsstring;
    icon : jsstring }.

Fixpoint startsWith (pattern s : jsstring) : bool :=
  match pattern, s with
  | [], _ => true
  | _ :: _, [] => false
  | p :: pattern', c :: s' => N.eqb p c && startsWith pattern' s'
  end.

(** [s.replace(pattern, replacement)] for a string pattern and a
    replacement without [$]: the first occurrence is replaced, no other. *)
Fixpoint replace (pattern replacement s : jsstring) : jsstring :=
  if startsWith pattern s
  then replacement ++ skipn (List.length pattern) s
  else match s with
       | [] => []
       | c :: rest => c :: replace pattern replacement rest
       end.

(** The value of the [data-category] attribute. *)
Definition dataCategoryOf `{Engine} (category_ : jsstring) : jsstring :=
  replace (lit " ") (lit "-")
    (replace (lit " & ") (lit "-") (toLowerCase category_)).

(** [createArticleHTML(article)]. *)
Definition createArticleHTML `{Engine} (article : Article) : jsstring :=
  nl
  ++ lit "        <article class=" ++ dq ++ lit "news-card" ++ dq
       ++ lit " data-category=" ++ dq ++ dataCategoryOf (category article)
       ++ dq ++ lit ">" ++ nl
  ++ lit "            <div class=" ++ dq ++ lit "news-image" ++ dq ++ lit ">"
       ++ nl
  ++ lit "                <div class=" ++ dq ++ lit "image-placeholder small"
       ++ dq ++ lit ">" ++ nl
  ++ lit "                    <i class=" ++ dq ++ icon article ++ dq
       ++ lit "></i>" ++ nl
  ++ lit "                </div>" ++ nl
  ++ lit "            </div>" ++ nl
  ++ lit "            <div class=" ++ dq ++ lit "news-content" ++ dq
       ++ lit ">" ++ nl
  ++ lit "                <div class=" ++ dq ++ lit "news-category" ++ dq
       ++ lit ">" ++ category article ++ lit "</div>" ++ nl
  ++ lit "                <h3>" ++ title article ++ lit "</h3>" ++ nl
  ++ lit "                <p>" ++ excerpt article ++ lit "</p>" ++ nl
  ++ lit "                <div class=" ++ dq ++ lit "news-meta" ++ dq
       ++ lit ">" ++ nl
  ++ lit "                    <span class=" ++ dq ++ lit "date" ++ dq
       ++ lit ">" ++ date article ++ lit "</span>" ++ nl
  ++ lit "                    <span class=" ++ dq ++ lit "read-time" ++ dq
       ++ lit ">" ++ readTime article ++ lit "</span>" ++ nl
  ++ lit "                </div>" ++ nl
  ++ lit "            </div>" ++ nl
  ++ lit "        </article>" ++ nl
  ++ lit "    ".

End Articles.

Module ArticlesVocabulary.
Import JSString Articles.

(** Whether [pattern] occurs in [s]. *)
Fixpoint occurs (pattern s : jsstring) : bool :=
  startsWith pattern s
  || match s with
     | [] => false
     | _ :: rest => occurs pattern rest
     end.

(** How many spaces [s] holds. *)
Definition spaces (s : jsstring) : nat := count_occ N.eq_dec s 32%N.

End ArticlesVocabulary.

(* ===================================================================== *)
(** * The dashboard script ([app.js]) *)
(* ===================================================================== *)

Module Dashboard.
Import JSString Control.

(** What the script asks of the 2d context, with the fill style or the font
    and fill style in force. *)
Inductive Drawn : Type :=
| FillRect (x y w h : Z) (fillStyle : jsstring)
| FillText (text : jsstring) (x y : Z) (font fillStyle : jsstring).

(** [#emissionTrends]. *)
Inductive Trends : Type :=
| NoTrends                         (* no such element *)
| NotACanvas                       (* an element without getContext *)
| NoContext                        (* a canvas whose getContext gives null *)
| Canvas (drawn : list Drawn).     (* a canvas and what is drawn on it *)

(** The three elements the script looks up: the text of [#ecoScore], the
    chart, and the texts of the items of [#leaderboardList]; [None] is a
    missing element. *)
Record Page : Type := mkPage
  { ecoScore_text : option jsstring;
    emissionTrends : Trends;
    leaderboardList : option (list jsstring) }.

(** The string of a number that is a natural number. *)
Definition toString (n : nat) : jsstring :=
  lit (DecimalString.NilEmpty.string_of_uint (Nat.to_uint n)).

Definition ecoScore : nat := 82.

Definition leaderboard : list (jsstring * nat) :=
  [ (lit "Alice", 95); (lit "Bob", 90); (lit "Charlie", 88);
    (lit "You", ecoScore) ].

(** [`${user.name}: EcoScore ${user.score}`]. *)
Definition entryOf (user : jsstring * nat) : jsstring :=
  fst user ++ lit ": EcoScore " ++ toString (snd user).

(** The calls between the braces of the [if]. *)
Definition bars : list Drawn :=
  [ FillRect 50 100 50 (-60) (lit "#1a73e8");
    FillRect 150 100 50 (-40) (lit "#1a73e8");
    FillRect 250 100 50 (-80) (lit "#1a73e8");
    FillRect 350 100 50 (-30) (lit "#1a73e8");
    FillText (lit "Apr") 55 120 (lit "14px Arial") (lit "#222");
    FillText (lit "May") 155 120 (lit "14px Arial") (lit "#222");
    FillText (lit "Jun") 255 120 (lit "14px Arial") (lit "#222");
    FillText (lit "Jul") 355 120 (lit "14px Arial") (lit "#222") ].

(** The script, from its first statement to its last; [Throws] holds the
    page as the statement that failed found it. *)
Definition script (p : Page) : Completion Page :=
  match ecoScore_text p with
  | None => Throws p
  | Some _ =>
      let p := mkPage (Some (toString ecoScore)) (emissionTrends p)
                      (leaderboardList p) in
      let chart :=
        match emissionTrends p with
        | NoTrends => Returns NoTrends
        | NotACanvas => Returns NotACanvas
        | NoContext => Throws NoContext
        | Canvas drawn => Returns (Canvas (drawn ++ bars))
        end in
      match chart with
      | Throws _ => Throws p
      | Returns trends =>
          let p := mkPage (ecoScore_text p) trends (leaderboardList p) in
          match leaderboardList p with
          | None => Throws p
          | Some items =>
              Returns
                (mkPage (ecoScore_text p) (emissionTrends p)
                        (Some (fold_left
                                 (fun items user => items ++ [entryOf user])
                                 leaderboard items)))
          end
      end
  end.

End Dashboard.

(* ===================================================================== *)
(** * Further samples, for the closed statements *)
(* ===================================================================== *)

Module MoreSamples.
Import JSString Newsletter.

(** The learning page with an address typed into the form, before any
    notification. *)
Definition signupPage : Document :=
  {| input_value := lit " ada@example.org ";
     btn_innerHTML := lit "Subscribe";
     btn_background := lit "#2d3748";
     notifications := [];
     notification_styles := 0;
     created := 0;
     timers := [] |}.

End MoreSamples.

(* ===================================================================== *)
(** * Properties of the calculator *)
(* ===================================================================== *)

Section CalculatorFacts.
Import JSString JSNumber Control Calculator Vocabulary Samples.
Local Open Scope Q_scope.

Lemma Qle_bool_false_lt (a b : Q) : Qle_bool a b = false -> b < a.
Proof.
  intro E. apply Qnot_le_lt. intro H. apply Qle_bool_iff in H. congruence.
Qed.

Lemma Qeq_bool_false_of_pos (t : Q) : 0 < t -> Qeq_bool t 0 = false.
Proof.
  intro H. destruct (Qeq_bool t 0) eqn:E; [|reflexivity].
  apply Qeq_bool_iff in E. rewrite E in H. exfalso. apply (Qlt_irrefl 0 H).
Qed.

(** The two reductions over finite distances, unfolded. *)
Lemma totalDistanceOf_finite (b c k cy w : Q) :
  totalDistanceOf (transportDataOf (Fin b) (Fin c) (Fin k) (Fin cy) (Fin w))
  = Fin (0 + b + c + k + cy + w).
Proof. reflexivity. Qed.

Lemma totalEmissionOf_finite (b c k cy w : Q) :
  totalEmissionOf (transportDataOf (Fin b) (Fin c) (Fin k) (Fin cy) (Fin w))
  = Fin (0 + b * 0.12 + c * 0.21 + k * 0.075 + cy * 0 + w * 0).
Proof. reflexivity. Qed.

(** What [updateCalculations] leaves on the page is computed from the data
    alone. *)
Lemma updateCalculations_displays (td : TransportData) (d : Dom) :
  let after := updateCalculations (mkCalc td d) in
  transportData after = td
  /\ total_distance_text (dom after) = totalDistanceOf td
  /\ total_emission_text (dom after) = totalEmissionOf td
  /\ achievement_text (dom after) = tierText (achievementTier td)
  /\ achievement_background (dom after) = tierBackground (achievementTier td).
Proof. repeat split; reflexivity. Qed.

Lemma zeroEmissionPercentage_finite (b c k cy w : Q) :
  zeroEmissionPercentage
    (transportDataOf (Fin b) (Fin c) (Fin k) (Fin cy) (Fin w))
  = if Qle_bool (0 + b + c + k + cy + w) 0 then Fin 0
    else Fin ((cy + w) / (0 + b + c + k + cy + w) * 100).
Proof.
  unfold zeroEmissionPercentage.
  rewrite totalDistanceOf_finite. unfold gt, Qltb.
  destruct (Qle_bool (0 + b + c + k + cy + w) 0) eqn:E; cbn [negb].
  - reflexivity.
  - apply Qle_bool_false_lt in E. cbn.
    rewrite (Qeq_bool_false_of_pos _ E). reflexivity.
Qed.

Lemma overwritePresent_idem (vs : PerMode number)
    (p : PerMode (option number)) :
  overwritePresent vs (overwritePresent vs p) = overwritePresent vs p.
Proof.
  destruct p as [[?|] [?|] [?|] [?|] [?|]]; reflexivity.
Qed.

(** [resetCalculator] reads nothing of the old state but which optional
    elements the page has. *)
Lemma resetCalculator_dom (c : Calc) :
  let r := resetCalculator newCalculator in
  let zero := Fin 0 in
  resetCalculator c =
  mkCalc zeroTransportData
    (mkDom
       (overwritePresent (mkPerMode zero zero zero zero zero)
                         (slider_value (dom c)))
       (value_text (dom r))
       (total_distance_text (dom r))
       (overwritePresent
          (mkPerMode (zero * Fin 0.12)%num (zero * Fin 0.21)%num
                     (zero * Fin 0.075)%num (zero * zero)%num
                     (zero * zero)%num)
          (emission_text (dom c)))
       (total_emission_text (dom r))
       (co2_saved_text (dom r))
       (overwritePresent (mkPerMode (Fin 5) (Fin 5) (Fin 5) (Fin 5) (Fin 5))
                         (bar_height (dom c)))
       (stroke_dashoffset (dom r))
       (achievement_text (dom r))
       (achievement_background (dom r))).
Proof. destruct c as [td d]. reflexivity. Qed.

(** The emission factors are those of the literal in every state the
    calculator reaches: the constructor and [resetCalculator] install the
    literal, and the slider listener writes distances only. *)
Lemma fixed_factors_shape (td : TransportData) :
  hasFixedFactors td ->
  td = transportDataOf (distance (bus td)) (distance (car td))
                       (distance (bike td)) (distance (cycle td))
                       (distance (walking td)).
Proof.
  destruct td as [[b eb] [c ec] [k ek] [cy ecy] [w ew]].
  unfold hasFixedFactors. cbn. intro E.
  injection E as -> -> -> -> ->. reflexivity.
Qed.

Lemma fixed_factors_reset (c : Calc) :
  hasFixedFactors (transportData (resetCalculator c)).
Proof. reflexivity. Qed.

Lemma fixed_factors_slider (transport : jsstring) (value : number)
    (c : Calc) :
  hasFixedFactors (transportData c) ->
  hasFixedFactors (transportData (stateOf (sliderInput transport value c))).
Proof.
  unfold sliderInput. destruct (modeOfKey transport) as [m|]; [|trivial].
  destruct c as [[[b eb] [c ec] [k ek] [cy ecy] [w ew]] d].
  unfold hasFixedFactors. cbn [transportData]. intro E.
  destruct m; exact E.
Qed.

(** C3 (as the code has it). The slider listener validates nothing: for
    every mode and every value [parseFloat] can give, [NaN], an infinity or
    a negative number included, it returns normally, the mode's distance is
    the value, its emission factor and the other modes are untouched, the
    mode's label shows the value, and the displayed totals and achievement
    are those of the new distances. *)
Theorem slider_input_overwrites (m : Mode) (value : number) (c : Calc) :
  exists c' : Calc,
    sliderInput (keyOf m) value c = Returns c'
    /\ distance (get m (transportData c')) = value
    /\ emission (get m (transportData c')) = emission (get m (transportData c))
    /\ (forall m' : Mode,
          Mode_eqb m' m = false ->
          get m' (transportData c') = get m' (transportData c))
    /\ get m (value_text (dom c')) = value
    /\ total_distance_text (dom c') = totalDistanceOf (transportData c')
    /\ total_emission_text (dom c') = totalEmissionOf (transportData c')
    /\ achievement_text (dom c')
       = tierText (achievementTier (transportData c')).
Proof.
  destruct m; eexists; (split; [reflexivity|]);
    repeat split; try reflexivity;
    intros m' Hm'; destruct m'; try reflexivity; discriminate Hm'.
Qed.

(** C3, refuted as stated: a negative distance and [NaN] are written into
    the car's entry of a fresh calculator, and the listener returns
    normally. *)
Lemma slider_input_accepts_invalid_values :
  finite_nonneg (Fin (-5)) = false
  /\ finite_nonneg NaN = false
  /\ distance (car (transportData newCalculator)) = Fin 0
  /\ (exists c' : Calc,
         sliderInput (lit "car") (Fin (-5)) newCalculator = Returns c'
         /\ distance (car (transportData c')) = Fin (-5))
  /\ (exists c' : Calc,
         sliderInput (lit "car") NaN newCalculator = Returns c'
         /\ distance (car (transportData c')) = NaN).
Proof.
  repeat split; eexists; split; reflexivity.
Qed.




(** C9. [resetCalculator] is idempotent, and after it the request body of
    the tips holds distance 0 for every mode, total distance 0 and total
    emission 0, whatever the state before. *)
Theorem reset_idempotent_and_zero (c : Calc) :
  resetCalculator (resetCalculator c) = resetCalculator c
  /\ (let s := snapshot (resetCalculator c) in
      s_bus s = Fin 0 /\ s_car s = Fin 0 /\ s_bike s = Fin 0
      /\ s_cycle s = Fin 0 /\ s_walking s = Fin 0
      /\ (s_totalDistance s =# Fin 0)%num
      /\ (s_totalEmission s =# Fin 0)%num)
  /\ transportData (resetCalculator c) = zeroTransportData.
Proof.
  split; [|split].
  - rewrite (resetCalculator_dom (resetCalculator c)).
    rewrite (resetCalculator_dom c). cbv zeta.
    cbn [dom slider_value emission_text bar_height].
    rewrite !overwritePresent_idem. reflexivity.
  - repeat split.
  - reflexivity.
Qed.

End CalculatorFacts.

(* ===================================================================== *)
(** * Properties of the tips requester *)
(* ===================================================================== *)

Section TipsFacts.
Import JSString JSNumber Control Calculator Fetch Tips Samples.
Context `{Coercions}.

Lemma removeLoading_loading :
  removeLoading (insertAfterDescription LoadingDiv []) = [].
Proof. reflexivity. Qed.


End TipsFacts.



(* ===================================================================== *)
(** * Properties of escaping and of the card markup *)
(* ===================================================================== *)

Section MarkupFacts.
Import JSString News Vocabulary.

Lemma some_eq {A : Type} (x y : A) : Some x = Some y -> x = y.
Proof. intro E. injection E as E. exact E. Qed.

Lemma replaceAll_app (c : N) (r s t : jsstring) :
  replaceAll c r (s ++ t) = replaceAll c r s ++ replaceAll c r t.
Proof. unfold replaceAll. apply flat_map_app. Qed.

Lemma escapeHTML_app (s t : jsstring) :
  escapeHTML (s ++ t) = escapeHTML s ++ escapeHTML t.
Proof. unfold escapeHTML. now rewrite !replaceAll_app. Qed.

(** The five passes on one character: the entities the earlier passes
    write hold none of the characters the later passes look for. *)
Lemma escapeHTML_one (c : N) : escapeHTML [c] = entityOf c.
Proof.
  unfold escapeHTML, entityOf, replaceAll at 5. cbn [flat_map app].
  destruct (N.eqb_spec c 38) as [->|H38]; [reflexivity|].
  rewrite app_nil_r. unfold replaceAll at 4. cbn [flat_map].
  destruct (N.eqb_spec c 60) as [->|H60]; [reflexivity|].
  unfold replaceAll at 3. cbn [flat_map app].
  destruct (N.eqb_spec c 62) as [->|H62]; [reflexivity|].
  unfold replaceAll at 2. cbn [flat_map app].
  destruct (N.eqb_spec c 34) as [->|H34]; [reflexivity|].
  unfold replaceAll. cbn [flat_map app].
  destruct (N.eqb_spec c 39) as [->|H39]; reflexivity.
Qed.

Lemma escapeHTML_entities (s : jsstring) : escapeHTML s = escapeEntities s.
Proof.
  induction s as [|c s IH]; [reflexivity|].
  change (c :: s) with ([c] ++ s).
  rewrite escapeHTML_app, escapeHTML_one, IH. reflexivity.
Qed.

Lemma entityOf_safe (c : N) : Forall markupSafe (entityOf c).
Proof.
  unfold entityOf.
  destruct (N.eqb_spec c 38); [repeat constructor; discriminate|].
  destruct (N.eqb_spec c 60); [repeat constructor; discriminate|].
  destruct (N.eqb_spec c 62); [repeat constructor; discriminate|].
  destruct (N.eqb_spec c 34); [repeat constructor; discriminate|].
  destruct (N.eqb_spec c 39); [repeat constructor; discriminate|].
  repeat constructor; assumption.
Qed.

Lemma escapeHTML_safe (s : jsstring) : Forall markupSafe (escapeHTML s).
Proof.
  rewrite escapeHTML_entities. unfold escapeEntities.
  induction s as [|c s IH]; [constructor|].
  cbn [flat_map]. apply Forall_app. split; [apply entityOf_safe|exact IH].
Qed.

Context `{Engine}.


End MarkupFacts.

(** A title with markup in it is escaped; a link with a quote in it is
    not. *)
Example card_of_hostile_item :
  let quote := JSString.dq ++ JSString.lit " onclick=" in
  let it :=
    {| News.title := Some (JSString.lit "<b>R&D</b>");
       News.summary := None; News.source := None; News.published := None;
       News.link := Some quote; News.category := None;
       News.image := None |} in
  @News.renderNewsItem Samples.sampleEngine it
  = News.newsCard (JSString.lit "other") quote
      (News.imageMarkupOf [] [] (JSString.lit "fas fa-globe"))
      (JSString.lit "Other") []
      (JSString.lit "&lt;b&gt;R&amp;D&lt;/b&gt;") [] [].
Proof. vm_compute. reflexivity. Qed.

(* ===================================================================== *)
(** * Properties of the pager *)
(* ===================================================================== *)

Section PagerFacts.
Import JSString JSNumber Fetch News Vocabulary.
Context `{Engine}.

Lemma renderNextPage_allItems (p : Page) :
  allItems (state (renderNextPage p)) = allItems (state p).
Proof.
  unfold renderNextPage. destruct (grid p); [|reflexivity].
  destruct (reachedEnd (state p)); [reflexivity|].
  destruct (pageItemsOf (state p)); reflexivity.
Qed.

Lemma renderNextPage_filteredCategory (p : Page) :
  filteredCategory (state (renderNextPage p)) = filteredCategory (state p).
Proof.
  unfold renderNextPage. destruct (grid p); [|reflexivity].
  destruct (reachedEnd (state p)); [reflexivity|].
  destruct (pageItemsOf (state p)); reflexivity.
Qed.

(** Listeners bound before the cursor exists write to an object of their
    own: a click then leaves the filter of the cursor as it was. *)
Lemma early_bound_listener_does_not_filter (selected : jsstring) (p : Page) :
  filteredCategory
    (state (snd (onCategoryClick (setupCategoryFiltering None) selected p)))
  = filteredCategory (state p).
Proof.
  cbn [setupCategoryFiltering onCategoryClick snd].
  apply renderNextPage_filteredCategory.
Qed.

(** C5 (as the code has it). On a cursor whose [reachedEnd] is set
    [renderNextPage] changes nothing: not the page index, not the grid, not
    anything else. The flag [loading] is tested by the callers: while it or
    [reachedEnd] is set the scroll listener changes nothing, and while it
    is set a further [fetchLiveNews] changes nothing. *)
Theorem guarded_next_page_is_noop (p : Page) :
  loading (state p) = true \/ reachedEnd (state p) = true ->
  (forall innerHeight scrollY offsetHeight : number,
      onScroll innerHeight scrollY offsetHeight p = p)
  /\ (reachedEnd (state p) = true -> renderNextPage p = p)
  /\ (loading (state p) = true ->
      forall (initial : bool) (answer : Response NewsData),
        fetchLiveNews initial answer p = p).
Proof.
  intros Hg. split; [|split].
  - intros ih sy oh. unfold onScroll.
    destruct Hg as [-> | ->]; [reflexivity|now rewrite orb_true_r].
  - intro He. unfold renderNextPage. rewrite He. now destruct (grid p).
  - intros Hl initial answer. unfold fetchLiveNews, fetchLiveNews_begin.
    rewrite Hl. now destruct (grid p).
Qed.

(** C1 (as the code has it). On a page with a grid whose cursor holds
    twelve items, three of them in the category technology, with pages of
    nine, and with the category listeners bound to that cursor: a click on
    the category puts exactly the cards of the three items in the grid,
    moves the page index to 1 and leaves [reachedEnd] unset; it is the next
    [renderNextPage] that sets [reachedEnd], and it changes neither the
    grid nor the page index. *)
Theorem category_change_first_page (p : Page) (g : jsstring)
    (a b c : NewsItem) :
  grid p = Some g ->
  pageSize (state p) = 9 ->
  List.length (allItems (state p)) = 12 ->
  filter (fun i => strictEq (orElse (category i) (lit "other"))
                            (lit "technology"))
         (allItems (state p)) = [a; b; c] ->
  let captured := setupCategoryFiltering (Some (state p)) in
  let p1 := snd (onCategoryClick captured (lit "technology") p) in
  let p2 := renderNextPage p1 in
  grid p1 = Some (join (map renderNewsItem [a; b; c]))
  /\ page (state p1) = 1
  /\ reachedEnd (state p1) = false
  /\ grid p2 = grid p1
  /\ page (state p2) = 1
  /\ reachedEnd (state p2) = true.
Proof.
  intros Hg Hs Hl Hf captured p1 p2.
  set (cards := join (map renderNewsItem [a; b; c])).
  set (st0 := setReachedEnd false
                (setPageIndex 0
                   (setFilteredCategory (lit "technology") (state p)))).
  assert (Hfalse : strictEq (lit "technology") (lit "all") = false)
    by reflexivity.
  assert (E1 : p1 = setState (setPageIndex 1 st0) (setGrid cards p)).
  { unfold p1, captured, setupCategoryFiltering, onCategoryClick.
    cbn [snd]. unfold renderNextPage. fold st0.
    cbn [grid setState state]. rewrite Hg.
    unfold pageItemsOf, filteredItems, matchesFilter, st0.
    cbn [page pageSize filteredCategory allItems reachedEnd
         setReachedEnd setPageIndex setFilteredCategory].
    rewrite Hfalse, Hf, Hs. reflexivity. }
  assert (E2 : p2 = setState (setReachedEnd true (state p1))
                             (setGrid cards p1)).
  { unfold p2. rewrite E1. unfold renderNextPage.
    cbn [grid setState state setGrid reachedEnd setPageIndex].
    unfold pageItemsOf, filteredItems, matchesFilter, st0.
    cbn [page pageSize filteredCategory allItems reachedEnd
         setReachedEnd setPageIndex setFilteredCategory].
    rewrite Hfalse, Hf, Hs. reflexivity. }
  rewrite E2, E1. repeat split.
Qed.

Lemma empty_not_error : emptyStateHTML <> errorStateHTML.
Proof.
  intro E. apply (f_equal (fun l => nth 80 l 0%N)) in E.
  vm_compute in E. discriminate E.
Qed.

(** A card starts the way the error markup does not. *)
Lemma card_not_error (item : NewsItem) (rest : jsstring) :
  renderNewsItem item ++ rest <> errorStateHTML.
Proof.
  intro E. apply (f_equal (fun l => nth 10 l 0%N)) in E.
  lazy in E. discriminate E.
Qed.

Lemma renderNextPage_not_error (p : Page) (g : jsstring) :
  grid p = Some g -> page (state p) = 0 -> reachedEnd (state p) = false ->
  grid (renderNextPage p) <> Some errorStateHTML.
Proof.
  intros Hg Hp He. unfold renderNextPage. rewrite Hg, He, Hp. cbn [Nat.eqb].
  destruct (pageItemsOf (state p)) as [|x l]; cbn [grid setState setGrid].
  - intro E. apply some_eq in E. exact (empty_not_error E).
  - intro E. apply some_eq in E. cbn [map join List.concat app] in E.
    exact (card_not_error _ _ E).
Qed.

(** C7 (as the code has it). On a page with a grid and no fetch in flight,
    [fetchLiveNews] ends with [loading] unset; a success answer whose body
    carries no item puts the empty-state message in the grid, which is not
    the error message, and sets [reachedEnd]; and the grid shows the error
    message exactly when there is no response, the status is not a success
    one, the body is not JSON, or the body is [null]. *)
Theorem load_outcomes (initial : bool) (answer : Response NewsData)
    (p : Page) (g : jsstring) :
  grid p = Some g ->
  loading (state p) = false ->
  let p' := fetchLiveNews initial answer p in
  loading (state p') = false
  /\ (forall (status : N) (data : NewsData),
        answer = FetchResolves status (JsonResolves data) ->
        ok status = true -> noItems data ->
        grid p' = Some emptyStateHTML /\ reachedEnd (state p') = true)
  /\ emptyStateHTML <> errorStateHTML
  /\ (grid p' = Some errorStateHTML <-> loadFails answer).
Proof.
  intros Hg Hl p'.
  assert (Hp' : p' = fetchLiveNews_end answer
                       (if initial
                        then setGrid (createSkeletonCards (pageSize (state p)))
                                     (setState (setLoading true (state p)) p)
                        else setState (setLoading true (state p)) p)).
  { unfold p', fetchLiveNews, fetchLiveNews_begin. rewrite Hg, Hl.
    reflexivity. }
  set (q := if initial then _ else _) in Hp'.
  assert (Hq : exists gq, grid q = Some gq).
  { unfold q. destruct initial; cbn; eauto. }
  destruct Hq as [gq Hq].
  split; [|split; [|split]].
  - rewrite Hp'. reflexivity.
  - intros status data -> Hok Hno. rewrite Hp'.
    unfold fetchLiveNews_end, tryBlock.
    rewrite Hok. cbn [negb]. destruct Hno as [-> | ->]; split; reflexivity.
  - exact empty_not_error.
  - rewrite Hp'. unfold fetchLiveNews_end, tryBlock, loadFails.
    destruct answer as [|status body]; [cbn; tauto|].
    destruct (ok status) eqn:Hok; cbn [negb]; [|cbn; tauto].
    destruct body as [|data]; [cbn; tauto|].
    destruct data as [|items|]; [cbn; tauto| |].
    + destruct items as [|x l].
      * cbn [grid setState setGrid]. split.
        -- intro E. apply some_eq in E. destruct (empty_not_error E).
        -- intros [E|[E|E]]; discriminate E.
      * set (r := renderNextPage _). cbn [grid setState]. split.
        -- intro E. exfalso. revert E. unfold r.
           eapply renderNextPage_not_error; try reflexivity.
           cbn [grid setState setFeatured]. exact Hq.
        -- intros [E|[E|E]]; discriminate E.
    + cbn [grid setState setGrid]. split.
      * intro E. apply some_eq in E. destruct (empty_not_error E).
      * intros [E|[E|E]]; discriminate E.
Qed.

End PagerFacts.

(* ===================================================================== *)
(** * Properties of sorting *)
(* ===================================================================== *)

Section InsertionSort.
Import JSNumber News Vocabulary.
Variables (A : Type) (comparefn : A -> A -> number) (key : A -> Z).

Lemma insertSorted_perm (x : A) (l : list A) :
  Permutation (x :: l) (insertSorted comparefn x l).
Proof.
  induction l as [|y l IH]; cbn [insertSorted]; [reflexivity|].
  destruct (keepsBefore comparefn x y); [reflexivity|].
  rewrite perm_swap. apply perm_skip. exact IH.
Qed.

Lemma sort_perm (l : list A) : Permutation l (sort comparefn l).
Proof.
  induction l as [|x l IH]; cbn [sort fold_right]; [reflexivity|].
  rewrite <- insertSorted_perm. apply perm_skip. exact IH.
Qed.

Lemma insertSorted_descending (x : A) (l : list A) :
  (forall y, In y l -> byKey comparefn key x y) ->
  descending key l -> descending key (insertSorted comparefn x l).
Proof.
  unfold descending.
  induction l as [|y l IH]; intros Hk Hs; cbn [insertSorted].
  - repeat constructor.
  - pose proof (Hk y (or_introl eq_refl)) as Hy. unfold byKey in Hy.
    inversion Hs as [|? ? Hs' Hall]; subst.
    destruct (keepsBefore comparefn x y); symmetry in Hy.
    + apply Z.leb_le in Hy. constructor; [exact Hs|].
      constructor; [exact Hy|].
      eapply Forall_impl; [|exact Hall]. cbn. intros; lia.
    + apply Z.leb_gt in Hy. constructor.
      * apply IH; [|exact Hs']. intros z Hz. apply Hk. right. exact Hz.
      * apply (Permutation_Forall (insertSorted_perm x l)).
        constructor; [lia|exact Hall].
Qed.

Lemma sort_descending (l : list A) :
  (forall x y, In x l -> In y l -> byKey comparefn key x y) ->
  descending key (sort comparefn l).
Proof.
  induction l as [|x l IH]; intro Hk; cbn [sort fold_right].
  - constructor.
  - apply insertSorted_descending.
    + intros y Hy. apply Hk; [left; reflexivity|right].
      apply (Permutation_in _ (Permutation_sym (sort_perm l)) Hy).
    + apply IH. intros a b Ha Hb. apply Hk; right; assumption.
Qed.

(** Inserting moves [x] past elements of a greater key only, so it keeps
    the order within any class of elements of one key. *)
Lemma insertSorted_filter (P : A -> bool) (x : A) (l : list A) :
  (forall y, In y l -> byKey comparefn key x y) ->
  (forall y, In y l -> P x = true -> P y = true -> key x = key y) ->
  filter P (insertSorted comparefn x l) = filter P (x :: l).
Proof.
  induction l as [|y l IH]; intros Hk HP; cbn [insertSorted]; [reflexivity|].
  pose proof (Hk y (or_introl eq_refl)) as Hy. unfold byKey in Hy.
  destruct (keepsBefore comparefn x y); [reflexivity|].
  symmetry in Hy. apply Z.leb_gt in Hy.
  cbn [filter]. rewrite IH.
  - cbn [filter]. pose proof (HP y (or_introl eq_refl)) as Hxy.
    destruct (P x), (P y); try reflexivity.
    specialize (Hxy eq_refl eq_refl). lia.
  - intros z Hz. apply Hk. right. exact Hz.
  - intros z Hz. apply HP. right. exact Hz.
Qed.

Lemma sort_stable (P : A -> bool) (l : list A) :
  (forall x y, In x l -> In y l -> byKey comparefn key x y) ->
  (forall x y, In x l -> In y l -> P x = true -> P y = true ->
               key x = key y) ->
  filter P (sort comparefn l) = filter P l.
Proof.
  induction l as [|x l IH]; intros Hk HP; cbn [sort fold_right];
    [reflexivity|].
  rewrite insertSorted_filter.
  - cbn [filter]. fold (sort comparefn l). rewrite IH; [reflexivity| |].
    + intros a b Ha Hb. apply Hk; right; assumption.
    + intros a b Ha Hb. apply HP; right; assumption.
  - intros y Hy. apply Hk; [left; reflexivity|right].
    apply (Permutation_in _ (Permutation_sym (sort_perm l)) Hy).
  - intros y Hy. apply HP; [left; reflexivity|right].
    apply (Permutation_in _ (Permutation_sym (sort_perm l)) Hy).
Qed.

Lemma filter_key_head (a : A) (l : list A) :
  filter (fun i => (key i =? key a)%Z) (a :: l)
  = a :: filter (fun i => (key i =? key a)%Z) l.
Proof. cbn [filter]. now rewrite Z.eqb_refl. Qed.

Lemma descending_head_max (a : A) (l : list A) (x : A) :
  descending key (a :: l) -> In x (a :: l) -> (key x <= key a)%Z.
Proof.
  intros Hd [<-|Hx]; [lia|].
  inversion Hd as [|? ? _ Hall]; subst.
  rewrite Forall_forall in Hall. exact (Hall x Hx).
Qed.

Lemma in_filter_key (x : A) (l : list A) :
  In x l -> In x (filter (fun i => (key i =? key x)%Z) l).
Proof. intro Hx. apply filter_In. split; [exact Hx|apply Z.eqb_refl]. Qed.

(** Two descending lists in which the elements of each key come in the same
    order are one list. *)
Lemma stable_descending_unique (l1 l2 : list A) :
  descending key l1 -> descending key l2 ->
  (forall t : Z, filter (fun i => (key i =? t)%Z) l1
                 = filter (fun i => (key i =? t)%Z) l2) ->
  l1 = l2.
Proof.
  revert l2. induction l1 as [|a l1 IH]; intros l2 Hd1 Hd2 Hf.
  - destruct l2 as [|b l2]; [reflexivity|].
    specialize (Hf (key b)). rewrite filter_key_head in Hf. discriminate Hf.
  - destruct l2 as [|b l2].
    { specialize (Hf (key a)). rewrite filter_key_head in Hf.
      discriminate Hf. }
    assert (Hab : key a = key b).
    { apply Z.le_antisymm.
      - apply (descending_head_max b l2 a Hd2).
        pose proof (in_filter_key a (a :: l1) (or_introl eq_refl)) as Hin.
        rewrite Hf in Hin. apply filter_In in Hin. exact (proj1 Hin).
      - apply (descending_head_max a l1 b Hd1).
        pose proof (in_filter_key b (b :: l2) (or_introl eq_refl)) as Hin.
        rewrite <- Hf in Hin. apply filter_In in Hin. exact (proj1 Hin). }
    pose proof (Hf (key a)) as Hh. rewrite filter_key_head in Hh.
    rewrite Hab, filter_key_head in Hh.
    injection Hh as -> _.
    f_equal. apply IH.
    + inversion Hd1; assumption.
    + inversion Hd2; assumption.
    + intro t. specialize (Hf t). cbn [filter] in Hf.
      destruct (key b =? t)%Z; [injection Hf as Hf|]; exact Hf.
Qed.

(** Whatever the algorithm: for a comparator that orders [l] by decreasing
    key, an array that is descending and keeps the elements of each key in
    the order of [l] is the array [sort] gives. *)
Lemma sort_is_the_stable_order (l l' : list A) :
  (forall x y, In x l -> In y l -> byKey comparefn key x y) ->
  descending key l' ->
  (forall t : Z, filter (fun i => (key i =? t)%Z) l'
                 = filter (fun i => (key i =? t)%Z) l) ->
  l' = sort comparefn l.
Proof.
  intros Hk Hd Hf. apply stable_descending_unique.
  - exact Hd.
  - apply sort_descending. exact Hk.
  - intro t. rewrite Hf. symmetry. apply sort_stable; [exact Hk|].
    intros x y _ _ Hx Hy.
    apply Z.eqb_eq in Hx, Hy. congruence.
Qed.

End InsertionSort.

Section LoadingFacts.
Import JSString JSNumber Fetch News Vocabulary.
Context `{Engine}.

Lemma timeValue_valid (i : NewsItem) :
  timeValue i <> NaN -> timeValue i = Fin (inject_Z (millis i)).
Proof.
  unfold millis, timeValue.
  destruct (published i) as [[|c s]|]; try reflexivity.
  destruct (Date_parse (c :: s)) as [t|]; [reflexivity|].
  intro E. contradiction E. reflexivity.
Qed.

Lemma ge_millis (a b : Z) :
  ge (Fin (inject_Z a)) (Fin (inject_Z b)) = (b <=? a)%Z.
Proof. unfold ge, Qle_bool. cbn. now rewrite !Z.mul_1_r. Qed.

(** On items of valid dates the comparator orders by decreasing time. *)
Lemma keepsBefore_valid (a b : NewsItem) :
  timeValue a <> NaN -> timeValue b <> NaN ->
  byKey byDateDescending millis a b.
Proof.
  intros Ha Hb. unfold byKey, keepsBefore, byDateDescending.
  rewrite (timeValue_valid a Ha), (timeValue_valid b Hb).
  cbn [sub neg add gt]. unfold Qltb. rewrite negb_involutive.
  unfold Qle_bool. cbn.
  apply eq_true_iff_eq. rewrite !Z.leb_le. lia.
Qed.

Lemma sameNumber_millis (a b : NewsItem) (t : number) :
  timeValue a <> NaN -> timeValue b <> NaN ->
  sameNumber (timeValue a) t = true -> sameNumber (timeValue b) t = true ->
  millis a = millis b.
Proof.
  intros Ha Hb. rewrite (timeValue_valid a Ha), (timeValue_valid b Hb).
  unfold sameNumber.
  destruct t as [|q|s]; cbn [ge]; try (destruct s); try discriminate.
  rewrite !andb_true_iff, !Qle_bool_iff. intros [H1 H2] [H3 H4].
  assert (Hab : (inject_Z (millis a) <= inject_Z (millis b))%Q)
    by (eapply Qle_trans; eassumption).
  assert (Hba : (inject_Z (millis b) <= inject_Z (millis a))%Q)
    by (eapply Qle_trans; eassumption).
  rewrite <- Zle_Qle in Hab, Hba. lia.
Qed.

Lemma descending_newest_first (l : list NewsItem) :
  Forall (fun i => timeValue i <> NaN) l ->
  descending millis l ->
  StronglySorted (fun a b => ge (timeValue a) (timeValue b) = true) l.
Proof.
  intros Hv Hd. unfold descending in Hd.
  induction Hd as [|a l Hd IH Hall]; [constructor|].
  inversion Hv as [|? ? Hva Hvl]; subst.
  constructor; [exact (IH Hvl)|].
  rewrite Forall_forall in Hall, Hvl |- *.
  intros b Hb. rewrite (timeValue_valid a Hva), (timeValue_valid b (Hvl b Hb)).
  rewrite ge_millis. apply Z.leb_le. apply Hall. exact Hb.
Qed.

(** What a successful load of a non-empty list stores. *)
Lemma fetchLiveNews_stores_sorted (initial : bool) (status : N)
    (x : NewsItem) (items : list NewsItem) (p : Page) (g : jsstring) :
  grid p = Some g -> loading (state p) = false -> ok status = true ->
  allItems (state (fetchLiveNews initial
     (FetchResolves status (JsonResolves (DataItems (x :: items)))) p))
  = sort byDateDescending (x :: items).
Proof.
  intros Hg Hl Hok. unfold fetchLiveNews, fetchLiveNews_begin.
  rewrite Hg, Hl. unfold fetchLiveNews_end, tryBlock. rewrite Hok. cbn [negb].
  destruct (sort byDateDescending (x :: items)) as [|y l] eqn:Es.
  - exfalso. apply (Permutation_nil_cons (l := items) (x := x)).
    apply Permutation_sym. rewrite <- Es. apply sort_perm.
  - cbn [state setState setLoading allItems].
    rewrite renderNextPage_allItems. destruct initial; reflexivity.
Qed.


End LoadingFacts.

(* ===================================================================== *)
(** * The pager on the sample pages *)
(* ===================================================================== *)

Section SamplePages.
Import JSString JSNumber Fetch News Vocabulary Samples.
#[local] Existing Instance sampleEngine.

(** The exhausted sample page stays as it is. *)
Lemma guarded_next_page_is_noop_witness :
  reachedEnd (state exhaustedPage) = true
  /\ renderNextPage exhaustedPage = exhaustedPage.
Proof.
  assert (He : reachedEnd (state exhaustedPage) = true)
    by (vm_compute; reflexivity).
  split; [exact He|].
  destruct (guarded_next_page_is_noop exhaustedPage (or_intror He))
    as [_ [Hnoop _]].
  exact (Hnoop He).
Defined.

(** C5, refuted as stated: with [loading] set and items stored, as when
    [fetchLiveNews] itself calls it, [renderNextPage] renders the first
    nine cards over the skeletons and moves the page index to 1. *)
Lemma next_page_ignores_loading :
  loading (state inFlightPage) = true
  /\ reachedEnd (state inFlightPage) = false
  /\ page (state inFlightPage) = 0
  /\ page (state (renderNextPage inFlightPage)) = 1
  /\ grid (renderNextPage inFlightPage)
     = Some (join (map renderNewsItem (firstn 9 twelveItems)))
  /\ grid (renderNextPage inFlightPage) <> grid inFlightPage.
Proof.
  split; [reflexivity|]. split; [reflexivity|]. split; [reflexivity|].
  split; [reflexivity|]. split; [vm_compute; reflexivity|].
  intro E.
  apply (f_equal (fun o => match o with
                           | Some l => nth 36 l 0%N
                           | None => 0%N
                           end)) in E.
  vm_compute in E. discriminate E.
Qed.

(** The documented scenario on the sample page. *)
Lemma category_change_first_page_witness :
  let p1 := technologyPage in
  grid p1 = Some (join (map renderNewsItem technologyItems))
  /\ reachedEnd (state p1) = false
  /\ reachedEnd (state (renderNextPage p1)) = true.
Proof.
  assert (Hg : grid loadedPage
               = Some (join (map renderNewsItem (firstn 9 twelveItems))))
    by (vm_compute; reflexivity).
  assert (Hs : pageSize (state loadedPage) = 9) by (vm_compute; reflexivity).
  assert (Hl : List.length (allItems (state loadedPage)) = 12)
    by (vm_compute; reflexivity).
  assert (Hf : filter (fun i => strictEq (orElse (category i) (lit "other"))
                                         (lit "technology"))
                      (allItems (state loadedPage)) = technologyItems)
    by (vm_compute; reflexivity).
  destruct (category_change_first_page loadedPage _ _ _ _ Hg Hs Hl Hf)
    as [H1 [_ [H3 [_ [_ H6]]]]].
  split; [exact H1|]. split; [exact H3|exact H6].
Defined.

(** C1, refuted as stated: on the sample page of twelve items, three of
    them in the category technology, with pages of nine, the click renders
    exactly the three cards and [reachedEnd] is still unset. *)
Lemma category_change_leaves_cursor_open :
  let p1 :=
    snd (onCategoryClick (setupCategoryFiltering (Some (state loadedPage)))
                         (lit "technology") loadedPage) in
  List.length (allItems (state loadedPage)) = 12
  /\ pageSize (state loadedPage) = 9
  /\ filter (fun i => strictEq (orElse (category i) (lit "other"))
                               (lit "technology"))
            (allItems (state loadedPage)) = technologyItems
  /\ List.length technologyItems = 3
  /\ grid p1 = Some (join (map renderNewsItem technologyItems))
  /\ page (state p1) = 1
  /\ reachedEnd (state p1) = false.
Proof.
  repeat split; vm_compute; reflexivity.
Qed.

(** An empty list of items on the fresh sample page. *)
Lemma load_outcomes_witness :
  let p' :=
    fetchLiveNews true (FetchResolves 200 (JsonResolves (DataItems [])))
                  freshPage in
  grid p' = Some emptyStateHTML /\ reachedEnd (state p') = true.
Proof.
  destruct (load_outcomes true
              (FetchResolves 200 (JsonResolves (DataItems [])))
              freshPage [] eq_refl eq_refl)
    as [_ [Hempty _]].
  exact (Hempty 200%N (DataItems []) eq_refl eq_refl (or_introl eq_refl)).
Defined.

(** C7, refuted as stated: with status 200 the grid shows the error
    message when the body is not JSON, and when the body is [null]. *)
Lemma error_state_after_success_status :
  ok 200 = true
  /\ grid (fetchLiveNews true (FetchResolves 200 JsonRejects) freshPage)
     = Some errorStateHTML
  /\ grid (fetchLiveNews true (FetchResolves 200 (JsonResolves DataNull))
                         freshPage)
     = Some errorStateHTML.
Proof.
  repeat split; vm_compute; reflexivity.
Qed.



End SamplePages.

(* ===================================================================== *)
(** * Further properties of the calculator *)
(* ===================================================================== *)

Section DisplayFacts.
Import JSString JSNumber Control Calculator Vocabulary Samples Displays.
Local Open Scope Q_scope.

Lemma updateEmissions_dom (td : TransportData) (d : Dom) :
  updateEmissions td d
  = mkDom (slider_value d) (value_text d) (total_distance_text d)
          (overwritePresent (emissionsOf td) (emission_text d))
          (totalEmissionOf td) (totalSavedOf td)
          (bar_height d) (stroke_dashoffset d)
          (achievement_text d) (achievement_background d).
Proof. reflexivity. Qed.

Lemma updateBarChart_dom (td : TransportData) (d : Dom) :
  updateBarChart td d
  = mkDom (slider_value d) (value_text d) (total_distance_text d)
          (emission_text d) (total_emission_text d) (co2_saved_text d)
          (overwritePresent (barHeightsOf td) (bar_height d))
          (stroke_dashoffset d)
          (achievement_text d) (achievement_background d).
Proof.
  unfold updateBarChart, barHeightsOf, barHeightOf, maxEmissionOf, emissionOf,
    overwritePresent, Object_entries, modes.
  cbn [map fold_left fst snd get bus car bike cycle walking].
  reflexivity.
Qed.

Lemma updateCalculations_steps (td : TransportData) (d : Dom) :
  updateCalculations (mkCalc td d)
  = mkCalc td
      (updateAchievement td
         (updateProgressCircle td
            (updateBarChart td
               (updateEmissions td (updateTotalDistance td d))))).
Proof. reflexivity. Qed.

Lemma updateCalculations_dom (td : TransportData) (d : Dom) :
  updateCalculations (mkCalc td d)
  = mkCalc td
      (mkDom (slider_value d) (value_text d)
             (totalDistanceOf td)
             (overwritePresent (emissionsOf td) (emission_text d))
             (totalEmissionOf td)
             (totalSavedOf td)
             (overwritePresent (barHeightsOf td) (bar_height d))
             (strokeOffsetOf td)
             (tierText (achievementTier td))
             (tierBackground (achievementTier td))).
Proof.
  rewrite updateCalculations_steps, updateEmissions_dom, updateBarChart_dom.
  reflexivity.
Qed.

Lemma overwritePresent_last (vs vs' : PerMode number)
    (p : PerMode (option number)) :
  overwritePresent vs (overwritePresent vs' p) = overwritePresent vs p.
Proof. destruct p as [[?|] [?|] [?|] [?|] [?|]]; reflexivity. Qed.

(** X4. [updateCalculations] is idempotent: a second call changes neither
    the data nor anything on the page. *)
Theorem updateCalculations_idempotent (c : Calc) :
  updateCalculations (updateCalculations c) = updateCalculations c.
Proof.
  destruct c as [td d].
  rewrite (updateCalculations_dom td d).
  rewrite updateCalculations_dom.
  cbn [dom slider_value value_text emission_text bar_height].
  rewrite !overwritePresent_last. reflexivity.
Qed.

Lemma sliderInput_keyOf (m : Mode) (value : number) (c : Calc) :
  sliderInput (keyOf m) value c
  = Returns
      (updateCalculations
         (mkCalc (set m (mkEntry value (emission (get m (transportData c))))
                       (transportData c))
                 (updateTransportValue m value (dom c)))).
Proof. destruct m; reflexivity. Qed.

Lemma set_set_other {A : Type} (m1 m2 : Mode) (x y : A) (p : PerMode A) :
  Mode_eqb m1 m2 = false ->
  set m2 y (set m1 x p) = set m1 x (set m2 y p).
Proof. destruct m1, m2; intro E; try discriminate E; reflexivity. Qed.

Lemma set_set_same {A : Type} (m : Mode) (x y : A) (p : PerMode A) :
  set m y (set m x p) = set m y p.
Proof. destruct m; reflexivity. Qed.

Lemma get_set_other {A : Type} (m1 m2 : Mode) (x : A) (p : PerMode A) :
  Mode_eqb m1 m2 = false -> get m2 (set m1 x p) = get m2 p.
Proof. destruct m1, m2; intro E; try discriminate E; reflexivity. Qed.

Lemma get_set_same {A : Type} (m : Mode) (x : A) (p : PerMode A) :
  get m (set m x p) = x.
Proof. destruct m; reflexivity. Qed.

Lemma Mode_eqb_sym (m1 m2 : Mode) : Mode_eqb m1 m2 = Mode_eqb m2 m1.
Proof. destruct m1, m2; reflexivity. Qed.

(** The state a slider input leaves, field by field. *)
Lemma sliderInput_state (m : Mode) (value : number) (c : Calc) :
  let td := set m (mkEntry value (emission (get m (transportData c))))
                (transportData c) in
  stateOf (sliderInput (keyOf m) value c)
  = mkCalc td
      (mkDom (slider_value (dom c)) (set m value (value_text (dom c)))
             (totalDistanceOf td)
             (overwritePresent (emissionsOf td) (emission_text (dom c)))
             (totalEmissionOf td)
             (totalSavedOf td)
             (overwritePresent (barHeightsOf td) (bar_height (dom c)))
             (strokeOffsetOf td)
             (tierText (achievementTier td))
             (tierBackground (achievementTier td))).
Proof.
  intro td. rewrite sliderInput_keyOf. cbn [stateOf].
  rewrite updateCalculations_dom. reflexivity.
Qed.


Lemma resetCalculator_presence (c c' : Calc) :
  overwritePresent (mkPerMode NaN NaN NaN NaN NaN) (slider_value (dom c))
  = overwritePresent (mkPerMode NaN NaN NaN NaN NaN) (slider_value (dom c')) ->
  overwritePresent (mkPerMode NaN NaN NaN NaN NaN) (emission_text (dom c))
  = overwritePresent (mkPerMode NaN NaN NaN NaN NaN) (emission_text (dom c')) ->
  overwritePresent (mkPerMode NaN NaN NaN NaN NaN) (bar_height (dom c))
  = overwritePresent (mkPerMode NaN NaN NaN NaN NaN) (bar_height (dom c')) ->
  resetCalculator c = resetCalculator c'.
Proof.
  intros Hs He Hb. rewrite (resetCalculator_dom c), (resetCalculator_dom c').
  cbv zeta.
  rewrite <- (overwritePresent_last _ (mkPerMode NaN NaN NaN NaN NaN) (slider_value (dom c))).
  rewrite <- (overwritePresent_last _ (mkPerMode NaN NaN NaN NaN NaN) (emission_text (dom c))).
  rewrite <- (overwritePresent_last _ (mkPerMode NaN NaN NaN NaN NaN) (bar_height (dom c))).
  rewrite Hs, He, Hb, !overwritePresent_last. reflexivity.
Qed.

(** X3. A reset after a slider input gives what a reset alone gives,
    whatever the key and the value of the input, a key that names no entry
    and a value that is no number included. *)
Theorem reset_forgets_slider_input (transport : jsstring) (value : number)
    (c : Calc) :
  resetCalculator (stateOf (sliderInput transport value c))
  = resetCalculator c.
Proof.
  unfold sliderInput. destruct (modeOfKey transport) as [m|]; [|reflexivity].
  cbn [stateOf]. apply resetCalculator_presence;
    rewrite updateCalculations_dom;
    cbn [dom slider_value emission_text bar_height updateTransportValue];
    rewrite ?overwritePresent_last; reflexivity.
Qed.

Lemma Qltb_true (a b : Q) : Qltb a b = true <-> a < b.
Proof.
  unfold Qltb. rewrite negb_true_iff. split.
  - apply Qle_bool_false_lt.
  - intro H. destruct (Qle_bool b a) eqn:E; [|reflexivity].
    apply Qle_bool_iff in E. lra.
Qed.

Lemma Qltb_false (a b : Q) : Qltb a b = false <-> b <= a.
Proof.
  unfold Qltb. rewrite negb_false_iff. apply Qle_bool_iff.
Qed.


Lemma max2_Fin (a b : Q) : max2 (Fin a) (Fin b) = Fin (Qmaxb a b).
Proof. unfold max2, gt, Qmaxb. now destruct (Qltb a b). Qed.

Lemma min2_Fin (a b : Q) : min2 (Fin a) (Fin b) = Fin (Qminb a b).
Proof. unfold min2, gt, Qminb. now destruct (Qltb b a). Qed.

Lemma Qmaxb_spec (a b : Q) :
  a <= Qmaxb a b /\ b <= Qmaxb a b /\ (Qmaxb a b = a \/ Qmaxb a b = b).
Proof.
  unfold Qmaxb. destruct (Qltb a b) eqn:E.
  - apply Qltb_true in E. repeat split; try lra. now right.
  - apply Qltb_false in E. repeat split; try lra. now left.
Qed.

Lemma Qminb_spec (a b : Q) :
  Qminb a b <= a /\ Qminb a b <= b /\ (Qminb a b = a \/ Qminb a b = b).
Proof.
  unfold Qminb. destruct (Qltb b a) eqn:E.
  - apply Qltb_true in E. repeat split; try lra. now right.
  - apply Qltb_false in E. repeat split; try lra. now left.
Qed.

Lemma savedOf_finite (d f : Q) :
  savedOf (mkEntry (Fin d) (Fin f)) = Fin (Qmaxb 0 (d * 0.21 + - (d * f))).
Proof. unfold savedOf, emissionOf. cbn [distance emission mul sub neg add]. apply max2_Fin. Qed.

Lemma totalSavedOf_finite (b c k cy w : Q) :
  totalSavedOf (transportDataOf (Fin b) (Fin c) (Fin k) (Fin cy) (Fin w))
  = Fin (0 + Qmaxb 0 (b * 0.21 + - (b * 0.12))
           + Qmaxb 0 (k * 0.21 + - (k * 0.075))
           + Qmaxb 0 (cy * 0.21 + - (cy * 0))
           + Qmaxb 0 (w * 0.21 + - (w * 0))).
Proof.
  unfold totalSavedOf, transportDataOf. cbn [bus bike cycle walking].
  rewrite !savedOf_finite. reflexivity.
Qed.

Lemma max_of_Fin (x : Q) (xs : list Q) :
  max_of (map Fin (x :: xs)) = Fin (fold_left Qmaxb xs x).
Proof.
  unfold max_of. cbn [map fold_left].
  change (max2 (Infinity true) (Fin x)) with (Fin x).
  revert x. induction xs as [|y xs IH]; intro x; [reflexivity|].
  cbn [map fold_left]. rewrite max2_Fin. apply IH.
Qed.

Lemma fold_Qmaxb_spec (xs : list Q) (x : Q) :
  x <= fold_left Qmaxb xs x
  /\ Forall (fun y => y <= fold_left Qmaxb xs x) xs
  /\ In (fold_left Qmaxb xs x) (x :: xs).
Proof.
  revert x. induction xs as [|y xs IH]; intro x; cbn [fold_left].
  - split; [lra|]. split; [constructor|now left].
  - destruct (IH (Qmaxb x y)) as [H1 [H2 H3]].
    destruct (Qmaxb_spec x y) as [M1 [M2 M3]].
    split; [lra|]. split.
    + constructor; [lra|exact H2].
    + destruct H3 as [H3|H3].
      * rewrite <- H3. destruct M3 as [-> | ->]; [now left|now right; left].
      * right. right. exact H3.
Qed.

Lemma get_overwritePresent (m : Mode) (vs : PerMode number)
    (p : PerMode (option number)) :
  get m (overwritePresent vs p)
  = match get m p with Some _ => Some (get m vs) | None => None end.
Proof.
  destruct m, p as [[?|] [?|] [?|] [?|] [?|]]; reflexivity.
Qed.

Lemma get_barHeightsOf (m : Mode) (td : TransportData) :
  get m (barHeightsOf td) = barHeightOf td m.
Proof. destruct m; reflexivity. Qed.


Lemma maxEmissionOf_finite (b c k cy w : Q) :
  maxEmissionOf (transportDataOf (Fin b) (Fin c) (Fin k) (Fin cy) (Fin w))
  = Fin (fold_left Qmaxb
           [emissionQ b c k cy w Car; emissionQ b c k cy w Bike;
            emissionQ b c k cy w Cycle; emissionQ b c k cy w Walking]
           (emissionQ b c k cy w Bus)).
Proof. rewrite <- max_of_Fin. reflexivity. Qed.

Lemma barHeightOf_finite (b c k cy w : Q) (m : Mode) :
  let M := fold_left Qmaxb
           [emissionQ b c k cy w Car; emissionQ b c k cy w Bike;
            emissionQ b c k cy w Cycle; emissionQ b c k cy w Walking]
           (emissionQ b c k cy w Bus) in
  barHeightOf (transportDataOf (Fin b) (Fin c) (Fin k) (Fin cy) (Fin w)) m
  = Fin (if Qle_bool M 0 then 5
         else Qmaxb (emissionQ b c k cy w m / M * 100) 5).
Proof.
  intro M. unfold barHeightOf. rewrite maxEmissionOf_finite. fold M.
  replace (emissionOf (get m (transportDataOf (Fin b) (Fin c) (Fin k) (Fin cy) (Fin w))))
    with (Fin (emissionQ b c k cy w m)) by (destruct m; reflexivity).
  unfold gt, Qltb. destruct (Qle_bool M 0) eqn:E; cbn [negb].
  - reflexivity.
  - apply Qle_bool_false_lt in E. unfold div.
    rewrite (Qeq_bool_false_of_pos _ E). cbn [mul]. apply max2_Fin.
Qed.


Lemma circumference_finite :
  circumference = Fin (2 * (884279719003555 # 281474976710656) * 100).
Proof. reflexivity. Qed.

Lemma strokeOffsetOf_finite (b c k cy w : Q) :
  let T := 0 + b + c + k + cy + w in
  let circ := 2 * (884279719003555 # 281474976710656) * 100 in
  strokeOffsetOf (transportDataOf (Fin b) (Fin c) (Fin k) (Fin cy) (Fin w))
  = Fin (circ + - (Qminb (T / 500 * 100) 100 / 100 * circ)).
Proof.
  intros T circ. unfold strokeOffsetOf.
  rewrite totalDistanceOf_finite, circumference_finite. fold T. fold circ.
  change (div (Fin T) (Fin 500)) with (Fin (T / 500)).
  cbn [mul]. rewrite min2_Fin.
  change (div (Fin (Qminb (T / 500 * 100) 100)) (Fin 100))
    with (Fin (Qminb (T / 500 * 100) 100 / 100)).
  reflexivity.
Qed.


Lemma achievementTier_finite (b c k cy w : Q) :
  let T := 0 + b + c + k + cy + w in
  let pct := (cy + w) / T * 100 in
  achievementTier (transportDataOf (Fin b) (Fin c) (Fin k) (Fin cy) (Fin w))
  = if Qle_bool T 0 then NeedsImprovement
    else if Qle_bool 50 pct then Outstanding
    else if Qle_bool 25 pct then GoodProgress
    else NeedsImprovement.
Proof.
  intros T pct. unfold achievementTier.
  rewrite zeroEmissionPercentage_finite. fold T. fold pct.
  destruct (Qle_bool T 0); reflexivity.
Qed.



Lemma add_NaN_r (x : number) : add x NaN = NaN.
Proof. now destruct x. Qed.

Lemma add_NaN_l (x : number) : add NaN x = NaN.
Proof. reflexivity. Qed.

Lemma mul_NaN_l (x : number) : mul NaN x = NaN.
Proof. reflexivity. Qed.

Lemma max2_NaN_r (x : number) : max2 x NaN = NaN.
Proof. now destruct x. Qed.

Lemma max2_NaN_l (x : number) : max2 NaN x = NaN.
Proof. reflexivity. Qed.

Lemma totalDistanceOf_sum (td : TransportData) :
  totalDistanceOf td
  = add (add (add (add (add (Fin 0) (distance (bus td))) (distance (car td)))
                  (distance (bike td)))
             (distance (cycle td)))
        (distance (walking td)).
Proof. reflexivity. Qed.

Lemma totalEmissionOf_sum (td : TransportData) :
  totalEmissionOf td
  = add (add (add (add (add (Fin 0) (emissionOf (bus td)))
                            (emissionOf (car td)))
                  (emissionOf (bike td)))
             (emissionOf (cycle td)))
        (emissionOf (walking td)).
Proof. reflexivity. Qed.

Lemma maxEmissionOf_max (td : TransportData) :
  maxEmissionOf td
  = max2 (max2 (max2 (max2 (max2 (Infinity true) (emissionOf (bus td)))
                           (emissionOf (car td)))
                     (emissionOf (bike td)))
               (emissionOf (cycle td)))
         (emissionOf (walking td)).
Proof. reflexivity. Qed.


Lemma strictEq_eq (a b : jsstring) : eqb a b = true <-> a = b.
Proof.
  revert b. induction a as [|x a IH]; intros [|y b]; cbn [eqb];
    try (split; [discriminate|discriminate]); [tauto|].
  rewrite andb_true_iff, N.eqb_eq, IH. split.
  - intros [-> ->]. reflexivity.
  - intro E. injection E as -> ->. split; reflexivity.
Qed.

Lemma modeOfKey_keyOf (m : Mode) : modeOfKey (keyOf m) = Some m.
Proof. destruct m; reflexivity. Qed.

Lemma modeOfKey_Some (k : jsstring) (m : Mode) :
  modeOfKey k = Some m -> k = keyOf m.
Proof.
  unfold modeOfKey. intro E. apply find_some in E. destruct E as [_ E].
  unfold strictEq in E. apply strictEq_eq in E. symmetry. exact E.
Qed.

(** X1. Each of the five keys names its own entry. The slider listener throws,
    and leaves the calculator as it was, exactly when the slider's
    [data-transport] is none of the five keys; it returns exactly when it is
    one of them. *)
Theorem slider_input_unknown_key (transport : jsstring) (value : number)
    (c : Calc) :
  (forall m : Mode, modeOfKey (keyOf m) = Some m)
  /\ ((forall m : Mode, transport <> keyOf m)
      <-> sliderInput transport value c = Throws c)
  /\ ((exists m : Mode, transport = keyOf m)
      <-> exists c' : Calc, sliderInput transport value c = Returns c').
Proof.
  split; [exact modeOfKey_keyOf|]. unfold sliderInput.
  destruct (modeOfKey transport) as [m|] eqn:E.
  - apply modeOfKey_Some in E. split; split.
    + intro H. contradiction (H m).
    + discriminate.
    + intros _. eexists. reflexivity.
    + intros _. exists m. exact E.
  - split; split.
    + reflexivity.
    + intros _ m ->. rewrite modeOfKey_keyOf in E. discriminate E.
    + intros [m ->]. rewrite modeOfKey_keyOf in E. discriminate E.
    + intros [c' H]. discriminate H.
Qed.

Lemma displayAgrees_updateCalculations (c : Calc) :
  displayAgrees (updateCalculations c).
Proof.
  destruct c as [td d]. rewrite updateCalculations_dom.
  repeat split.
Qed.

Lemma resetCalculator_is_update (c : Calc) :
  exists c0 : Calc, resetCalculator c = updateCalculations c0.
Proof. eexists. reflexivity. Qed.

Lemma handle_keeps (c : Calc) (e : CalcEvent) :
  hasFixedFactors (transportData c) /\ displayAgrees c ->
  hasFixedFactors (transportData (handle c e)) /\ displayAgrees (handle c e).
Proof.
  intros [Hf Hd]. destruct e as [transport value|]; cbn [handle].
  - split; [apply fixed_factors_slider; exact Hf|].
    unfold sliderInput. destruct (modeOfKey transport); cbn [stateOf].
    + apply displayAgrees_updateCalculations.
    + exact Hd.
  - split; [apply fixed_factors_reset|].
    destruct (resetCalculator_is_update c) as [c0 ->].
    apply displayAgrees_updateCalculations.
Qed.

Lemma handleAll_keeps (events : list CalcEvent) (c : Calc) :
  hasFixedFactors (transportData c) /\ displayAgrees c ->
  hasFixedFactors (transportData (handleAll events c))
  /\ displayAgrees (handleAll events c).
Proof.
  unfold handleAll. revert c.
  induction events as [|e events IH]; intros c Hc; [exact Hc|].
  cbn [fold_left]. apply IH. apply handle_keeps. exact Hc.
Qed.

Lemma constructed_keeps (d : Dom) :
  hasFixedFactors
    (transportData (updateCalculations (mkCalc zeroTransportData d)))
  /\ displayAgrees (updateCalculations (mkCalc zeroTransportData d)).
Proof. split; [reflexivity|apply displayAgrees_updateCalculations]. Qed.







End DisplayFacts.

(* ===================================================================== *)
(** * Further properties of the feed *)
(* ===================================================================== *)

Section FeedFacts.
Import JSString JSNumber Control Fetch News Vocabulary Feed.
Context `{Engine}.

Lemma firstn_add {A : Type} (a b : nat) (l : list A) :
  firstn (a + b) l = firstn a l ++ firstn b (skipn a l).
Proof.
  revert l. induction a as [|a IH]; intro l; [reflexivity|].
  destruct l as [|x l]; cbn [Nat.add firstn skipn app].
  - now rewrite firstn_nil.
  - now rewrite IH.
Qed.

Lemma slice_page {A : Type} (a s : nat) (l : list A) :
  slice a (a + s) l = firstn s (skipn a l).
Proof. unfold slice. f_equal. lia. Qed.

Lemma cards_app (l1 l2 : list NewsItem) :
  cards (l1 ++ l2) = cards l1 ++ cards l2.
Proof. unfold cards, join. now rewrite map_app, concat_app. Qed.

Lemma page_empty_iff {A : Type} (a s : nat) (l : list A) :
  0 < s -> (firstn s (skipn a l) = [] <-> List.length l <= a).
Proof.
  intro Hs. split.
  - intro E. apply (f_equal (@List.length A)) in E.
    rewrite length_firstn, length_skipn in E. cbn in E. lia.
  - intro Hl. rewrite skipn_all2 by exact Hl. apply firstn_nil.
Qed.

(** One call of [renderNextPage] on a live cursor. *)
Lemma renderNextPage_live (p : Page) (g : jsstring) :
  grid p = Some g -> reachedEnd (state p) = false ->
  let st := state p in
  let pageItems := firstn (pageSize st) (skipn (page st * pageSize st)
                                               (filteredItems st)) in
  renderNextPage p
  = match pageItems with
    | [] => setState (setReachedEnd true st)
              (setGrid (if (page st =? 0)%nat then emptyStateHTML else g) p)
    | _ :: _ => setState (setPageIndex (page st + 1) st)
                  (setGrid ((if (page st =? 0)%nat then [] else g)
                              ++ cards pageItems) p)
    end.
Proof.
  intros Hg He st pageItems. unfold pageItems, st, renderNextPage.
  rewrite Hg, He. unfold pageItemsOf. rewrite slice_page.
  destruct (firstn _ _); [|reflexivity].
  destruct (page (state p) =? 0)%nat; reflexivity.
Qed.

Lemma filteredItems_frame (st st' : NewsState) :
  allItems st' = allItems st -> filteredCategory st' = filteredCategory st ->
  filteredItems st' = filteredItems st.
Proof.
  intros Ha Hf. unfold filteredItems, matchesFilter. now rewrite Ha, Hf.
Qed.


Lemma pagedTo_step (p : Page) (g : jsstring) (k : nat) (q : Page) :
  0 < pageSize (state p) ->
  pagedTo p g k q -> pagedTo p g (S k) (renderNextPage q).
Proof.
  intros Hs (Ha & Hf & Hz & Hq). unfold pagedTo.
  pose proof (filteredItems_frame _ _ Ha Hf) as Hfi.
  destruct (reachedEnd (state q)) eqn:He.
  - destruct Hq as (Hk & Hl & Hg).
    assert (E : renderNextPage q = q).
    { unfold renderNextPage. rewrite He. now destruct (grid q). }
    rewrite E, He. repeat split; try assumption; try lia.
  - destruct Hq as (Hp & Hk & Hg).
    rewrite (renderNextPage_live q _ Hg He). cbv zeta.
    rewrite Hfi, Hz, Hp.
    set (items := filteredItems (state p)) in *.
    set (size := pageSize (state p)) in *.
    destruct (firstn size (skipn (k * size) items)) as [|x l] eqn:Epage.
    + apply (page_empty_iff _ _ _ Hs) in Epage.
      cbn [state setState setReachedEnd reachedEnd allItems filteredCategory
           pageSize grid setGrid].
      split; [exact Ha|]. split; [exact Hf|]. split; [exact Hz|].
      split; [lia|]. split; [replace (S k - 1) with k by lia; exact Epage|].
      destruct k as [|k].
      * cbn [Nat.eqb]. destruct items; [reflexivity|cbn in Epage; lia].
      * cbn [Nat.eqb]. rewrite firstn_all2 by exact Epage.
        unfold allRendered. destruct items; [|reflexivity].
        cbn in Hk. destruct Hk as [Hk|Hk]; [discriminate Hk|lia].
    + assert (Hlt : k * size < List.length items).
      { destruct (Nat.le_gt_cases (List.length items) (k * size)) as [Hle|Hlt];
          [|exact Hlt].
        apply (page_empty_iff _ _ _ Hs) in Hle. rewrite Hle in Epage.
        discriminate Epage. }
      cbn [state setState setPageIndex reachedEnd allItems filteredCategory
           pageSize page grid setGrid]. rewrite He.
      split; [exact Ha|]. split; [exact Hf|]. split; [exact Hz|].
      split; [lia|].
      split; [right; replace (S k - 1) with k by lia; exact Hlt|].
      cbn [Nat.eqb]. f_equal. rewrite <- Epage.
        replace (S k * size) with (k * size + size) by lia.
        rewrite firstn_add, cards_app.
        destruct k; [reflexivity|reflexivity].
Qed.

Lemma pagedTo_iter (p : Page) (g : jsstring) (n : nat) :
  grid p = Some g -> page (state p) = 0 -> reachedEnd (state p) = false ->
  0 < pageSize (state p) ->
  pagedTo p g n (nextPages n p).
Proof.
  intros Hg Hp He Hs. induction n as [|n IH].
  - unfold pagedTo, nextPages.
    change (Nat.iter 0 renderNextPage p) with p. cbn [Nat.eqb]. rewrite He.
    split; [reflexivity|]. split; [reflexivity|]. split; [reflexivity|].
    split; [exact Hp|]. split; [now left|exact Hg].
  - unfold nextPages.
    change (Nat.iter (S n) renderNextPage p)
      with (renderNextPage (nextPages n p)).
    apply pagedTo_step; assumption.
Qed.

(** X12. From a cursor at page 0 on a page with a grid, with pages of at least
    one item: while items remain, [n + 1] calls of [renderNextPage] leave
    in the grid the cards of the first [(n + 1) * pageSize] filtered items,
    each once and in order, and the page index [n + 1]; once none remains
    the cursor has [reachedEnd] set and the grid holds the cards of all the
    filtered items, or the empty-state message when there is none. *)
Theorem paging_renders_every_item_once (p : Page) (g : jsstring) (n : nat) :
  grid p = Some g ->
  page (state p) = 0 ->
  reachedEnd (state p) = false ->
  0 < pageSize (state p) ->
  let items := filteredItems (state p) in
  let size := pageSize (state p) in
  let q := nextPages (S n) p in
  (n * size < List.length items ->
   reachedEnd (state q) = false
   /\ page (state q) = S n
   /\ grid q = Some (cards (firstn (S n * size) items)))
  /\ (List.length items <= n * size ->
      reachedEnd (state q) = true
      /\ grid q = Some (match items with
                        | [] => emptyStateHTML
                        | _ :: _ => cards items
                        end)).
Proof.
  intros Hg Hp He Hs items size q.
  pose proof (pagedTo_iter p g (S n) Hg Hp He Hs) as (_ & _ & _ & Hq).
  fold q in Hq. fold items in Hq. fold size in Hq.
  replace (S n - 1) with n in Hq by lia.
  split; intro Hn; destruct (reachedEnd (state q)).
  - destruct Hq as (_ & Hl & _). lia.
  - destruct Hq as (Hpg & _ & Hgr). cbn [Nat.eqb] in Hgr. tauto.
  - destruct Hq as (_ & _ & Hgr). split; [reflexivity|exact Hgr].
  - destruct Hq as (_ & [Hk|Hk] & _); [discriminate Hk|lia].
Qed.

(** The frame of one call, and of any number of calls and scrolls. *)
Lemma renderNextPage_frame (p : Page) :
  let q := renderNextPage p in
  allItems (state q) = allItems (state p)
  /\ pageSize (state q) = pageSize (state p)
  /\ filteredCategory (state q) = filteredCategory (state p)
  /\ loading (state q) = loading (state p)
  /\ featured q = featured p
  /\ page (state p) <= page (state q)
  /\ (reachedEnd (state p) = true -> reachedEnd (state q) = true)
  /\ (grid p = None <-> grid q = None).
Proof.
  cbv zeta. unfold renderNextPage.
  destruct (grid p) as [g|] eqn:Hg.
  2:{ rewrite Hg. repeat split; auto. }
  destruct (reachedEnd (state p)) eqn:He.
  { rewrite Hg, He. repeat split; auto; discriminate. }
  destruct (pageItemsOf (state p));
    cbn [state setState setReachedEnd setPageIndex allItems pageSize
         filteredCategory loading featured setGrid page reachedEnd grid];
    repeat split; auto; try lia; try discriminate.
Qed.


Lemma framed_refl p : framed p p.
Proof. unfold framed. repeat split; auto. Qed.

Lemma framed_trans p q r : framed p q -> framed q r -> framed p r.
Proof.
  unfold framed. intros (A1&A2&A3&A4&A5&A6&A7&A8) (B1&B2&B3&B4&B5&B6&B7&B8).
  repeat split; try congruence; try lia; try tauto.
Qed.


(** X13. Scroll events and calls of [renderNextPage], in any number and
    order, change neither the items, the page size, the filter, the
    [loading] flag nor the featured article, and never lower the page
    index; from a cursor with [reachedEnd] set they change nothing. *)
Theorem scrolling_keeps_the_feed (events : list Scroll) (p : Page) :
  let q := fold_left scrollStep events p in
  allItems (state q) = allItems (state p)
  /\ pageSize (state q) = pageSize (state p)
  /\ filteredCategory (state q) = filteredCategory (state p)
  /\ loading (state q) = loading (state p)
  /\ featured q = featured p
  /\ page (state p) <= page (state q)
  /\ (reachedEnd (state p) = true -> q = p).
Proof.
  cbv zeta.
  assert (Hstep : forall p e, framed p (scrollStep p e)).
  { intros p0 [a b c|]; cbn [scrollStep].
    - unfold onScroll. destruct (loading (state p0) || reachedEnd (state p0));
        [apply framed_refl|].
      destruct (ge _ _); [apply renderNextPage_frame|apply framed_refl].
    - apply renderNextPage_frame. }
  assert (Hall : forall evs p, framed p (fold_left scrollStep evs p)).
  { induction evs as [|e evs IH]; intro p0; [apply framed_refl|].
    cbn [fold_left]. eapply framed_trans; [apply Hstep|apply IH]. }
  assert (Hend : forall evs p, reachedEnd (state p) = true ->
                               fold_left scrollStep evs p = p).
  { induction evs as [|e evs IH]; intros p0 He; [reflexivity|].
    cbn [fold_left].
    assert (E : scrollStep p0 e = p0).
    { destruct e as [a b c|]; cbn [scrollStep].
      - unfold onScroll. rewrite He, orb_true_r. reflexivity.
      - unfold renderNextPage. rewrite He. now destruct (grid p0). }
    rewrite E. apply IH. exact He. }
  destruct (Hall events p) as (A1&A2&A3&A4&A5&A6&A7&A8).
  repeat split; try assumption. apply Hend.
Qed.


Lemma ge_refl_valid (i : NewsItem) :
  timeValue i <> NaN -> ge (timeValue i) (timeValue i) = true.
Proof.
  intro Hv. rewrite (timeValue_valid i Hv), ge_millis. apply Z.leb_refl.
Qed.

Lemma filteredItems_all (st : NewsState) :
  filteredCategory st = lit "all" -> filteredItems st = allItems st.
Proof. unfold filteredItems. intros ->. reflexivity. Qed.

(** X14. A successful load of at least one item, on a page with a grid, no
    fetch in flight, the filter 'all' and pages of at least one item,
    features the first item of the sorted list (its title or 'Latest news',
    the first 220 code units of its summary), shows its card first and the
    cards of the next [pageSize - 1] items after it, and leaves the page
    index at 1; when every date is valid no item is newer than the featured
    one. *)
Theorem load_features_newest_item (initial : bool) (status : N)
    (x : NewsItem) (items : list NewsItem) (p : Page) (g : jsstring) :
  grid p = Some g ->
  loading (state p) = false ->
  ok status = true ->
  filteredCategory (state p) = lit "all" ->
  0 < pageSize (state p) ->
  let p' := fetchLiveNews initial
              (FetchResolves status (JsonResolves (DataItems (x :: items))))
              p in
  exists (newest : NewsItem) (rest : list NewsItem),
    allItems (state p') = newest :: rest
    /\ featured_title (featured p') = orElse (title newest) (lit "Latest news")
    /\ featured_excerpt (featured p')
       = firstn 220 (orElse (summary newest) [])
    /\ grid p'
       = Some (renderNewsItem newest
                 ++ cards (firstn (pageSize (state p) - 1) rest))
    /\ page (state p') = 1
    /\ reachedEnd (state p') = false
    /\ loading (state p') = false
    /\ (Forall (fun i => timeValue i <> NaN) (x :: items) ->
        Forall (fun i => ge (timeValue newest) (timeValue i) = true)
               (x :: items)).
Proof.
  intros Hg Hl Hok Hall Hs p'.
  pose proof (sort_perm _ byDateDescending (x :: items)) as Hperm.
  destruct (sort byDateDescending (x :: items)) as [|newest rest] eqn:Es.
  { apply Permutation_sym, Permutation_nil_cons in Hperm. contradiction. }
  exists newest, rest.
  set (st1 := setReachedEnd false
                (setPageIndex 0
                   (setAllItems (newest :: rest) (setLoading true (state p))))).
  set (f1 := renderFeatured (Some newest) (featured p)).
  set (g1 := if initial then createSkeletonCards (pageSize (state p)) else g).
  assert (Ep : p' = setState (setLoading false (setPageIndex 1 st1))
                      (setGrid (cards (firstn (pageSize (state p))
                                              (newest :: rest)))
                               (mkPage st1 (Some g1) f1))).
  { unfold p', fetchLiveNews, fetchLiveNews_begin. rewrite Hg, Hl.
    unfold fetchLiveNews_end, tryBlock. rewrite Hok. cbn [negb]. rewrite Es.
    cbn [hd_error].
    assert (Eq : forall q : Page,
               grid q = Some g1 -> state q = st1 ->
               renderNextPage q
               = setState (setPageIndex 1 st1)
                   (setGrid (cards (firstn (pageSize (state p))
                                           (newest :: rest))) q)).
    { intros q Hq Hst.
      rewrite (renderNextPage_live q g1 Hq) by (rewrite Hst; reflexivity).
      cbv zeta. rewrite Hst.
      rewrite (filteredItems_all st1) by exact Hall.
      cbn [page pageSize allItems st1 setReachedEnd setPageIndex setAllItems
           setLoading Nat.mul skipn Nat.eqb Nat.add app].
      destruct (pageSize (state p)) as [|n]; [lia|]. reflexivity. }
    destruct initial; cbn [setGrid setState state grid featured setFeatured];
      (rewrite Eq; [reflexivity|cbn; try exact Hg; reflexivity|reflexivity]). }
  rewrite Ep.
  split; [reflexivity|]. split; [reflexivity|]. split; [reflexivity|].
  split.
  { cbn [grid setState setGrid]. f_equal.
    destruct (pageSize (state p)) as [|n]; [lia|].
    cbn [firstn]. replace (S n - 1) with n by lia.
    unfold cards, join. reflexivity. }
  split; [reflexivity|]. split; [reflexivity|]. split; [reflexivity|].
  intro Hv.
  assert (Hvs : Forall (fun i => timeValue i <> NaN) (newest :: rest))
    by (apply (Permutation_Forall Hperm); exact Hv).
  assert (Hsorted : StronglySorted
                      (fun a b => ge (timeValue a) (timeValue b) = true)
                      (newest :: rest)).
  { apply descending_newest_first; [exact Hvs|]. rewrite <- Es.
    apply sort_descending. rewrite Forall_forall in Hv.
    intros a b Ha Hb. apply keepsBefore_valid; apply Hv; assumption. }
  apply (Permutation_Forall (Permutation_sym Hperm)).
  inversion Hsorted as [|? ? _ Hhd]; subst.
  constructor; [|exact Hhd].
  apply ge_refl_valid. inversion Hvs; assumption.
Qed.

Lemma setLoading_restore (st : NewsState) :
  loading st = false -> setLoading false (setLoading true st) = st.
Proof. destruct st as [a pg sz f l r]. cbn. intros ->. reflexivity. Qed.

(** X15. A load that fails, on a page with a grid and no fetch in flight,
    leaves the cursor and the featured article as they were and puts the
    error message in the grid; on a cursor that never held an item the
    next scroll near the bottom replaces the error message by the
    empty-state message and sets [reachedEnd]. *)
Theorem failed_load_keeps_cursor (initial : bool)
    (answer : Response NewsData) (p : Page) (g : jsstring) :
  grid p = Some g ->
  loading (state p) = false ->
  loadFails answer ->
  let p' := fetchLiveNews initial answer p in
  state p' = state p
  /\ featured p' = featured p
  /\ grid p' = Some errorStateHTML
  /\ (allItems (state p) = [] -> page (state p) = 0 ->
      reachedEnd (state p) = false ->
      forall innerHeight scrollY offsetHeight : number,
        ge (add innerHeight scrollY) (sub offsetHeight (Fin 300)) = true ->
        let q := onScroll innerHeight scrollY offsetHeight p' in
        grid q = Some emptyStateHTML /\ reachedEnd (state q) = true).
Proof.
  intros Hg Hl Hfail p'.
  set (p1 := if initial
             then setGrid (createSkeletonCards (pageSize (state p)))
                          (setState (setLoading true (state p)) p)
             else setState (setLoading true (state p)) p).
  assert (Etry : tryBlock answer p1 = Throws p1).
  { unfold tryBlock. destruct answer as [|status body]; [reflexivity|].
    cbn [loadFails] in Hfail. destruct (ok status); cbn [negb]; [|reflexivity].
    destruct Hfail as [Hf|[Hf|Hf]]; [discriminate Hf| |]; rewrite Hf;
      reflexivity. }
  assert (Ep : p' = mkPage (state p) (Some errorStateHTML) (featured p)).
  { unfold p', fetchLiveNews, fetchLiveNews_begin. rewrite Hg, Hl.
    fold p1. unfold fetchLiveNews_end. rewrite Etry.
    unfold p1. destruct initial;
      cbn [setGrid setState state grid featured];
      rewrite (setLoading_restore _ Hl); reflexivity. }
  rewrite Ep. split; [reflexivity|]. split; [reflexivity|].
  split; [reflexivity|].
  intros Ha Hp He ih sy oh Hnear. cbv zeta. unfold onScroll.
  cbn [state]. rewrite Hl, He. cbn [orb]. rewrite Hnear.
  rewrite (renderNextPage_live
             (mkPage (state p) (Some errorStateHTML) (featured p))
             errorStateHTML eq_refl He). cbv zeta.
  cbn [state]. unfold filteredItems. rewrite Ha, Hp.
  assert (Ef : (if strictEq (filteredCategory (state p)) (lit "all")
                then @nil NewsItem
                else filter (matchesFilter (state p)) []) = [])
    by (destruct (strictEq _ _); reflexivity).
  rewrite Ef. cbn [Nat.mul skipn]. rewrite firstn_nil. split; reflexivity.
Qed.

(** X16. A click on a category, the listeners being bound to the cursor of a
    page with a grid and pages of at least one item, stores the category
    and keeps the items; the grid then holds the cards of the first page of
    the matching items with the page index 1, or the empty-state message
    with the page index 0 and [reachedEnd] set when no item matches. *)
Theorem category_click_shows_first_page (selected : jsstring) (p : Page)
    (g : jsstring) :
  grid p = Some g ->
  0 < pageSize (state p) ->
  let matching :=
    if strictEq selected (lit "all") then allItems (state p)
    else filter (fun i => strictEq (orElse (category i) (lit "other"))
                                   selected)
                (allItems (state p)) in
  let q := snd (onCategoryClick Cursor selected p) in
  filteredCategory (state q) = selected
  /\ allItems (state q) = allItems (state p)
  /\ match matching with
     | [] => grid q = Some emptyStateHTML
             /\ page (state q) = 0 /\ reachedEnd (state q) = true
     | _ :: _ => grid q = Some (cards (firstn (pageSize (state p)) matching))
                 /\ page (state q) = 1 /\ reachedEnd (state q) = false
     end.
Proof.
  intros Hg Hs matching q. unfold q, onCategoryClick. cbn [snd].
  set (st := setReachedEnd false
               (setPageIndex 0 (setFilteredCategory selected (state p)))).
  rewrite (renderNextPage_live (setState st p) g Hg eq_refl). cbv zeta.
  assert (Ef : filteredItems st = matching) by reflexivity.
  cbn [state setState]. rewrite Ef.
  cbn [page pageSize st setReachedEnd setPageIndex setFilteredCategory
       Nat.mul skipn Nat.eqb].
  destruct matching as [|x l].
  - rewrite firstn_nil. repeat split.
  - destruct (pageSize (state p)) as [|n] eqn:En; [lia|].
    cbn [firstn]. repeat split.
Qed.

Lemma scrollStep_turnsPage (q : Page) (e : Scroll) :
  loading (state q) = false ->
  scrollStep q e = if turnsPage e then renderNextPage q else q.
Proof.
  intro Hl. destruct e as [a b c|]; cbn [scrollStep turnsPage]; [|reflexivity].
  unfold onScroll. rewrite Hl. cbn [orb].
  destruct (reachedEnd (state q)) eqn:He; [|reflexivity].
  assert (E : renderNextPage q = q).
  { unfold renderNextPage. rewrite He. now destruct (grid q). }
  rewrite E. now destruct (ge _ _).
Qed.

Lemma scrolls_are_pages (events : list Scroll) (q : Page) :
  loading (state q) = false ->
  fold_left scrollStep events q
  = nextPages (List.length (filter turnsPage events)) q.
Proof.
  revert q. induction events as [|e events IH]; intros q Hl; [reflexivity|].
  cbn [fold_left filter]. rewrite (scrollStep_turnsPage q e Hl).
  destruct (turnsPage e).
  - rewrite IH.
    + cbn [List.length]. unfold nextPages. symmetry. apply Nat.iter_succ_r.
    + destruct (renderNextPage_frame q) as (_ & _ & _ & L & _).
      rewrite L. exact Hl.
  - apply IH. exact Hl.
Qed.

Lemma pagedTo_more (p : Page) (g : jsstring) (k n : nat) (q : Page) :
  0 < pageSize (state p) ->
  pagedTo p g k q -> pagedTo p g (n + k) (nextPages n q).
Proof.
  intros Hs Hq. induction n as [|n IH]; [exact Hq|].
  unfold nextPages.
  change (Nat.iter (S n) renderNextPage q)
    with (renderNextPage (nextPages n q)).
  change (S n + k) with (S (n + k)). apply pagedTo_step; assumption.
Qed.

(** What [fetchLiveNews] leaves when the answer carries items. *)
Lemma fetchLiveNews_first_page (initial : bool) (status : N)
    (x : NewsItem) (items : list NewsItem) (p : Page) (g : jsstring) :
  grid p = Some g ->
  loading (state p) = false ->
  ok status = true ->
  filteredCategory (state p) = lit "all" ->
  0 < pageSize (state p) ->
  let sorted := sort byDateDescending (x :: items) in
  let st1 := setReachedEnd false
               (setPageIndex 0
                  (setAllItems sorted (setLoading true (state p)))) in
  let p0 := mkPage st1
              (Some (if initial then createSkeletonCards (pageSize (state p))
                     else g))
              (renderFeatured (hd_error sorted) (featured p)) in
  fetchLiveNews initial
    (FetchResolves status (JsonResolves (DataItems (x :: items)))) p
  = setState (setLoading false (state (renderNextPage p0)))
             (renderNextPage p0).
Proof.
  intros Hg Hl Hok Hall Hs sorted st1 p0.
  unfold fetchLiveNews, fetchLiveNews_begin. rewrite Hg, Hl.
  unfold fetchLiveNews_end, tryBlock. rewrite Hok. cbn [negb].
  fold sorted. unfold p0, st1. destruct p as [st gr ft].
  cbn [grid] in Hg. subst gr. destruct initial; reflexivity.
Qed.


End FeedFacts.

Section FeedSamples.
Import JSString JSNumber Fetch News Vocabulary Feed Samples.
#[local] Existing Instance sampleEngine.

(** Two pages of the twelve sample items. *)
Lemma paging_renders_every_item_once_witness :
  grid inFlightPage = Some (createSkeletonCards 9)
  /\ page (state inFlightPage) = 0
  /\ reachedEnd (state inFlightPage) = false
  /\ 0 < pageSize (state inFlightPage)
  /\ reachedEnd (state (nextPages 2 inFlightPage)) = false
  /\ page (state (nextPages 2 inFlightPage)) = 2.
Proof.
  assert (Hs : 0 < pageSize (state inFlightPage)) by (vm_compute; lia).
  split; [reflexivity|]. split; [reflexivity|]. split; [reflexivity|].
  split; [exact Hs|].
  destruct (paging_renders_every_item_once inFlightPage
              (createSkeletonCards 9) 1 eq_refl eq_refl eq_refl Hs)
    as [W _].
  assert (Hn : 1 * pageSize (state inFlightPage)
               < List.length (filteredItems (state inFlightPage)))
    by (vm_compute; lia).
  destruct (W Hn) as [E [P _]]. split; assumption.
Defined.

(** A first load of two items on the fresh page. *)
Lemma load_features_newest_item_witness :
  grid freshPage = Some []
  /\ loading (state freshPage) = false
  /\ ok 200 = true
  /\ filteredCategory (state freshPage) = lit "all"
  /\ 0 < pageSize (state freshPage)
  /\ page (state (fetchLiveNews true
                    (FetchResolves 200
                       (JsonResolves (DataItems [dated; undated])))
                    freshPage))
     = 1.
Proof.
  assert (Hs : 0 < pageSize (state freshPage)) by (vm_compute; lia).
  split; [reflexivity|]. split; [reflexivity|]. split; [reflexivity|].
  split; [reflexivity|]. split; [exact Hs|].
  destruct (load_features_newest_item true 200 dated [undated] freshPage []
              eq_refl eq_refl eq_refl eq_refl Hs)
    as [newest [rest [_ [_ [_ [_ [P _]]]]]]].
  exact P.
Defined.

(** A first load that gets no response, on the fresh page. *)
Lemma failed_load_keeps_cursor_witness :
  grid freshPage = Some []
  /\ loading (state freshPage) = false
  /\ loadFails FetchRejects
  /\ state (fetchLiveNews true FetchRejects freshPage) = state freshPage
  /\ grid (fetchLiveNews true FetchRejects freshPage) = Some errorStateHTML.
Proof.
  split; [reflexivity|]. split; [reflexivity|]. split; [exact I|].
  destruct (failed_load_keeps_cursor true FetchRejects freshPage []
              eq_refl eq_refl I) as [E [_ [G _]]].
  split; assumption.
Defined.

(** A click on the category technology over the twelve sample items. *)
Lemma category_click_shows_first_page_witness :
  grid inFlightPage = Some (createSkeletonCards 9)
  /\ 0 < pageSize (state inFlightPage)
  /\ filteredCategory
       (state (snd (onCategoryClick Cursor (lit "technology") inFlightPage)))
     = lit "technology".
Proof.
  assert (Hs : 0 < pageSize (state inFlightPage)) by (vm_compute; lia).
  split; [reflexivity|]. split; [exact Hs|].
  destruct (category_click_shows_first_page (lit "technology") inFlightPage
              (createSkeletonCards 9) eq_refl Hs) as [F _].
  exact F.
Defined.


End FeedSamples.

(* ===================================================================== *)
(** * Escaping is faithful *)
(* ===================================================================== *)

Section EscapingFacts.
Import JSString News Vocabulary Feed.

Lemma entityOf_plain (c : N) : special c = false -> entityOf c = [c].
Proof.
  unfold special, entityOf. intro E.
  repeat (apply orb_false_iff in E; destruct E as [E ?]).
  now rewrite E, H, H0, H1, H2.
Qed.

Lemma entityOf_special (c : N) :
  special c = true ->
  exists rest, entityOf c = 38%N :: rest /\ rest <> []
               /\ (c = 38 \/ c = 60 \/ c = 62 \/ c = 34 \/ c = 39)%N.
Proof.
  unfold special, entityOf. intro E.
  destruct (N.eqb_spec c 38); [eexists; repeat split; [discriminate|tauto]|].
  destruct (N.eqb_spec c 60); [eexists; repeat split; [discriminate|tauto]|].
  destruct (N.eqb_spec c 62); [eexists; repeat split; [discriminate|tauto]|].
  destruct (N.eqb_spec c 34); [eexists; repeat split; [discriminate|tauto]|].
  destruct (N.eqb_spec c 39); [eexists; repeat split; [discriminate|tauto]|].
  discriminate E.
Qed.

Lemma special_38 : special 38 = true.
Proof. reflexivity. Qed.

Lemma escapeEntities_cons (c : N) (s : jsstring) :
  escapeEntities (c :: s) = entityOf c ++ escapeEntities s.
Proof. reflexivity. Qed.

Lemma entity_heads (c d : N) (s t : jsstring) :
  entityOf c ++ s = entityOf d ++ t -> c = d /\ s = t.
Proof.
  destruct (special c) eqn:Ec, (special d) eqn:Ed.
  - destruct (entityOf_special c Ec) as (rc & _ & _ & Hc).
    destruct (entityOf_special d Ed) as (rd & _ & _ & Hd).
    destruct Hc as [->|[->|[->|[->| ->]]]], Hd as [->|[->|[->|[->| ->]]]];
      cbn; intro E; try discriminate E;
      injection E as E; (split; [reflexivity|exact E]).
  - destruct (entityOf_special c Ec) as (rc & Hrc & _ & _).
    rewrite Hrc, (entityOf_plain d Ed). cbn. intro E. injection E as E _.
    subst d. discriminate Ed.
  - destruct (entityOf_special d Ed) as (rd & Hrd & _ & _).
    rewrite Hrd, (entityOf_plain c Ec). cbn. intro E. injection E as E _.
    subst c. discriminate Ec.
  - rewrite (entityOf_plain c Ec), (entityOf_plain d Ed). cbn.
    intro E. injection E as -> ->. split; reflexivity.
Qed.

Lemma entityOf_nonempty (c : N) : entityOf c <> [].
Proof.
  destruct (special c) eqn:E.
  - destruct (entityOf_special c E) as (r & -> & _). discriminate.
  - rewrite (entityOf_plain c E). discriminate.
Qed.

Lemma escapeEntities_injective (s t : jsstring) :
  escapeEntities s = escapeEntities t -> s = t.
Proof.
  revert t. induction s as [|c s IH]; intros [|d t] E.
  - reflexivity.
  - rewrite escapeEntities_cons in E. cbn in E.
    symmetry in E. apply app_eq_nil in E. destruct E as [E _].
    destruct (entityOf_nonempty d E).
  - rewrite escapeEntities_cons in E. cbn in E.
    apply app_eq_nil in E. destruct E as [E _].
    destruct (entityOf_nonempty c E).
  - rewrite !escapeEntities_cons in E. apply entity_heads in E.
    destruct E as [-> E]. f_equal. apply IH. exact E.
Qed.

(** X17. [escapeHTML] loses nothing: two texts with the same escaped form
    are the same text. *)
Theorem escapeHTML_injective (s t : jsstring) :
  escapeHTML s = escapeHTML t -> s = t.
Proof.
  rewrite !escapeHTML_entities. apply escapeEntities_injective.
Qed.

Lemma entityOf_length (c : N) :
  1 <= List.length (entityOf c)
  /\ (List.length (entityOf c) = 1 <-> special c = false).
Proof.
  destruct (special c) eqn:E.
  - destruct (entityOf_special c E) as (r & -> & Hr & _).
    destruct r; [contradiction Hr; reflexivity|].
    cbn. split; [lia|]. split; [lia|discriminate].
  - rewrite (entityOf_plain c E). cbn. split; [lia|]. tauto.
Qed.

(** X18. [escapeHTML] never shortens a text, leaves it unchanged exactly
    when it holds none of the five characters [&], [<], [>], the double
    and the single quote, and keeps its length only when it leaves it
    unchanged. *)
Theorem escapeHTML_changes_only_special (s : jsstring) :
  List.length s <= List.length (escapeHTML s)
  /\ (escapeHTML s = s <-> forallb (fun c => negb (special c)) s = true)
  /\ (List.length (escapeHTML s) = List.length s <-> escapeHTML s = s).
Proof.
  rewrite escapeHTML_entities.
  assert (Hlen : forall s, List.length s <= List.length (escapeEntities s)).
  { induction s0 as [|c s0 IH]; [cbn; lia|].
    rewrite escapeEntities_cons, length_app. cbn [List.length].
    pose proof (entityOf_length c). lia. }
  assert (Hfix : forall s, List.length (escapeEntities s) = List.length s ->
                           forallb (fun c => negb (special c)) s = true).
  { induction s0 as [|c s0 IH]; [reflexivity|].
    rewrite escapeEntities_cons, length_app. cbn [List.length forallb].
    intro E. pose proof (entityOf_length c) as [H1 H2]. pose proof (Hlen s0).
    rewrite IH by lia. assert (Hc : special c = false) by (apply H2; lia).
    rewrite Hc. reflexivity. }
  assert (Hid : forall s, forallb (fun c => negb (special c)) s = true ->
                          escapeEntities s = s).
  { induction s0 as [|c s0 IH]; [reflexivity|].
    cbn [forallb]. rewrite andb_true_iff, negb_true_iff. intros [Hc Hs].
    rewrite escapeEntities_cons, (entityOf_plain c Hc), IH by exact Hs.
    reflexivity. }
  split; [apply Hlen|]. split; split.
  - intro E. apply Hfix. now rewrite E.
  - apply Hid.
  - intro E. apply Hid, Hfix, E.
  - intros ->. reflexivity.
Qed.

(** Two spellings of one text. *)
Lemma escapeHTML_injective_witness :
  escapeHTML (lit "a<b") = escapeHTML (lit "a" ++ lit "<b")
  /\ lit "a<b" = lit "a" ++ lit "<b".
Proof.
  assert (E : escapeHTML (lit "a<b") = escapeHTML (lit "a" ++ lit "<b"))
    by reflexivity.
  split; [exact E|]. exact (escapeHTML_injective _ _ E).
Defined.

End EscapingFacts.

(* ===================================================================== *)
(** * Properties of the newsletter form *)
(* ===================================================================== *)

Section PatternFacts.
Import JSString Newsletter NewsletterVocabulary.

Lemma nullable_matches (r : Pattern) : nullable r = true <-> matches r [].
Proof.
  induction r as [| |p|a IHa b IHb|a IHa b IHb|a IHa]; cbn [nullable].
  - split; [discriminate|]. intro M. inversion M.
  - split; [constructor|reflexivity].
  - split; [discriminate|]. intro M. inversion M.
  - rewrite andb_true_iff, IHa, IHb. split.
    + intros [Ma Mb]. exact (m_cat a b [] [] Ma Mb).
    + intro M. inversion M as [| |a' b' s t Ma Mb E1 E2| | | |]; subst.
      apply app_eq_nil in E2. destruct E2; subst. split; assumption.
  - rewrite orb_true_iff, IHa, IHb. split.
    + intros [M|M]; [apply m_alt_l|apply m_alt_r]; exact M.
    + intro M. inversion M; subst; [left|right]; assumption.
  - split; [constructor|reflexivity].
Qed.

Lemma star_cons (a : Pattern) (c : N) (s : jsstring) :
  matches (Star a) (c :: s) ->
  exists s1 s2, s = s1 ++ s2 /\ matches a (c :: s1) /\ matches (Star a) s2.
Proof.
  intro M. remember (Star a) as r eqn:Er. remember (c :: s) as u eqn:Eu.
  revert s Eu.
  induction M as [|p x Hp|a1 b1 s1 t1 M1 _ M2 _|a1 b1 s1 M1 _|a1 b1 s1 M1 _
                 |a1|a1 s1 t1 M1 _ M2 IH2]; intros s0 Eu; try discriminate Er.
  - discriminate Eu.
  - injection Er as ->. destruct s1 as [|y s1'].
    + cbn in Eu. exact (IH2 eq_refl s0 Eu).
    + cbn in Eu. injection Eu as -> <-.
      exists s1', t1. split; [reflexivity|]. split; assumption.
Qed.

Lemma derive_matches (r : Pattern) (c : N) (s : jsstring) :
  matches (derive c r) s <-> matches r (c :: s).
Proof.
  revert s.
  induction r as [| |p|a IHa b IHb|a IHa b IHb|a IHa]; intro s;
    cbn [derive].
  - split; intro M; inversion M.
  - split; intro M; inversion M.
  - destruct (p c) eqn:Hp; split; intro M.
    + inversion M; subst. constructor. exact Hp.
    + inversion M; subst. constructor.
    + inversion M.
    + inversion M; subst. congruence.
  - split; intro M.
    + inversion M as [| | |a' b' s' M'|a' b' s' M'| |]; subst.
      * inversion M' as [| |a'' b'' s1 s2 M1 M2| | | |]; subst.
        apply IHa in M1. exact (m_cat a b (c :: s1) s2 M1 M2).
      * destruct (nullable a) eqn:Hn; [|inversion M'].
        apply IHb in M'. apply nullable_matches in Hn.
        exact (m_cat a b [] (c :: s) Hn M').
    + inversion M as [| |a' b' s1 s2 M1 M2 E1 E2| | | |]; subst.
      destruct s1 as [|y s1'].
      * cbn in E2. subst s2. apply m_alt_r.
        apply nullable_matches in M1. rewrite M1. apply IHb. exact M2.
      * cbn in E2. injection E2 as -> <-. apply m_alt_l.
        apply m_cat; [apply IHa; exact M1|exact M2].
  - split; intro M.
    + inversion M; subst; [apply m_alt_l; apply IHa|apply m_alt_r; apply IHb];
        assumption.
    + inversion M; subst; [apply m_alt_l; apply IHa|apply m_alt_r; apply IHb];
        assumption.
  - split; intro M.
    + inversion M as [| |a' b' s1 s2 M1 M2| | | |]; subst.
      apply IHa in M1. exact (m_star_more a (c :: s1) s2 M1 M2).
    + destruct (star_cons a c s M) as [s1 [s2 [-> [M1 M2]]]].
      apply m_cat; [apply IHa; exact M1|exact M2].
Qed.

(** The matcher decides the language of the pattern. *)
Lemma test_matches (r : Pattern) (s : jsstring) :
  test r s = true <-> matches r s.
Proof.
  unfold test. revert r. induction s as [|c s IH]; intro r; cbn [fold_left].
  - apply nullable_matches.
  - rewrite IH. apply derive_matches.
Qed.

Lemma matches_star_class (p : N -> bool) (s : jsstring) :
  matches (Star (Class p)) s <-> forallb p s = true.
Proof.
  split.
  - intro M. remember (Star (Class p)) as r eqn:Er.
    induction M as [|q x Hq|a1 b1 s1 t1 M1 _ M2 _|a1 b1 s1 M1 _|a1 b1 s1 M1 _
                   |a1|a1 s1 t1 M1 _ M2 IH2]; try discriminate Er.
    + reflexivity.
    + injection Er as ->. inversion M1; subst. cbn.
      rewrite (IH2 eq_refl). rewrite H0. reflexivity.
  - induction s as [|c s IH]; cbn [forallb]; intro F.
    + constructor.
    + apply andb_true_iff in F. destruct F as [Fc Fs].
      exact (m_star_more (Class p) [c] s (m_class p c Fc) (IH Fs)).
Qed.

Lemma matches_plus_class (p : N -> bool) (s : jsstring) :
  matches (Plus (Class p)) s <-> s <> [] /\ forallb p s = true.
Proof.
  unfold Plus. split.
  - intro M. inversion M as [| |a' b' s1 s2 M1 M2| | | |]; subst.
    inversion M1; subst. apply matches_star_class in M2.
    split; [discriminate|]. cbn. rewrite H0, M2. reflexivity.
  - intros [Hne F]. destruct s as [|c s]; [congruence|].
    cbn in F. apply andb_true_iff in F. destruct F as [Fc Fs].
    apply (m_cat (Class p) (Star (Class p)) [c] s).
    + constructor. exact Fc.
    + apply matches_star_class. exact Fs.
Qed.

Lemma matches_one (c : N) (s : jsstring) :
  matches (Class (N.eqb c)) s <-> s = [c].
Proof.
  split.
  - intro M. inversion M; subst. apply N.eqb_eq in H0. subst. reflexivity.
  - intros ->. constructor. apply N.eqb_refl.
Qed.

Lemma matches_cat (a b : Pattern) (s : jsstring) :
  matches (Cat a b) s <->
  exists s1 s2, s = s1 ++ s2 /\ matches a s1 /\ matches b s2.
Proof.
  split.
  - intro M. inversion M as [| |a' b' s1 s2 M1 M2| | | |]; subst.
    exists s1, s2. split; [reflexivity|]. split; assumption.
  - intros [s1 [s2 [-> [M1 M2]]]]. constructor; assumption.
Qed.

End PatternFacts.

Section NewsletterFacts.
Import JSString Newsletter NewsletterVocabulary.

Lemma emailRegex_language (email : jsstring) :
  matches emailRegex email <->
  exists a b c : jsstring,
    email = a ++ lit "@" ++ b ++ lit "." ++ c
    /\ a <> [] /\ b <> [] /\ c <> []
    /\ forallb notSpaceNorAt (a ++ b ++ c) = true.
Proof.
  unfold emailRegex. split.
  - intro M.
    apply matches_cat in M. destruct M as [a [r1 [-> [Ma M]]]].
    apply matches_cat in M. destruct M as [x [r2 [-> [Mx M]]]].
    apply matches_cat in M. destruct M as [b [r3 [-> [Mb M]]]].
    apply matches_cat in M. destruct M as [y [c [-> [My Mc]]]].
    apply matches_one in Mx. apply matches_one in My. subst x y.
    apply matches_plus_class in Ma. apply matches_plus_class in Mb.
    apply matches_plus_class in Mc.
    destruct Ma as [Na Fa]. destruct Mb as [Nb Fb]. destruct Mc as [Nc Fc].
    exists a, b, c. split; [reflexivity|].
    repeat (split; [assumption|]).
    rewrite !forallb_app, Fa, Fb, Fc. reflexivity.
  - intros [a [b [c [-> [Na [Nb [Nc F]]]]]]].
    rewrite !forallb_app in F. apply andb_true_iff in F. destruct F as [Fa F].
    apply andb_true_iff in F. destruct F as [Fb Fc].
    apply matches_cat. exists a, (lit "@" ++ b ++ lit "." ++ c).
    split; [reflexivity|]. split; [apply matches_plus_class; split; assumption|].
    apply matches_cat. exists [64%N], (b ++ lit "." ++ c).
    split; [reflexivity|]. split; [apply matches_one; reflexivity|].
    apply matches_cat. exists b, (lit "." ++ c).
    split; [reflexivity|]. split; [apply matches_plus_class; split; assumption|].
    apply matches_cat. exists [46%N], c.
    split; [reflexivity|]. split; [apply matches_one; reflexivity|].
    apply matches_plus_class; split; assumption.
Qed.

Lemma notSpaceNorAt_not_space (c : N) :
  notSpaceNorAt c = true -> isWhiteSpace c = false.
Proof.
  unfold notSpaceNorAt. intro E. apply negb_true_iff in E.
  apply orb_false_iff in E. apply E.
Qed.

Lemma valid_has_no_space (e : jsstring) :
  isValidEmail e = true ->
  e <> [] /\ forallb (fun c => negb (isWhiteSpace c)) e = true.
Proof.
  intro V. apply test_matches, emailRegex_language in V.
  destruct V as [a [b [c [-> [Na [_ [_ F]]]]]]]. split.
  - destruct a; [congruence|discriminate].
  - rewrite !forallb_app in F. apply andb_true_iff in F. destruct F as [Fa F].
    apply andb_true_iff in F. destruct F as [Fb Fc].
    assert (W : forall l, forallb notSpaceNorAt l = true ->
                forallb (fun c => negb (isWhiteSpace c)) l = true).
    { intros l Fl. apply forallb_forall. intros x Hx.
      rewrite forallb_forall in Fl.
      rewrite (notSpaceNorAt_not_space x (Fl x Hx)). reflexivity. }
    rewrite !forallb_app, (W a Fa), (W b Fb), (W c Fc). reflexivity.
Qed.

Lemma trimStart_ws (w s : jsstring) :
  forallb isWhiteSpace w = true -> trimStart (w ++ s) = trimStart s.
Proof.
  induction w as [|c w IH]; cbn [forallb app trimStart]; intro F.
  - reflexivity.
  - apply andb_true_iff in F. destruct F as [Fc Fw]. rewrite Fc. exact (IH Fw).
Qed.

Lemma trimStart_all_ws (w : jsstring) :
  forallb isWhiteSpace w = true -> trimStart w = [].
Proof.
  intro F. rewrite <- (app_nil_r w). rewrite (trimStart_ws w [] F). reflexivity.
Qed.

Lemma trimStart_split (s : jsstring) :
  exists w, s = w ++ trimStart s /\ forallb isWhiteSpace w = true.
Proof.
  induction s as [|c s [w [E F]]].
  - exists []. split; reflexivity.
  - cbn [trimStart]. destruct (isWhiteSpace c) eqn:Hc.
    + exists (c :: w). cbn. rewrite Hc, F. split; [f_equal; exact E|reflexivity].
    + exists []. split; reflexivity.
Qed.

Lemma trimStart_no_space (s : jsstring) :
  forallb (fun c => negb (isWhiteSpace c)) s = true ->
  forall t, s <> [] -> trimStart (s ++ t) = s ++ t.
Proof.
  intros F t Hne. destruct s as [|c s]; [congruence|].
  cbn in F. apply andb_true_iff in F. destruct F as [Fc _].
  apply negb_true_iff in Fc. cbn [app trimStart]. rewrite Fc. reflexivity.
Qed.

Lemma forallb_rev {A : Type} (p : A -> bool) (l : list A) :
  forallb p (rev l) = forallb p l.
Proof.
  induction l as [|x l IH]; [reflexivity|].
  cbn [rev forallb]. rewrite forallb_app, IH. cbn. rewrite andb_true_r.
  apply andb_comm.
Qed.

Lemma trim_between (w1 e w2 : jsstring) :
  forallb isWhiteSpace w1 = true ->
  forallb isWhiteSpace w2 = true ->
  forallb (fun c => negb (isWhiteSpace c)) e = true ->
  trim (w1 ++ e ++ w2) = e.
Proof.
  intros F1 F2 Fe. unfold trim. rewrite (trimStart_ws w1 _ F1).
  destruct e as [|c e].
  - cbn [app]. rewrite (trimStart_all_ws w2 F2). reflexivity.
  - rewrite (trimStart_no_space (c :: e) Fe w2) by discriminate.
    unfold trimEnd. rewrite rev_app_distr.
    rewrite trimStart_ws by (rewrite forallb_rev; exact F2).
    rewrite <- (app_nil_r (rev (c :: e))).
    rewrite trimStart_no_space.
    + rewrite app_nil_r. apply rev_involutive.
    + rewrite forallb_rev. exact Fe.
    + intro E. apply (f_equal (@rev N)) in E. rewrite rev_involutive in E.
      discriminate E.
Qed.

Lemma trim_split (s : jsstring) :
  exists w1 w2,
    s = w1 ++ trim s ++ w2
    /\ forallb isWhiteSpace w1 = true /\ forallb isWhiteSpace w2 = true.
Proof.
  destruct (trimStart_split s) as [w1 [E1 F1]].
  destruct (trimStart_split (rev (trimStart s))) as [w [E2 F2]].
  exists w1, (rev w). split; [|split; [exact F1|]].
  - unfold trim, trimEnd. rewrite <- rev_app_distr, <- E2, rev_involutive.
    exact E1.
  - rewrite forallb_rev. exact F2.
Qed.

(** The inputs the form accepts. *)
Lemma holdsAddress_trim (value : jsstring) :
  holdsAddress value <-> isValidEmail (trim value) = true.
Proof.
  split.
  - intros [w1 [e [w2 [-> [F1 [F2 V]]]]]].
    destruct (valid_has_no_space e V) as [_ Fe].
    rewrite (trim_between w1 e w2 F1 F2 Fe). exact V.
  - intro V. destruct (trim_split value) as [w1 [w2 [E [F1 F2]]]].
    exists w1, (trim value), w2. repeat split; assumption.
Qed.

Lemma showNotification_fields (message type : jsstring) (d : Document) :
  showNotification message type d
  = mkDocument (input_value d) (btn_innerHTML d) (btn_background d)
      [mkNotification (created d) (lit "notification notification-" ++ type)
                      (notificationHTML message type) false]
      (Nat.max 1 (notification_styles d)) (S (created d))
      (timers d ++ [mkTimer 100 (AddShow (created d));
                    mkTimer 5000 (AutoHide (created d))]).
Proof.
  unfold showNotification, addNotificationStyles, setTimeout, setNotifications.
  cbn [created notification_styles notifications timers input_value
       btn_innerHTML btn_background].
  destruct (notification_styles d) as [|n];
    cbn [created notification_styles notifications timers input_value
         btn_innerHTML btn_background app Nat.max];
    rewrite <- app_assoc; reflexivity.
Qed.

(** X20. The form accepts exactly an address between white space. It then
    empties the input, marks the button, announces the subscription and
    sets the timer that restores the button; any other input stays in the
    field, the button stays as it is, and an error is announced. *)
Theorem signup_accepts_addresses (d : Document) :
  let d' := handleNewsletterSignup d in
  (holdsAddress (input_value d) ->
     input_value d' = []
     /\ btn_innerHTML d' = subscribedHTML
     /\ map className (notifications d')
        = [lit "notification notification-success"]
     /\ map callback (timers d')
        = map callback (timers d)
          ++ [AddShow (created d); AutoHide (created d); RestoreButton])
  /\ (~ holdsAddress (input_value d) ->
     input_value d' = input_value d
     /\ btn_innerHTML d' = btn_innerHTML d
     /\ btn_background d' = btn_background d
     /\ map className (notifications d')
        = [lit "notification notification-error"]
     /\ map callback (timers d')
        = map callback (timers d)
          ++ [AddShow (created d); AutoHide (created d)]).
Proof.
  cbv zeta. rewrite holdsAddress_trim. unfold handleNewsletterSignup.
  destruct (trim (input_value d)) as [|c e] eqn:Et.
  - split; [intro V; discriminate V|]. intros _.
    rewrite showNotification_fields.
    cbn [input_value btn_innerHTML btn_background notifications timers map].
    rewrite map_app. repeat split; reflexivity.
  - destruct (isValidEmail (c :: e)) eqn:V; cbn [negb].
    + split; [|intro N; congruence]. intros _.
      rewrite showNotification_fields. unfold setTimeout.
      cbn [input_value btn_innerHTML btn_background notifications timers map
           notification_styles created].
      rewrite !map_app, <- app_assoc. repeat split; reflexivity.
    + split; [intro N; discriminate N|]. intros _.
      rewrite showNotification_fields.
      cbn [input_value btn_innerHTML btn_background notifications timers map].
      rewrite map_app. repeat split; reflexivity.
Qed.

(** X19. [isValidEmail] accepts exactly the strings made of three non-empty
    runs of code units that are neither white space nor [@], the first two
    joined by one [@] and the last two by one full stop. *)
Theorem isValidEmail_shape (email : jsstring) :
  isValidEmail email = true <->
  exists a b c : jsstring,
    email = a ++ lit "@" ++ b ++ lit "." ++ c
    /\ a <> [] /\ b <> [] /\ c <> []
    /\ forallb notSpaceNorAt (a ++ b ++ c) = true.
Proof.
  unfold isValidEmail. rewrite test_matches. apply emailRegex_language.
Qed.

End NewsletterFacts.

(* ===================================================================== *)
(** * Properties of the notifications *)
(* ===================================================================== *)

Section NotificationFacts.
Import JSString Newsletter NewsletterVocabulary MoreSamples.

Lemma nth_error_middle {A : Type} (l : list A) (t : A) (r : list A) :
  nth_error (l ++ t :: r) (List.length l) = Some t.
Proof. induction l as [|x l IH]; [reflexivity|exact IH]. Qed.

Lemma without_middle {A : Type} (l : list A) (t : A) (r : list A) :
  firstn (List.length l) (l ++ t :: r)
    ++ skipn (S (List.length l)) (l ++ t :: r) = l ++ r.
Proof.
  induction l as [|x l IH]; [reflexivity|].
  cbn [List.length app firstn skipn]. f_equal. exact IH.
Qed.

Lemma fire_middle (d : Document) (l : list Timer) (t : Timer)
    (r : list Timer) :
  timers d = l ++ t :: r ->
  fire (List.length l) d
  = run (callback t)
      (mkDocument (input_value d) (btn_innerHTML d) (btn_background d)
                  (notifications d) (notification_styles d) (created d)
                  (l ++ r)).
Proof.
  intro E. unfold fire. rewrite E, nth_error_middle, without_middle.
  reflexivity.
Qed.

(** X21. A notification replaces the ones on the page and comes up hidden;
    its first timer shows it, its second hides it again and sets a third,
    and the third removes it; the delays are 100, 5000 and 300 ms. What is
    left is the page as it was, without notifications, with the style
    sheet of the notifications and one more element created. *)
Theorem notification_lifecycle (message type : jsstring) (d : Document) :
  let k := List.length (timers d) in
  let d1 := showNotification message type d in
  let d2 := fire k d1 in
  let d3 := fire k d2 in
  let d4 := fire k d3 in
  let shown b :=
    [mkNotification (created d) (lit "notification notification-" ++ type)
                    (notificationHTML message type) b] in
  notifications d1 = shown false
  /\ map delay (skipn k (timers d1)) = [100%N; 5000%N]
  /\ notifications d2 = shown true
  /\ map delay (skipn k (timers d2)) = [5000%N]
  /\ notifications d3 = shown false
  /\ map delay (skipn k (timers d3)) = [300%N]
  /\ d4 = mkDocument (input_value d) (btn_innerHTML d) (btn_background d)
            [] (Nat.max 1 (notification_styles d)) (S (created d)) (timers d).
Proof.
  cbv zeta. rewrite showNotification_fields.
  assert (K : forall (l : list Timer) r,
             skipn (List.length l) (l ++ r) = r).
  { intros l r. induction l as [|x l IH]; [reflexivity|exact IH]. }
  split; [reflexivity|]. split; [cbn [timers]; rewrite K; reflexivity|].
  erewrite fire_middle by reflexivity.
  unfold run, setNotifications, setShow.
  cbn [callback notifications map element input_value btn_innerHTML
       btn_background notification_styles created timers className
       innerHTML].
  rewrite Nat.eqb_refl.
  split; [reflexivity|]. split; [rewrite K; reflexivity|].
  erewrite fire_middle by reflexivity.
  unfold run, setNotifications, setTimeout, setShow.
  cbn [callback notifications map element input_value btn_innerHTML
       btn_background notification_styles created timers className
       innerHTML].
  rewrite Nat.eqb_refl, app_nil_r.
  split; [reflexivity|]. split; [rewrite K; reflexivity|].
  erewrite fire_middle
    by (cbn [timers]; rewrite <- (app_nil_r (timers d)) at 2;
        rewrite <- app_assoc; reflexivity).
  unfold run, setNotifications.
  cbn [callback notifications filter element input_value btn_innerHTML
       btn_background notification_styles created timers].
  rewrite Nat.eqb_refl, app_nil_r. reflexivity.
Qed.

Lemma knownElements_showNotification (message type : jsstring)
    (d : Document) :
  knownElements d -> knownElements (showNotification message type d).
Proof.
  intros [_ Kt]. rewrite showNotification_fields. split;
    cbn [notifications timers created].
  - constructor; [cbn; lia|constructor].
  - apply Forall_app. split.
    + eapply Forall_impl; [|exact Kt]. intros t Ht. cbn [created] in *.
      destruct (elementOf (callback t)); [lia|exact I].
    + repeat constructor; cbn; lia.
Qed.

Lemma knownElements_handle (d : Document) :
  knownElements d -> knownElements (handleNewsletterSignup d).
Proof.
  intro K. unfold handleNewsletterSignup.
  destruct (trim (input_value d)) as [|c e].
  - apply knownElements_showNotification. exact K.
  - destruct (negb (isValidEmail (c :: e))).
    + apply knownElements_showNotification. exact K.
    + destruct (knownElements_showNotification
                  (lit "Thank you for subscribing! You'll receive updates soon.")
                  (lit "success") d K) as [Kn Kt].
      split; cbn [setTimeout notifications timers created].
      * exact Kn.
      * apply Forall_app. split; [exact Kt|]. repeat constructor.
Qed.

Lemma Forall_setShow (P : nat -> Prop) (el : nat) (b : bool)
    (l : list Notification) :
  Forall (fun n => P (element n)) l ->
  Forall (fun n => P (element n)) (map (setShow el b) l).
Proof.
  intro F. induction F as [|n l Hn _ IH]; [constructor|].
  cbn [map]. constructor; [|exact IH].
  unfold setShow. destruct (element n =? el)%nat; exact Hn.
Qed.

Lemma in_without {A : Type} (k : nat) (l : list A) (x : A) :
  In x (firstn k l ++ skipn (S k) l) -> In x l.
Proof.
  revert l. induction k as [|k IH]; intros [|y l]; cbn; auto.
  intros [E|I]; [left; exact E|right; exact (IH l I)].
Qed.

Lemma knownElements_fire (k : nat) (d : Document) :
  knownElements d -> knownElements (fire k d).
Proof.
  intros [Kn Kt]. unfold fire.
  destruct (nth_error (timers d) k) as [t|] eqn:Et; [|split; assumption].
  assert (Kt' : Forall (fun t => match elementOf (callback t) with
                                 | Some el => el < created d
                                 | None => True
                                 end)
                  (firstn k (timers d) ++ skipn (S k) (timers d))).
  { apply Forall_forall. intros x Hx. rewrite Forall_forall in Kt.
    apply Kt. exact (in_without k (timers d) x Hx). }
  assert (Ke : match elementOf (callback t) with
               | Some el => el < created d
               | None => True
               end).
  { rewrite Forall_forall in Kt. apply Kt. eapply nth_error_In; eauto. }
  destruct (callback t) as [el|el|el|]; split;
    cbn [run setNotifications setTimeout notifications timers created];
    try exact Kt'.
  - apply (Forall_setShow (fun e => e < created d)). exact Kn.
  - apply (Forall_setShow (fun e => e < created d)). exact Kn.
  - apply Forall_app. split; [exact Kt'|]. repeat constructor. exact Ke.
  - apply Forall_forall. intros x Hx. apply filter_In in Hx.
    rewrite Forall_forall in Kn. apply Kn. apply Hx.
  - exact Kn.
Qed.

Lemma knownElements_steps (es : list Event) (d : Document) :
  knownElements d -> knownElements (steps es d).
Proof.
  unfold steps. revert d. induction es as [|e es IH]; intros d K; [exact K|].
  cbn [fold_left]. apply IH. destruct e as [value| |k]; cbn [step].
  - exact K.
  - apply knownElements_handle. exact K.
  - apply knownElements_fire. exact K.
Qed.

Lemma handleNewsletterSignup_notifies (d : Document) :
  List.length (notifications (handleNewsletterSignup d)) = 1
  /\ notification_styles (handleNewsletterSignup d)
     = Nat.max 1 (notification_styles d).
Proof.
  unfold handleNewsletterSignup.
  destruct (trim (input_value d)) as [|c e];
    [|destruct (negb (isValidEmail (c :: e)))];
    rewrite showNotification_fields; split; reflexivity.
Qed.

Lemma step_bounds (d : Document) (e : Event) :
  List.length (notifications (step d e))
    <= Nat.max 1 (List.length (notifications d))
  /\ notification_styles d <= notification_styles (step d e)
  /\ notification_styles (step d e) <= Nat.max 1 (notification_styles d).
Proof.
  destruct e as [value| |k]; cbn [step].
  - cbn [notifications notification_styles]. lia.
  - destruct (handleNewsletterSignup_notifies d) as [-> ->]. lia.
  - unfold fire. destruct (nth_error (timers d) k) as [t|]; [|lia].
    destruct (callback t) as [el|el|el|];
      unfold run, setNotifications, setTimeout;
      cbn [notifications notification_styles];
      rewrite ?length_map; try lia.
    pose proof (filter_length_le
                  (fun n => negb (element n =? el)%nat) (notifications d)).
    lia.
Qed.

(** X22. Whatever is typed, submitted or timed out, the page never holds
    more notifications than it held at first, or one, and never more style
    sheets of the notifications than it held at first, or one; a style
    sheet is never taken away. *)
Theorem one_notification_at_a_time (es : list Event) (d : Document) :
  List.length (notifications (steps es d))
    <= Nat.max 1 (List.length (notifications d))
  /\ notification_styles d <= notification_styles (steps es d)
  /\ notification_styles (steps es d) <= Nat.max 1 (notification_styles d).
Proof.
  unfold steps. revert d. induction es as [|e es IH]; intro d;
    cbn [fold_left]; [lia|].
  specialize (IH (step d e)). pose proof (step_bounds d e). lia.
Qed.

(** X23. A timer that was pending when a notification came up never shows,
    hides or removes that notification: each callback holds on to the
    element it was set for. *)
Theorem earlier_timers_spare_the_notification (d : Document)
    (es : list Event) (message type : jsstring) (k : nat) :
  knownElements d ->
  k < List.length (timers (steps es d)) ->
  notifications (fire k (showNotification message type (steps es d)))
  = notifications (showNotification message type (steps es d)).
Proof.
  intros K0 Hk. pose proof (knownElements_steps es d K0) as [_ Kt].
  set (d1 := steps es d) in *. clearbody d1.
  rewrite showNotification_fields. unfold fire. cbn [timers].
  rewrite nth_error_app1 by exact Hk.
  destruct (nth_error (timers d1) k) as [t|] eqn:Et; [|reflexivity].
  assert (Ke : match elementOf (callback t) with
               | Some el => el < created d1
               | None => True
               end).
  { rewrite Forall_forall in Kt. apply Kt. eapply nth_error_In; eauto. }
  destruct (callback t) as [el|el|el|]; cbn [elementOf] in Ke;
    unfold run, setNotifications, setTimeout, setShow;
    cbn [notifications map filter element]; try reflexivity;
    (replace (created d1 =? el)%nat with false
       by (symmetry; apply Nat.eqb_neq; lia)); reflexivity.
Qed.


(** The timer of a first notification and a second notification. *)
Lemma earlier_timers_spare_the_notification_witness :
  knownElements signupPage
  /\ 0 < List.length (timers (steps [Submit] signupPage))
  /\ notifications
       (fire 0 (showNotification (lit "Saved") (lit "info")
                                 (steps [Submit] signupPage)))
     = notifications
         (showNotification (lit "Saved") (lit "info")
                           (steps [Submit] signupPage)).
Proof.
  assert (K : knownElements signupPage) by (split; constructor).
  assert (L : 0 < List.length (timers (steps [Submit] signupPage)))
    by (vm_compute; lia).
  split; [exact K|]. split; [exact L|].
  exact (earlier_timers_spare_the_notification signupPage [Submit]
           (lit "Saved") (lit "info") 0 K L).
Defined.

End NotificationFacts.

(* ===================================================================== *)
(** * Properties of the card filter *)
(* ===================================================================== *)

Section CardsFacts.
Import JSString JSNumber Control Cards CardsVocabulary.

Lemma nth_error_updateAt {A : Type} (f : A -> A) (l : list A) (i j : nat) :
  nth_error (updateAt i f l) j
  = if (j =? i)%nat then option_map f (nth_error l j) else nth_error l j.
Proof.
  revert i j. induction l as [|x l IH]; intros [|i] [|j]; cbn; try reflexivity.
  - destruct (j =? i)%nat; reflexivity.
  - apply IH.
Qed.

Lemma showOrHide_idem (category : jsstring) (card : Card) :
  showOrHide category (showOrHide category card) = showOrHide category card.
Proof.
  unfold showOrHide.
  destruct (wanted category card) eqn:W; unfold wanted in *;
    cbn [data_category display animation animationDelay]; rewrite W;
    reflexivity.
Qed.

Lemma nth_error_updates {A : Type} (f : A -> A) (places : list nat)
    (l : list A) (j : nat) :
  (forall x, f (f x) = f x) ->
  nth_error (fold_left (fun l i => updateAt i f l) places l) j
  = if existsb (Nat.eqb j) places then option_map f (nth_error l j)
    else nth_error l j.
Proof.
  intro Hf. revert l. induction places as [|i places IH]; intro l;
    cbn [fold_left existsb]; [reflexivity|].
  rewrite IH, nth_error_updateAt.
  destruct (j =? i)%nat; cbn [orb]; [|reflexivity].
  destruct (nth_error l j) as [x|]; cbn [option_map];
    [rewrite Hf|]; destruct (existsb (Nat.eqb j) places); reflexivity.
Qed.

Lemma visible_stagger (k : nat) (children : list Card) :
  map visible (stagger k children) = map visible children.
Proof.
  revert k. induction children as [|card rest IH]; intro k; [reflexivity|].
  cbn [stagger]. destruct (visible card) eqn:V; cbn [map]; rewrite IH.
  - unfold visible in *. cbn [display]. rewrite V. reflexivity.
  - rewrite V. reflexivity.
Qed.

Lemma nth_error_stagger (k j : nat) (children : list Card) :
  nth_error (stagger k children) j
  = option_map
      (fun card =>
         if visible card
         then mkCard (data_category card) (display card) (animation card)
                     (Some (delayOf (k + visibleBefore j children)))
         else card)
      (nth_error children j).
Proof.
  revert k j. induction children as [|card rest IH]; intros k [|j];
    try reflexivity.
  - cbn [stagger]. unfold visibleBefore. cbn [firstn filter List.length].
    rewrite Nat.add_0_r. destruct (visible card) eqn:V; cbn; rewrite V;
      reflexivity.
  - cbn [stagger]. unfold visibleBefore. cbn [firstn filter].
    destruct (visible card) eqn:V; cbn [nth_error List.length];
      rewrite IH; unfold visibleBefore; [|reflexivity].
    replace (S k + List.length (filter visible (firstn j rest)))
      with (k + S (List.length (filter visible (firstn j rest)))) by lia.
    reflexivity.
Qed.

Lemma visibleBefore_stagger (k j : nat) (children : list Card) :
  visibleBefore j (stagger k children) = visibleBefore j children.
Proof.
  unfold visibleBefore. revert k j.
  induction children as [|card rest IH]; intros k [|j]; try reflexivity.
  cbn [stagger].
  destruct (visible card) eqn:V; cbn [firstn filter];
    [replace (visible (mkCard (data_category card) (display card)
                              (animation card) (Some (delayOf k))))
       with true by (symmetry; exact V)
    |]; rewrite V; cbn [List.length]; rewrite IH; reflexivity.
Qed.

Lemma length_stagger (k : nat) (children : list Card) :
  List.length (stagger k children) = List.length children.
Proof.
  revert k. induction children as [|card rest IH]; intro k; [reflexivity|].
  cbn [stagger]. destruct (visible card); cbn [List.length]; rewrite IH;
    reflexivity.
Qed.

Lemma length_updateAt {A : Type} (f : A -> A) (i : nat) (l : list A) :
  List.length (updateAt i f l) = List.length l.
Proof.
  revert i. induction l as [|x l IH]; intros [|i]; cbn; try reflexivity.
  rewrite IH. reflexivity.
Qed.

Lemma length_updates {A : Type} (f : A -> A) (places : list nat)
    (l : list A) :
  List.length (fold_left (fun l i => updateAt i f l) places l)
  = List.length l.
Proof.
  revert l. induction places as [|i places IH]; intro l; cbn [fold_left];
    [reflexivity|].
  rewrite IH. apply length_updateAt.
Qed.

(** X24. [filterNewsCards] fails on a page without the grid. On a grid it
    keeps every child in its place; a card handed over is displayed as a
    block when the category is 'all' or its own, and hidden otherwise; a
    child not handed over keeps its display; and every child that is then
    visible gets as its delay 0.1 s times the number of visible children
    before it, while a hidden child keeps its delay. *)
Theorem filter_shows_wanted_cards (category : jsstring)
    (newsCards : list nat) (children : list Card) :
  filterNewsCards category newsCards None = Throws None
  /\ exists after : list Card,
       filterNewsCards category newsCards (Some children)
       = Returns (Some after)
       /\ List.length after = List.length children
       /\ forall (j : nat) (card : Card),
            nth_error children j = Some card ->
            exists card' : Card,
              nth_error after j = Some card'
              /\ data_category card' = data_category card
              /\ display card'
                 = (if existsb (Nat.eqb j) newsCards
                    then if wanted category card
                         then lit "block" else lit "none"
                    else display card)
              /\ animationDelay card'
                 = (if visible card'
                    then Some (delayOf (visibleBefore j after))
                    else animationDelay card).
Proof.
  split; [reflexivity|]. eexists. split; [reflexivity|].
  split; [rewrite length_stagger; apply length_updates|].
  intros j card Hj. rewrite nth_error_stagger, visibleBefore_stagger.
  rewrite (nth_error_updates _ _ _ _ (showOrHide_idem category)), Hj.
  set (mid := fold_left _ newsCards children).
  destruct (existsb (Nat.eqb j) newsCards); cbn [option_map].
  - unfold showOrHide. destruct (wanted category card).
    + eexists. split; [reflexivity|]. repeat split.
    + eexists. split; [reflexivity|]. repeat split.
  - destruct (visible card) eqn:V.
    + eexists. split; [reflexivity|].
      cbn [data_category display animationDelay].
      replace (visible (mkCard (data_category card) (display card)
                               (animation card)
                               (Some (delayOf (0 + visibleBefore j mid)))))
        with true by (symmetry; exact V).
      repeat split.
    + eexists. split; [reflexivity|]. rewrite V. repeat split.
Qed.

End CardsFacts.

(* ===================================================================== *)
(** * Properties of the sample articles *)
(* ===================================================================== *)

Section ArticlesFacts.
Import JSString News Articles ArticlesVocabulary.
Context `{Engine}.

Lemma startsWith_split (pattern s : jsstring) :
  startsWith pattern s = true ->
  s = pattern ++ skipn (List.length pattern) s.
Proof.
  revert s. induction pattern as [|p pattern IH]; intros [|c s];
    cbn [startsWith]; intro E; try discriminate E; try reflexivity.
  apply andb_true_iff in E. destruct E as [Ec Es].
  apply N.eqb_eq in Ec. subst c. cbn [List.length skipn app]. f_equal.
  exact (IH s Es).
Qed.

Lemma replace_absent (pattern replacement s : jsstring) :
  occurs pattern s = false -> replace pattern replacement s = s.
Proof.
  induction s as [|c s IH]; cbn [occurs replace]; intro E;
    apply orb_false_iff in E; destruct E as [E1 E2]; rewrite E1.
  - reflexivity.
  - f_equal. exact (IH E2).
Qed.

Lemma count_replace (c : N) (pattern replacement s : jsstring) :
  occurs pattern s = true ->
  count_occ N.eq_dec (replace pattern replacement s) c
    + count_occ N.eq_dec pattern c
  = count_occ N.eq_dec s c + count_occ N.eq_dec replacement c.
Proof.
  induction s as [|x s IH]; cbn [occurs replace]; intro E.
  - rewrite orb_false_r in E. rewrite E.
    destruct pattern; [|discriminate E]. cbn [List.length skipn].
    rewrite app_nil_r. lia.
  - destruct (startsWith pattern (x :: s)) eqn:S.
    + pose proof (startsWith_split pattern (x :: s) S) as Sp.
      remember (skipn (List.length pattern) (x :: s)) as rest eqn:Er.
      clear Er. rewrite Sp, !count_occ_app. lia.
    + cbn [orb] in E. specialize (IH E). cbn [count_occ].
      destruct (N.eq_dec x c); lia.
Qed.

Lemma occurs_space (s : jsstring) :
  occurs (lit " ") s = true <-> 0 < spaces s.
Proof.
  unfold spaces. induction s as [|x s IH]; cbn [occurs].
  - cbn. split; [discriminate|lia].
  - change (startsWith (lit " ") (x :: s)) with (N.eqb 32 x && true).
    rewrite andb_true_r, orb_true_iff, IH, N.eqb_eq. cbn [count_occ].
    destruct (N.eq_dec x 32) as [->|N]; [split; [lia|left; reflexivity]|].
    split; [intros [E|P]; [congruence|exact P]|intro P; right; exact P].
Qed.

(** X25. Of the lower-cased category only the first ' & ' and then the first
    space become a hyphen: the [data-category] attribute of a sample
    article keeps every other space. *)
Theorem data_category_keeps_later_spaces (category_ : jsstring) :
  spaces (dataCategoryOf category_)
  = spaces (toLowerCase category_)
    - (if occurs (lit " & ") (toLowerCase category_) then 2 else 0)
    - 1.
Proof.
  unfold dataCategoryOf. set (lower := toLowerCase category_).
  set (s1 := replace (lit " & ") (lit "-") lower).
  assert (E1 : spaces s1
               = spaces lower
                 - (if occurs (lit " & ") lower then 2 else 0)).
  { unfold s1. destruct (occurs (lit " & ") lower) eqn:O.
    - pose proof (count_replace 32%N _ (lit "-") _ O) as C.
      unfold spaces.
      change (count_occ N.eq_dec (lit " & ") 32%N) with 2 in C.
      change (count_occ N.eq_dec (lit "-") 32%N) with 0 in C. lia.
    - rewrite (replace_absent _ _ _ O). lia. }
  rewrite <- E1.
  destruct (occurs (lit " ") s1) eqn:O.
  - pose proof (count_replace 32%N _ (lit "-") _ O) as C.
    unfold spaces.
    change (count_occ N.eq_dec (lit " ") 32%N) with 1 in C.
    change (count_occ N.eq_dec (lit "-") 32%N) with 0 in C. lia.
  - rewrite (replace_absent _ _ _ O).
    assert (~ 0 < spaces s1) by (rewrite <- occurs_space; congruence). lia.
Qed.

End ArticlesFacts.

(* ===================================================================== *)
(** * Properties of the dashboard script *)
(* ===================================================================== *)

Section DashboardFacts.
Import JSString Control Dashboard.

(** X26. The dashboard script runs to its end exactly when the page has the
    score element and the list, and its chart is not a canvas without a
    context. Without the score element nothing is written; with it the
    element shows 82; the list then ends with four new items after the ones
    it held, the last of which carries the score the element shows. *)
Theorem script_outcomes (p : Page) :
  (ecoScore_text p = None -> script p = Throws p)
  /\ ((exists p', script p = Returns p')
      <-> ecoScore_text p <> None /\ leaderboardList p <> None
          /\ emissionTrends p <> NoContext)
  /\ (ecoScore_text p <> None ->
      ecoScore_text (stateOf (script p)) = Some (lit "82"))
  /\ (forall p' items,
        script p = Returns p' -> leaderboardList p = Some items ->
        exists score,
          ecoScore_text p' = Some score
          /\ leaderboardList p'
             = Some (items ++ [lit "Alice: EcoScore 95"; lit "Bob: EcoScore 90";
                               lit "Charlie: EcoScore 88";
                               lit "You: EcoScore " ++ score])).
Proof.
  unfold script.
  destruct p as [[score|] trends [items|]]; cbn [ecoScore_text emissionTrends
                                                   leaderboardList];
    (split; [try discriminate; try reflexivity|]).
  - split; [|split].
    + destruct trends; split;
        try (intros _; repeat split; discriminate);
        try (intros [p' E]; discriminate E);
        try (intros [_ [_ N]]; congruence);
        intros _; eexists; reflexivity.
    + intros _. destruct trends; reflexivity.
    + intros p' items' E Ei. injection Ei as <-.
      exists (lit "82"). destruct trends; try discriminate E;
        injection E as <-; cbn [ecoScore_text leaderboardList fold_left];
        rewrite <- !app_assoc; split; reflexivity.
  - split; [|split].
    + split; [|intros [_ [N _]]; congruence].
      intros [p' E]. destruct trends; discriminate E.
    + intros _. destruct trends; reflexivity.
    + intros p' items' _ Ei. discriminate Ei.
  - split; [|split].
    + split; [intros [p' E]; discriminate E|intros [N _]; congruence].
    + intro N. congruence.
    + intros p' items' E. discriminate E.
  - split; [|split].
    + split; [intros [p' E]; discriminate E|intros [N _]; congruence].
    + intro N. congruence.
    + intros p' items' E. discriminate E.
Qed.

End DashboardFacts.
